(** * eth_address_review: the transaction classifier and the ledger builder

    A shallow embedding of [src/transactions.py] and of
    [EtherscanData.get_summary] / [EtherscanData.all_txs] from
    [src/etherscan_data.py], with the properties of the specification
    stated and proved (or refuted) over it; then of the rest of
    [src/etherscan_data.py], the retriever with its cache and the
    constructor of [EtherscanData], with further properties of the code.

    Conventions of the embedding.
    - A raw event is the JSON object returned by the explorer: a Python
      [dict] from field names to strings, here a [gmap string string].
      [tx["k"]] on a missing key raises [KeyError].
    - Python exceptions are values of [exn]; a computation that may raise
      has type [outcome A].
    - A Python [float] is an IEEE-754 binary64 number, here a [spec_float]
      of the standard library with [prec = 53] and [emax = 1024].
    - Strings are strings of 8-bit characters; the builtins [float(s)] and
      [int(s)] are modelled on their ASCII grammar: optional surrounding
      whitespace, an optional sign, underscores between digits, and for
      [float] a fraction, an exponent, [inf], [infinity] and [nan].  The
      limits that CPython puts on the length of a numeral (the digit limit
      of [int], the [10^9] digits of [float]) are left out.
    - [print] is modelled by the list of what was printed, returned with
      the value of [process_transaction].
    - The message string [msg] of [process_contract_transaction] is built
      and never used; it is left out, as are [make_token_message],
      [contract_explorer] and the [datetime] property, which the
      classifier does not call. *)

From Stdlib Require Import ZArith Ascii String List Bool Lia Sorted Permutation.
From Stdlib Require Import SpecFloat.
From stdpp Require Import base option list strings gmap.

Local Open Scope string_scope.
Local Open Scope list_scope.
Local Open Scope Z_scope.

(** ** Exceptions and outcomes *)

Inductive exn : Type :=
| KeyError (key : string)
| IndexError
| ValueError
| OverflowError
| ZeroDivisionError.

Inductive outcome (A : Type) : Type :=
| Ok (a : A)
| Raise (e : exn).
Arguments Ok {A} a.
Arguments Raise {A} e.

Definition outcome_bind {A B} (f : A -> outcome B) (m : outcome A) : outcome B :=
  match m with
  | Ok a => f a
  | Raise e => Raise e
  end.

#[export] Instance outcome_mret : MRet outcome := fun A a => Ok a.
#[export] Instance outcome_mbind : MBind outcome := fun A B f m => outcome_bind f m.

Definition is_Ok {A} (m : outcome A) : bool :=
  match m with Ok _ => true | Raise _ => false end.

(** A [for] loop over a list whose body may raise: the state is threaded
    through the iterations and the first exception ends the loop. *)
Fixpoint for_each {A S} (body : S -> A -> outcome S) (l : list A) (s : S) : outcome S :=
  match l with
  | [] => Ok s
  | a :: l' => s' ← body s a; for_each body l' s'
  end.

(** ** Python builtins used by the program *)

Module Py.

(** [d[k]] on a dict. *)
Definition getitem (d : gmap string string) (k : string) : outcome string :=
  match d !! k with
  | Some v => Ok v
  | None => Raise (KeyError k)
  end.

(** [d.get(k, default)]. *)
Definition get (d : gmap string string) (k default : string) : string :=
  match d !! k with
  | Some v => v
  | None => default
  end.

(** [k in d]. *)
Definition contains (d : gmap string string) (k : string) : bool :=
  match d !! k with
  | Some _ => true
  | None => false
  end.

(** *** Characters *)

Definition code (c : ascii) : Z := Z.of_nat (nat_of_ascii c).

(** [Py_ISSPACE]: space, and the controls from tab to carriage return. *)
Definition is_space (c : ascii) : bool :=
  (code c =? 32) || ((9 <=? code c) && (code c <=? 13)).

Definition is_digit (c : ascii) : bool :=
  (48 <=? code c) && (code c <=? 57).

Definition digit_val (c : ascii) : Z := code c - 48.

Definition is_char (c : ascii) (n : Z) : bool := code c =? n.

(** Case-insensitive comparison with a lower-case letter. *)
Definition is_letter (c : ascii) (lower : Z) : bool :=
  (code c =? lower) || (code c =? lower - 32).

Fixpoint span (p : ascii -> bool) (l : list ascii) : list ascii * list ascii :=
  match l with
  | [] => ([], [])
  | c :: l' =>
      if p c then let '(a, b) := span p l' in (c :: a, b) else ([], l)
  end.

Fixpoint drop_spaces (l : list ascii) : list ascii :=
  match l with
  | [] => []
  | c :: l' => if is_space c then drop_spaces l' else l
  end.

(** Leading and trailing whitespace removed. *)
Definition strip (l : list ascii) : list ascii :=
  rev (drop_spaces (rev (drop_spaces l))).

(** Underscores are digit separators: each one must stand between two
    digits.  [prev] is the character before the head of [l]. *)
Fixpoint strip_underscores (prev : option ascii) (l : list ascii)
  : option (list ascii) :=
  match l with
  | [] => Some []
  | c :: l' =>
      if is_char c 95 then
        match prev, l' with
        | Some p, n :: _ =>
            if is_digit p && is_digit n then strip_underscores (Some c) l'
            else None
        | _, _ => None
        end
      else
        match strip_underscores (Some c) l' with
        | Some r => Some (c :: r)
        | None => None
        end
  end.

Definition digits_val (l : list ascii) : Z :=
  fold_left (fun a c => 10 * a + digit_val c) l 0.

(** An optional sign: [true] for minus. *)
Definition take_sign (l : list ascii) : bool * list ascii :=
  match l with
  | c :: l' =>
      if is_char c 45 then (true, l')
      else if is_char c 43 then (false, l')
      else (false, l)
  | [] => (false, [])
  end.

(** *** [int(s)] for a [str] in base 10 *)

Definition int_of_chars (l : list ascii) : option Z :=
  match strip_underscores None l with
  | None => None
  | Some l1 =>
      let '(neg, l2) := take_sign (drop_spaces l1) in
      let '(ds, rest) := span is_digit l2 in
      match ds, drop_spaces rest with
      | _ :: _, [] => Some (if neg then - digits_val ds else digits_val ds)
      | _, _ => None
      end
  end.

Definition int (s : string) : outcome Z :=
  match int_of_chars (list_ascii_of_string s) with
  | Some n => Ok n
  | None => Raise ValueError
  end.

(** *** binary64 *)

Definition float : Type := spec_float.

Definition prec : Z := 53.
Definition emax : Z := 1024.

(** The nearest binary64 number to the integer [±p], ties to even. *)
Definition round_int (neg : bool) (p : positive) : float :=
  binary_round prec emax neg p 0.

(** The nearest binary64 number to the rational [±p/q], ties to even. *)
Definition round_ratio (neg : bool) (p q : positive) : float :=
  let '(m, e, l) := SFdiv_core_binary prec emax (Zpos p) 0 (Zpos q) 0 in
  binary_round_aux prec emax neg m e l.

(** The nearest binary64 number to [±m * 10^e], for [0 <= m]. *)
Definition round_decimal (neg : bool) (m e : Z) : float :=
  match m with
  | Zpos p =>
      if 0 <=? e then round_int neg (p * Z.to_pos (10 ^ e))
      else round_ratio neg p (Z.to_pos (10 ^ (- e)))
  | _ => S754_zero neg
  end.

(** *** [float(s)] for a [str] *)

(** [inf], [infinity] or [nan] in any letter case. *)
Definition inf_or_nan (neg : bool) (l : list ascii) : option float :=
  match l with
  | [i; n; f] =>
      if is_letter i 105 && is_letter n 110 && is_letter f 102
      then Some (S754_infinity neg)
      else if is_letter i 110 && is_letter n 97 && is_letter f 110
      then Some S754_nan
      else None
  | [i; n; f; i2; n2; i3; t; y] =>
      if is_letter i 105 && is_letter n 110 && is_letter f 102
         && is_letter i2 105 && is_letter n2 110 && is_letter i3 105
         && is_letter t 116 && is_letter y 121
      then Some (S754_infinity neg)
      else None
  | _ => None
  end.

(** The decimal point and the fraction digits, when present. *)
Definition take_fraction (l : list ascii) : list ascii * list ascii :=
  match l with
  | c :: l' => if is_char c 46 then span is_digit l' else ([], l)
  | [] => ([], [])
  end.

(** The exponent part: nothing, or [e], an optional sign and digits up to
    the end of the text. *)
Definition take_exponent (l : list ascii) : option Z :=
  match l with
  | [] => Some 0
  | c :: l' =>
      if is_letter c 101 then
        let '(neg, l2) := take_sign l' in
        let '(ds, rest) := span is_digit l2 in
        match ds, rest with
        | _ :: _, [] => Some (if neg then - digits_val ds else digits_val ds)
        | _, _ => None
        end
      else None
  end.

Definition decimal (neg : bool) (l : list ascii) : option float :=
  let '(ip, r1) := span is_digit l in
  let '(fp, r2) := take_fraction r1 in
  match ip ++ fp with
  | [] => None
  | ds =>
      match take_exponent r2 with
      | Some e => Some (round_decimal neg (digits_val ds) (e - Z.of_nat (length fp)))
      | None => None
      end
  end.

Definition float_of_chars (l : list ascii) : option float :=
  match strip_underscores None l with
  | None => None
  | Some l1 =>
      let '(neg, l2) := take_sign (strip l1) in
      match decimal neg l2 with
      | Some x => Some x
      | None => inf_or_nan neg l2
      end
  end.

Definition float_of_str (s : string) : outcome float :=
  match float_of_chars (list_ascii_of_string s) with
  | Some x => Ok x
  | None => Raise ValueError
  end.

(** *** Arithmetic *)

(** A Python number: [10 ** n] is an [int] for [0 <= n] and a [float]
    otherwise. *)
Inductive number : Type :=
| PyInt (n : Z)
| PyFloat (x : float).

(** [float(n)] for an [int]: correctly rounded, [OverflowError] when the
    integer is too large for a binary64 number. *)
Definition float_of_int (n : Z) : outcome float :=
  match binary_normalize prec emax n 0 false with
  | S754_infinity _ => Raise OverflowError
  | x => Ok x
  end.

(** [10 ** n].  For a negative [n] Python converts both operands to
    [float] and calls the C library's [pow]; the result is taken to be the
    correctly rounded power. *)
Definition pow10 (n : Z) : outcome number :=
  if 0 <=? n then Ok (PyInt (10 ^ n))
  else
    _ ← float_of_int n;
    Ok (PyFloat (round_ratio false 1 (Z.to_pos (10 ^ (- n))))).

Definition is_zero (x : float) : bool :=
  match x with S754_zero _ => true | _ => false end.

(** [x / y] for a [float] [x]. *)
Definition truediv (x : float) (y : number) : outcome float :=
  d ← match y with
      | PyInt n => float_of_int n
      | PyFloat d => Ok d
      end;
  if is_zero d then Raise ZeroDivisionError
  else Ok (SFdiv prec emax x d).

(** [x > 0] for a [float] [x]. *)
Definition gt0 (x : float) : bool := SFltb (S754_zero false) x.

(** [s.split("(")[0]]: the text before the first opening parenthesis. *)
Fixpoint split_head (s : string) : string :=
  match s with
  | EmptyString => EmptyString
  | String c s' => if is_char c 40 then EmptyString else String c (split_head s')
  end.

End Py.

(** ** Data model *)

(** One raw event of the explorer's API. *)
Abbreviation raw_event := (gmap string string).

(** [EtherscanData]: the five event lists loaded for one address. *)
Record EtherscanData : Type := {
  txs : list raw_event;
  internal_txs : list raw_event;
  token_txs : list raw_event;
  nft_txs : list raw_event;
  erc1155_txs : list raw_event
}.

(** The [all_txs] property. *)
Definition all_txs (d : EtherscanData) : list raw_event :=
  txs d ++ internal_txs d ++ token_txs d ++ nft_txs d ++ erc1155_txs d.

(** [[a for a in l if a["hash"] == hash]]: every element is asked for its
    hash, so one event without the key makes the comprehension raise. *)
Fixpoint by_hash (l : list raw_event) (hash : string) : outcome (list raw_event) :=
  match l with
  | [] => Ok []
  | a :: l' =>
      h ← Py.getitem a "hash";
      r ← by_hash l' hash;
      Ok (if String.eqb h hash then a :: r else r)
  end.

Definition token_txs_by_tx_hash (eth_data : EtherscanData) (hash : string)
  : outcome (list raw_event) :=
  by_hash (token_txs eth_data) hash.

Definition internal_txs_by_tx_hash (eth_data : EtherscanData) (hash : string)
  : outcome (list raw_event) :=
  by_hash (internal_txs eth_data) hash.

Record AssetMovement : Type := {
  am_name : string;
  am_value : Py.float;
  am_from_address : string;
  am_to_address : string
}.

Record TransactionResult : Type := {
  tr_hash : string;
  tr_ts : Z;
  tr_from_address : string;
  tr_to_address : string;
  tr_contract : string;
  tr_function : string;
  tr_external : bool;
  tr_eth_movements : list AssetMovement;
  tr_tokens_movements : list AssetMovement;
  tr_error : bool
}.

(** [TransactionResult.__init__] with the default addresses. *)
Definition new_result (hash : string) (ts : Z) : TransactionResult :=
  {| tr_hash := hash; tr_ts := ts;
     tr_from_address := ""; tr_to_address := "";
     tr_contract := ""; tr_function := "";
     tr_external := false;
     tr_eth_movements := []; tr_tokens_movements := [];
     tr_error := false |}.

Definition add_token_movement (r : TransactionResult) (token_name : string)
    (value : Py.float) (from_address to_address : string) : TransactionResult :=
  {| tr_hash := tr_hash r; tr_ts := tr_ts r;
     tr_from_address := tr_from_address r; tr_to_address := tr_to_address r;
     tr_contract := tr_contract r; tr_function := tr_function r;
     tr_external := tr_external r;
     tr_eth_movements := tr_eth_movements r;
     tr_tokens_movements :=
       tr_tokens_movements r
         ++ [ {| am_name := token_name; am_value := value;
                 am_from_address := from_address;
                 am_to_address := to_address |} ];
     tr_error := tr_error r |}.

Definition add_eth_movement (r : TransactionResult)
    (value : Py.float) (from_address to_address : string) : TransactionResult :=
  {| tr_hash := tr_hash r; tr_ts := tr_ts r;
     tr_from_address := tr_from_address r; tr_to_address := tr_to_address r;
     tr_contract := tr_contract r; tr_function := tr_function r;
     tr_external := tr_external r;
     tr_eth_movements :=
       tr_eth_movements r
         ++ [ {| am_name := "ETH"; am_value := value;
                 am_from_address := from_address;
                 am_to_address := to_address |} ];
     tr_tokens_movements := tr_tokens_movements r;
     tr_error := tr_error r |}.

(** Assignments to single attributes of a result. *)
Definition set_external (b : bool) (r : TransactionResult) : TransactionResult :=
  {| tr_hash := tr_hash r; tr_ts := tr_ts r;
     tr_from_address := tr_from_address r; tr_to_address := tr_to_address r;
     tr_contract := tr_contract r; tr_function := tr_function r;
     tr_external := b;
     tr_eth_movements := tr_eth_movements r;
     tr_tokens_movements := tr_tokens_movements r;
     tr_error := tr_error r |}.

Definition set_from_address (a : string) (r : TransactionResult) : TransactionResult :=
  {| tr_hash := tr_hash r; tr_ts := tr_ts r;
     tr_from_address := a; tr_to_address := tr_to_address r;
     tr_contract := tr_contract r; tr_function := tr_function r;
     tr_external := tr_external r;
     tr_eth_movements := tr_eth_movements r;
     tr_tokens_movements := tr_tokens_movements r;
     tr_error := tr_error r |}.

Definition set_to_address (a : string) (r : TransactionResult) : TransactionResult :=
  {| tr_hash := tr_hash r; tr_ts := tr_ts r;
     tr_from_address := tr_from_address r; tr_to_address := a;
     tr_contract := tr_contract r; tr_function := tr_function r;
     tr_external := tr_external r;
     tr_eth_movements := tr_eth_movements r;
     tr_tokens_movements := tr_tokens_movements r;
     tr_error := tr_error r |}.

Definition set_contract (c : string) (r : TransactionResult) : TransactionResult :=
  {| tr_hash := tr_hash r; tr_ts := tr_ts r;
     tr_from_address := tr_from_address r; tr_to_address := tr_to_address r;
     tr_contract := c; tr_function := tr_function r;
     tr_external := tr_external r;
     tr_eth_movements := tr_eth_movements r;
     tr_tokens_movements := tr_tokens_movements r;
     tr_error := tr_error r |}.

Definition set_function (f : string) (r : TransactionResult) : TransactionResult :=
  {| tr_hash := tr_hash r; tr_ts := tr_ts r;
     tr_from_address := tr_from_address r; tr_to_address := tr_to_address r;
     tr_contract := tr_contract r; tr_function := f;
     tr_external := tr_external r;
     tr_eth_movements := tr_eth_movements r;
     tr_tokens_movements := tr_tokens_movements r;
     tr_error := tr_error r |}.

Definition set_error (b : bool) (r : TransactionResult) : TransactionResult :=
  {| tr_hash := tr_hash r; tr_ts := tr_ts r;
     tr_from_address := tr_from_address r; tr_to_address := tr_to_address r;
     tr_contract := tr_contract r; tr_function := tr_function r;
     tr_external := tr_external r;
     tr_eth_movements := tr_eth_movements r;
     tr_tokens_movements := tr_tokens_movements r;
     tr_error := b |}.

(** The columns of a ledger row that the classifier reads:
    [tx_row["hash"]], [tx_row["timestamp"]] and [tx_row["normal"]]. *)
Record tx_row : Type := {
  row_hash : string;
  row_timestamp : Z;
  row_normal : Z
}.

Record TransactionExplorer : Type := {
  address_data : EtherscanData;
  ds_proxy_data : EtherscanData;
  address_book : gmap string string;
  known_contracts : gmap string string
}.

(** What [print] wrote: a text line, or the [repr] of a raw event. *)
Inductive printed : Type :=
| PrintStr (s : string)
| PrintDict (d : raw_event).

(** ** The transaction classifier *)

Section Classifier.

Variable self : TransactionExplorer.

Definition get_address_name (hash : string) : string :=
  Py.get (address_book self) hash hash.

(** [float(e["value"]) / 10 ** 18]. *)
Definition eth_value (e : raw_event) : outcome Py.float :=
  v ← Py.getitem e "value";
  x ← Py.float_of_str v;
  Py.truediv x (Py.PyInt (10 ^ 18)).

(** [float(e["value"]) / 10 ** int(e["tokenDecimal"])]. *)
Definition token_value (e : raw_event) : outcome Py.float :=
  v ← Py.getitem e "value";
  x ← Py.float_of_str v;
  d ← Py.getitem e "tokenDecimal";
  n ← Py.int d;
  p ← Py.pow10 n;
  Py.truediv x p.

(** Body of the loops over the primary address's token events. *)
Definition token_body (result : TransactionResult) (token_tx : raw_event)
  : outcome TransactionResult :=
  value ← token_value token_tx;
  token_name ← Py.getitem token_tx "tokenSymbol";
  f ← Py.getitem token_tx "from";
  t ← Py.getitem token_tx "to";
  Ok (add_token_movement result token_name value
        (get_address_name f) (get_address_name t)).

(** Body of the loops over the internal events. *)
Definition internal_body (result : TransactionResult) (internal_tx : raw_event)
  : outcome TransactionResult :=
  value ← eth_value internal_tx;
  f ← Py.getitem internal_tx "from";
  t ← Py.getitem internal_tx "to";
  Ok (add_eth_movement result value (get_address_name f) (get_address_name t)).

(** Body of the loop over the proxy address's token events; the two
    [continue] statements leave the result as it is. *)
Definition ds_token_body (result : TransactionResult) (token_tx : raw_event)
  : outcome TransactionResult :=
  value ← token_value token_tx;
  token_name ← Py.getitem token_tx "tokenSymbol";
  token_from ← Py.getitem token_tx "from";
  token_to ← Py.getitem token_tx "to";
  let from_address := get_address_name token_from in
  if String.eqb from_address "ADDRESS_OF_INTEREST" then Ok result
  else
    let to_address := get_address_name token_to in
    if String.eqb to_address "ADDRESS_OF_INTEREST" then Ok result
    else Ok (add_token_movement result token_name value from_address to_address).

Definition process_contract_transaction (row : tx_row) (tx : raw_event)
    (result : TransactionResult) : outcome TransactionResult :=
  to ← Py.getitem tx "to";
  contract_name ← Py.getitem (address_book self) to;
  let result := set_contract contract_name result in
  if String.eqb contract_name "Maker: Proxy Registry" then Ok result
  else
    fn ← Py.getitem tx "functionName";
    let result := set_function (Py.split_head fn) result in
    is_error ← Py.getitem tx "isError";
    n ← Py.int is_error;
    if 0 <? n then Ok (set_error true result)
    else
      value ← eth_value tx;
      result ← (if Py.gt0 value then
                  f ← Py.getitem tx "from";
                  t ← Py.getitem tx "to";
                  Ok (add_eth_movement result value
                        (get_address_name f) (get_address_name t))
                else Ok result);
      token_txs ← token_txs_by_tx_hash (address_data self) (row_hash row);
      internal_txs ← internal_txs_by_tx_hash (address_data self) (row_hash row);
      ds_token_txs ← token_txs_by_tx_hash (ds_proxy_data self) (row_hash row);
      result ← for_each token_body token_txs result;
      result ← for_each internal_body internal_txs result;
      for_each ds_token_body ds_token_txs result.

(** [process_transaction] returns what it printed together with its
    value; [None] is the bare [return] of the unknown-contract case. *)
Definition process_transaction (row : tx_row)
  : outcome (list printed * option TransactionResult) :=
  let hash := row_hash row in
  let result := new_result (row_hash row) (row_timestamp row) in
  if row_normal row <? 1 then
    let result := set_external true result in
    token_txs ← token_txs_by_tx_hash (address_data self) (row_hash row);
    result ← for_each token_body token_txs result;
    internal_txs ← internal_txs_by_tx_hash (address_data self) (row_hash row);
    result ← for_each internal_body internal_txs result;
    Ok ([], Some result)
  else
    matching ← by_hash (txs (address_data self)) hash;
    match matching with
    | [] => Raise IndexError
    | tx :: _ =>
        f ← Py.getitem tx "from";
        let result := set_from_address (get_address_name f) result in
        t ← Py.getitem tx "to";
        let result := set_to_address (get_address_name t) result in
        input ← Py.getitem tx "input";
        if String.eqb input "0x" then
          value ← eth_value tx;
          f ← Py.getitem tx "from";
          t ← Py.getitem tx "to";
          Ok ([], Some (add_eth_movement result value
                          (get_address_name f) (get_address_name t)))
        else
          f ← Py.getitem tx "from";
          if String.eqb (get_address_name f) "ADDRESS_OF_INTEREST" then
            t ← Py.getitem tx "to";
            if negb (Py.contains (known_contracts self) t) then
              t' ← Py.getitem tx "to";
              Ok ([PrintStr (String.append "NEW CONTRACT: " t'); PrintDict tx], None)
            else
              r ← process_contract_transaction row tx result;
              Ok ([], Some r)
          else Ok ([], Some result)
    end.

End Classifier.

(** ** The ledger builder *)

(** [sorted(l, key=...)]: Python's sort is stable, and a stable sort has
    one possible result, here computed by insertion: an element goes in
    front of the first later element whose key is not smaller. *)
Section Sorted.

Context {A : Type} (key : A -> Z).

Fixpoint insert_by_key (x : A) (l : list A) : list A :=
  match l with
  | [] => [x]
  | y :: l' => if key x <=? key y then x :: l else y :: insert_by_key x l'
  end.

Fixpoint sorted_by_key (l : list A) : list A :=
  match l with
  | [] => []
  | x :: l' => insert_by_key x (sorted_by_key l')
  end.

End Sorted.

Section Ledger.

(** [datetime.fromtimestamp] depends on the platform and on the local
    time zone, and fails outside the range the platform supports; it is a
    parameter of the model, with the types of [datetime] and [date]
    objects and the [datetime.date] method. *)
Variables datetime date : Type.
Variable fromtimestamp : Z -> outcome datetime.
Variable datetime_date : datetime -> date.

(** One row of the summary frame.  The optional [prefix] of
    [get_summary] only renames the five count columns. *)
Record summary_row : Type := {
  sr_hash : string;
  sr_timestamp : Z;
  sr_datetime : datetime;
  sr_date : date;
  sr_normal : Z;
  sr_has_internal : Z;
  sr_erc20 : Z;
  sr_erc721 : Z;
  sr_erc1155 : Z
}.

(** The five count columns. *)
Inductive column : Type := normal | has_internal | erc20 | erc721 | erc1155.

Definition get_column (c : column) (r : summary_row) : Z :=
  match c with
  | normal => sr_normal r
  | has_internal => sr_has_internal r
  | erc20 => sr_erc20 r
  | erc721 => sr_erc721 r
  | erc1155 => sr_erc1155 r
  end.

Definition set_column (c : column) (n : Z) (r : summary_row) : summary_row :=
  {| sr_hash := sr_hash r; sr_timestamp := sr_timestamp r;
     sr_datetime := sr_datetime r; sr_date := sr_date r;
     sr_normal := match c with normal => n | _ => sr_normal r end;
     sr_has_internal := match c with has_internal => n | _ => sr_has_internal r end;
     sr_erc20 := match c with erc20 => n | _ => sr_erc20 r end;
     sr_erc721 := match c with erc721 => n | _ => sr_erc721 r end;
     sr_erc1155 := match c with erc1155 => n | _ => sr_erc1155 r end |}.

(** The event list that a count column is computed from. *)
Definition column_events (d : EtherscanData) (c : column) : list raw_event :=
  match c with
  | normal => txs d
  | has_internal => internal_txs d
  | erc20 => token_txs d
  | erc721 => nft_txs d
  | erc1155 => erc1155_txs d
  end.

(** Body of the first loop: events whose hash was seen are skipped. *)
Definition seen_body (st : gset string * list (string * Z)) (tx : raw_event)
  : outcome (gset string * list (string * Z)) :=
  h ← Py.getitem tx "hash";
  if bool_decide (h ∈ st.1) then Ok st
  else
    ts ← Py.getitem tx "timeStamp";
    n ← Py.int ts;
    Ok ({[ h ]} ∪ st.1, st.2 ++ [(h, n)]).

(** [DataFrame.from_records] with the [datetime] and [date] columns and
    the five count columns at 0. *)
Fixpoint make_frame (l : list (string * Z)) : outcome (list summary_row) :=
  match l with
  | [] => Ok []
  | (h, ts) :: l' =>
      dt ← fromtimestamp ts;
      rows ← make_frame l';
      Ok ({| sr_hash := h; sr_timestamp := ts;
             sr_datetime := dt; sr_date := datetime_date dt;
             sr_normal := 0; sr_has_internal := 0; sr_erc20 := 0;
             sr_erc721 := 0; sr_erc1155 := 0 |} :: rows)
  end.

(** [data.loc[data["hash"] == hash, c] = n]. *)
Definition loc_assign (c : column) (hash : string) (n : Z)
    (data : list summary_row) : list summary_row :=
  map (fun r => if String.eqb (sr_hash r) hash then set_column c n r else r) data.

(** Body of the loop that fills the count column [c] from the list
    [events]. *)
Definition count_body (c : column) (events : list raw_event)
    (data : list summary_row) (tx : raw_event) : outcome (list summary_row) :=
  h ← Py.getitem tx "hash";
  same ← by_hash events h;
  Ok (loc_assign c h (Z.of_nat (length same)) data).

Definition count_loop (d : EtherscanData) (c : column) (data : list summary_row)
  : outcome (list summary_row) :=
  for_each (count_body c (column_events d c)) (column_events d c) data.

Definition get_summary (d : EtherscanData) : outcome (list summary_row) :=
  st ← for_each seen_body (all_txs d) (∅, []);
  let hashes_with_ts := sorted_by_key snd st.2 in
  data ← make_frame hashes_with_ts;
  data ← count_loop d normal data;
  data ← count_loop d has_internal data;
  data ← count_loop d erc20 data;
  data ← count_loop d erc721 data;
  count_loop d erc1155 data.

(** The columns of a summary row that [process_transaction] reads. *)
Definition row_of (r : summary_row) : tx_row :=
  {| row_hash := sr_hash r; row_timestamp := sr_timestamp r;
     row_normal := sr_normal r |}.

End Ledger.

(** ** Vocabulary of the specification *)

(** A function that may raise, applied to every element of a list in
    order; the first exception is the result. *)
Fixpoint map_outcome {A B} (f : A -> outcome B) (l : list A) : outcome (list B) :=
  match l with
  | [] => Ok []
  | a :: l' => b ← f a; r ← map_outcome f l'; Ok (b :: r)
  end.

(** The events of a list that share a hash. *)
Definition sharing_hash (hash : string) (l : list raw_event) : list raw_event :=
  filter (fun e : raw_event => e !! "hash" = Some hash) l.

(** Every event of the list carries a ["hash"] field. *)
Definition hashed (l : list raw_event) : Prop :=
  Forall (fun e : raw_event => is_Some (e !! "hash")) l.

#[export] Instance hashed_dec l : Decision (hashed l).
Proof. unfold hashed. apply _. Defined.

(** The normalized form of a token event: the amount is the value over
    ten to the token's decimals, the asset is the token symbol, and the
    two parties are resolved through the address book. *)
Definition normalize_token (self : TransactionExplorer) (e : raw_event)
  : outcome AssetMovement :=
  value ← token_value e;
  symbol ← Py.getitem e "tokenSymbol";
  f ← Py.getitem e "from";
  t ← Py.getitem e "to";
  Ok {| am_name := symbol; am_value := value;
        am_from_address := get_address_name self f;
        am_to_address := get_address_name self t |}.

(** The normalized form of an internal event: an ETH movement of the
    value over [10^18]. *)
Definition normalize_internal (self : TransactionExplorer) (e : raw_event)
  : outcome AssetMovement :=
  value ← eth_value e;
  f ← Py.getitem e "from";
  t ← Py.getitem e "to";
  Ok {| am_name := "ETH"; am_value := value;
        am_from_address := get_address_name self f;
        am_to_address := get_address_name self t |}.

(** A proxy movement is kept when neither party is the address of
    interest. *)
Definition kept_proxy_movement (m : AssetMovement) : Prop :=
  am_from_address m ≠ "ADDRESS_OF_INTEREST"
  ∧ am_to_address m ≠ "ADDRESS_OF_INTEREST".

#[export] Instance kept_proxy_movement_dec m : Decision (kept_proxy_movement m).
Proof. unfold kept_proxy_movement. apply _. Defined.

(** The token-category events of the specification: ERC-20, ERC-721 and
    ERC-1155 events together. *)
Definition token_category_events (d : EtherscanData) : list raw_event :=
  token_txs d ++ nft_txs d ++ erc1155_txs d.

(** The computation does not end in [IndexError]. *)
Definition no_index_error {A} (m : outcome A) : Prop := m ≠ Raise IndexError.

(** The binary64 numbers [2.0], [10^18], [1.5] and [3.0]. *)
Definition two : Py.float := S754_finite false 4503599627370496 (-51).
Definition ten_pow_18 : Py.float := S754_finite false 7812500000000000 7.
Definition one_and_a_half : Py.float := S754_finite false 6755399441055744 (-52).
Definition three : Py.float := S754_finite false 6755399441055744 (-51).

(** [x / 10^18] in binary64 arithmetic. *)
Definition div_1e18 (x : Py.float) : Py.float :=
  SFdiv Py.prec Py.emax x ten_pow_18.

(** Results that differ in their movement lists only. *)
Definition with_movements (r : TransactionResult)
    (eths tokens : list AssetMovement) : TransactionResult :=
  {| tr_hash := tr_hash r; tr_ts := tr_ts r;
     tr_from_address := tr_from_address r; tr_to_address := tr_to_address r;
     tr_contract := tr_contract r; tr_function := tr_function r;
     tr_external := tr_external r;
     tr_eth_movements := eths; tr_tokens_movements := tokens;
     tr_error := tr_error r |}.


(** *** The ledger *)

Arguments sr_hash {datetime date} _.
Arguments sr_timestamp {datetime date} _.
Arguments sr_datetime {datetime date} _.
Arguments sr_date {datetime date} _.
Arguments sr_normal {datetime date} _.
Arguments sr_has_internal {datetime date} _.
Arguments sr_erc20 {datetime date} _.
Arguments sr_erc721 {datetime date} _.
Arguments sr_erc1155 {datetime date} _.
Arguments get_column {datetime date} _ _.
Arguments set_column {datetime date} _ _ _.
Arguments loc_assign {datetime date} _ _ _ _.
Arguments count_body {datetime date} _ _ _ _.
Arguments count_loop {datetime date} _ _ _.
Arguments row_of {datetime date} _.

#[export] Instance column_eq_dec : EqDecision column.
Proof. solve_decision. Defined.

(** The hash and the timestamp of an event, as the first loop of
    [get_summary] reads them. *)
Definition event_key (e : raw_event) : outcome (string * Z) :=
  h ← Py.getitem e "hash";
  ts ← Py.getitem e "timeStamp";
  n ← Py.int ts;
  Ok (h, n).

(** [x] stands somewhere before [y] in the list. *)
Definition precedes {A} (x y : A) (l : list A) : Prop :=
  exists l1 l2 l3, l = l1 ++ x :: l2 ++ y :: l3.

(** [p] is the first pair of the list with its hash. *)
Definition first_occurrence (ps : list (string * Z)) (p : string * Z) : Prop :=
  exists l1 l2, ps = l1 ++ p :: l2 /\ (p.1 ∉ l1.*1).

(** The hash [h1] is met in the list at a place where neither [h1] nor
    [h2] has been met before. *)
Definition seen_earlier (ps : list (string * Z)) (h1 h2 : string) : Prop :=
  exists l1 p l2,
    ps = l1 ++ p :: l2 /\ p.1 = h1 /\ (h1 ∉ l1.*1) /\ (h2 ∉ l1.*1).

(** The pairs that the first loop keeps when it starts with the set
    [seen]. *)
Fixpoint first_seen (seen : gset string) (ps : list (string * Z))
  : list (string * Z) :=
  match ps with
  | [] => []
  | p :: ps' =>
      if bool_decide (p.1 ∈ seen) then first_seen seen ps'
      else p :: first_seen ({[ p.1 ]} ∪ seen) ps'
  end.

(** [precedes], by recursion on the list. *)
Fixpoint before {A} (x y : A) (l : list A) : Prop :=
  match l with
  | [] => False
  | z :: l' => (z = x /\ y ∈ l') \/ before x y l'
  end.

(** The hashes of a list of events. *)
Definition hashes (l : list raw_event) : list string :=
  omap (fun e : raw_event => e !! "hash") l.

(** What the loop for the column [c] does to one row once it has gone
    through events with the hashes [hs]. *)
Definition count_upd {datetime date} (c : column) (events : list raw_event)
    (hs : list string) (r : summary_row datetime date) : summary_row datetime date :=
  if bool_decide (sr_hash r ∈ hs)
  then set_column c (Z.of_nat (length (sharing_hash (sr_hash r) events))) r
  else r.

(** The rows are those of the keys, the columns of [filled] hold their
    counts and the other columns hold 0. *)
Definition filled_frame {datetime date} (d : EtherscanData) (filled : list column)
    (keys : list (string * Z)) (rows : list (summary_row datetime date)) : Prop :=
  Forall2 (fun p r =>
             sr_hash r = p.1 /\ sr_timestamp r = p.2
             /\ forall c, get_column c r
                          = if bool_decide (c ∈ filled)
                            then Z.of_nat (length (sharing_hash (sr_hash r)
                                                     (column_events d c)))
                            else 0)
    keys rows.

(** ** The raw event store: retrieval and cache

    [EtherscanDataRetriever] and the constructor of [EtherscanData].  The
    code reads and writes pickle files and asks the explorer over HTTP;
    the model threads a [world] through it: the cache files, the requests
    sent so far and what was printed.
    - A cache file holds a [dict] from addresses to results; [pickle.dump]
      followed by [pickle.load] gives the value back, so a file is
      modelled by the dictionary it holds.  Directories are not modelled.
    - The code never looks into a result; the model is generic in the
      type [R] of results.  The explorer may answer [null]: a result is
      an [option R], [None] being Python's [None].
    - The values of a parameter dictionary are the strings that the
      request carries ([0] is ["0"]).
    - What lies outside the program is a [platform]: how [pathlib] joins
      the cache directory and a file name, which paths can be opened for
      writing, and what [requests.get(...).json()["result"]] gives for a
      request after the requests already made. *)

Inductive io_exn : Type :=
| PyExn (e : exn)
| RequestException
| OSError.

Inductive io_result (A : Type) : Type :=
| Done (a : A)
| Failed (e : io_exn).
Arguments Done {A} a.
Arguments Failed {A} e.

Record request : Type := {
  req_url : string;
  req_params : gmap string string
}.

(** The two messages that the retriever prints. *)
Inductive cache_message : Type :=
| FoundInCache (params : gmap string string)
| CannotUpdateCache (params : gmap string string).

Record world (R : Type) : Type := {
  files : gmap string (gmap string (option R));
  requests : list request;
  stdout : list cache_message
}.
Arguments files {R} _.
Arguments requests {R} _.
Arguments stdout {R} _.

Record platform (R : Type) : Type := {
  path_join : string -> string -> string;
  writable : string -> bool;
  respond : list request -> request -> io_result (option R)
}.
Arguments path_join {R} _ _ _.
Arguments writable {R} _ _.
Arguments respond {R} _ _ _.

Record EtherscanDataRetriever : Type := {
  r_api_key : string;
  r_etherscan_url : string;
  r_cache_path : string;
  r_account_actions : list string
}.

Definition default_url : string := "https://api.etherscan.io/api".
Definition default_cache_path : string := "data/cache".

(** [EtherscanDataRetriever.__init__]. *)
Definition retriever_init (api_key etherscan_url cache_path : string)
  : EtherscanDataRetriever :=
  {| r_api_key := api_key;
     r_etherscan_url := etherscan_url;
     r_cache_path := cache_path;
     r_account_actions :=
       ["txlist"; "txlistinternal"; "tokentx"; "tokennfttx"; "token1155tx"] |}.

Section Store.

Context {R : Type}.

(** A computation that reads and changes the world and may raise. *)
Definition io (A : Type) : Type := world R -> world R * io_result A.

Definition io_ret {A} (a : A) : io A := fun w => (w, Done a).

Definition io_bind {A B} (f : A -> io B) (m : io A) : io B :=
  fun w =>
    match m w with
    | (w', Done a) => f a w'
    | (w', Failed e) => (w', Failed e)
    end.

#[export] Instance io_mret : MRet io := fun A a => io_ret a.
#[export] Instance io_mbind : MBind io := fun A B f m => io_bind f m.

(** A pure computation of the interpreter inside [io]. *)
Definition lift {A} (m : outcome A) : io A :=
  fun w =>
    (w, match m with
        | Ok a => Done a
        | Raise e => Failed (PyExn e)
        end).

Definition print (m : cache_message) : io unit :=
  fun w =>
    ({| files := files w; requests := requests w; stdout := stdout w ++ [m] |},
     Done tt).

(** [path.exists()] and, when the file is there, [pickle.load]. *)
Definition read_cache (path : string) : io (option (gmap string (option R))) :=
  fun w => (w, Done (files w !! path)).

(** [open(path, "wb")] and [pickle.dump]. *)
Definition write_cache (P : platform R) (path : string)
    (cache_data : gmap string (option R)) : io unit :=
  fun w =>
    if writable P path
    then ({| files := <[path := cache_data]> (files w);
             requests := requests w; stdout := stdout w |}, Done tt)
    else (w, Failed OSError).

(** [requests.get(url, params=params, ...).json()["result"]]. *)
Definition http_result (P : platform R) (url : string)
    (params : gmap string string) : io (option R) :=
  fun w =>
    let q := {| req_url := url; req_params := params |} in
    ({| files := files w; requests := requests w ++ [q]; stdout := stdout w |},
     respond P (requests w) q).

(** [f"{params['module']}_{params['action']}.pkl"]. *)
Definition cache_name (params : gmap string string) : outcome string :=
  module ← Py.getitem params "module";
  action ← Py.getitem params "action";
  Ok (String.append module (String.append "_" (String.append action ".pkl"))).

(** [params["module"] == "account" and params["action"] in
    self.account_actions]. *)
Definition is_account_action (self : EtherscanDataRetriever)
    (params : gmap string string) : outcome bool :=
  module ← Py.getitem params "module";
  if String.eqb module "account" then
    action ← Py.getitem params "action";
    Ok (bool_decide (action ∈ r_account_actions self))
  else Ok false.

Definition get_from_cache (P : platform R) (self : EtherscanDataRetriever)
    (params : gmap string string) : io (option R) :=
  name ← lift (cache_name params);
  let cache_path := path_join P (r_cache_path self) name in
  file ← read_cache cache_path;
  match file with
  | None => io_ret None
  | Some cache_data =>
      account ← lift (is_account_action self params);
      if account : bool then
        address ← lift (Py.getitem params "address");
        match cache_data !! address with
        | Some result =>
            _ ← print (FoundInCache params);
            io_ret result
        | None => io_ret None
        end
      else io_ret None
  end.

Definition update_cache (P : platform R) (self : EtherscanDataRetriever)
    (params : gmap string string) (result : option R) : io unit :=
  name ← lift (cache_name params);
  let cache_path := path_join P (r_cache_path self) name in
  file ← read_cache cache_path;
  let cache_data := default ∅ file in
  account ← lift (is_account_action self params);
  cache_data ← (if account : bool then
                  address ← lift (Py.getitem params "address");
                  io_ret (<[address := result]> cache_data)
                else
                  _ ← print (CannotUpdateCache params);
                  io_ret cache_data);
  write_cache P cache_path cache_data.

Definition get_data (P : platform R) (self : EtherscanDataRetriever)
    (params : gmap string string) : io (option R) :=
  result ← get_from_cache P self params;
  match result with
  | Some r => io_ret (Some r)
  | None =>
      result ← http_result P (r_etherscan_url self) params;
      _ ← update_cache P self params result;
      io_ret result
  end.

(** The object that [EtherscanData.__init__] builds. *)
Record EtherscanObject : Type := {
  o_api_key : string;
  o_address : string;
  o_etherscan_url : string;
  o_etherscan : EtherscanDataRetriever;
  o_txs : option R;
  o_internal_txs : option R;
  o_token_txs : option R;
  o_nft_txs : option R;
  o_erc1155_txs : option R
}.

(** The parameter dictionary of [load_transactions] with its [action]. *)
Definition account_params (address api_key action : string)
  : gmap string string :=
  <["action" := action]>
    (list_to_map
       [("module", "account"); ("action", "txlist"); ("address", address);
        ("startblock", "0"); ("endblock", "99999999"); ("sort", "asc");
        ("apikey", api_key)]).

(** [EtherscanData.__init__], with [load_transactions]: the retriever is
    built from the API key alone. *)
Definition EtherscanData_init (P : platform R)
    (address api_key etherscan_url : string) : io EtherscanObject :=
  let etherscan := retriever_init api_key default_url default_cache_path in
  txs_list ← get_data P etherscan (account_params address api_key "txlist");
  internal_txs_list ←
    get_data P etherscan (account_params address api_key "txlistinternal");
  token_txs_list ←
    get_data P etherscan (account_params address api_key "tokentx");
  nft_txs_list ←
    get_data P etherscan (account_params address api_key "tokennfttx");
  erc155_txs_list ←
    get_data P etherscan (account_params address api_key "token1155tx");
  io_ret {| o_api_key := api_key; o_address := address;
            o_etherscan_url := etherscan_url; o_etherscan := etherscan;
            o_txs := txs_list; o_internal_txs := internal_txs_list;
            o_token_txs := token_txs_list; o_nft_txs := nft_txs_list;
            o_erc1155_txs := erc155_txs_list |}.

End Store.

Arguments io R A : clear implicits.
Arguments EtherscanObject R : clear implicits.

(** *** Vocabulary for the cache *)

Section StoreVocabulary.

Context {R : Type}.

(** The path of the cache file that a parameter dictionary selects. *)
Definition cache_file (P : platform R) (self : EtherscanDataRetriever)
    (params : gmap string string) : outcome string :=
  name ← cache_name params;
  Ok (path_join P (r_cache_path self) name).

(** What a cache file holds for an address: nothing ([None]), or a
    result, which may be Python's [None]. *)
Definition cache_entry (w : world R) (path address : string) : option (option R) :=
  files w !! path ≫= fun cache_data => cache_data !! address.

(** The request that [get_data] sends for a parameter dictionary. *)
Definition request_of (self : EtherscanDataRetriever)
    (params : gmap string string) : request :=
  {| req_url := r_etherscan_url self; req_params := params |}.

(** The world after one more line of output. *)
Definition printing (m : cache_message) (w : world R) : world R :=
  {| files := files w; requests := requests w; stdout := stdout w ++ [m] |}.

(** The world after one more request. *)
Definition requesting (q : request) (w : world R) : world R :=
  {| files := files w; requests := requests w ++ [q]; stdout := stdout w |}.

(** Two parameter dictionaries with the same module, action and
    address. *)
Definition same_cache_key (params params' : gmap string string) : Prop :=
  params' !! "module" = params !! "module"
  /\ params' !! "action" = params !! "action"
  /\ params' !! "address" = params !! "address".

(** The cache files of the five account actions are five files. *)
Definition distinct_cache_files (P : platform R) (cache_path : string) : Prop :=
  NoDup (path_join P cache_path
           <$> ["account_txlist.pkl"; "account_txlistinternal.pkl";
                "account_tokentx.pkl"; "account_tokennfttx.pkl";
                "account_token1155tx.pkl"]).

(** The file of an account action in the default cache directory. *)
Definition action_file (P : platform R) (action : string) : string :=
  path_join P default_cache_path
    (String.append "account" (String.append "_" (String.append action ".pkl"))).

(** The requests of the constructor of [EtherscanData]: to the default
    URL, for the account module, the address and the key. *)
Definition init_request (address api_key : string) (q : request) : Prop :=
  req_url q = default_url
  /\ req_params q !! "module" = Some "account"
  /\ req_params q !! "address" = Some address
  /\ req_params q !! "apikey" = Some api_key.

(** At most [n] requests of the constructor lead from [w] to [w']. *)
Definition sent (address api_key : string) (n : nat) (w w' : world R) : Prop :=
  exists qs, requests w' = requests w ++ qs
             /\ (length qs <= n)%nat
             /\ Forall (init_request address api_key) qs.

End StoreVocabulary.

(** *** Vocabulary for the results of the classifier *)

(** Every movement of the list is a movement of ETH. *)
Definition eth_named (ms : list AssetMovement) : Prop :=
  Forall (fun m => am_name m = "ETH") ms.

(** The text holds no opening parenthesis. *)
Fixpoint no_paren (s : string) : bool :=
  match s with
  | EmptyString => true
  | String c s' => negb (Py.is_char c 40) && no_paren s'
  end.

(** *** Vocabulary for the summary frame *)

(** The number of events that a row of the summary counts. *)
Definition row_total {datetime date} (r : summary_row datetime date) : Z :=
  sr_normal r + sr_has_internal r + sr_erc20 r + sr_erc721 r + sr_erc1155 r.

(** The sum of a function over the rows. *)
Definition sum_rows {A} (f : A -> Z) (rows : list A) : Z :=
  foldr (fun r acc => f r + acc) 0 rows.

(** [e] is the first event of the list with the hash [h]. *)
Definition first_of_hash (l : list raw_event) (e : raw_event) (h : string) : Prop :=
  exists l1 l2, l = l1 ++ e :: l2 /\ e !! "hash" = Some h /\ h ∉ hashes l1.

(** ** Sample data *)

Module Sample.

Definition event (fields : list (string * string)) : raw_event :=
  list_to_map fields.

Definition no_events : EtherscanData :=
  {| txs := []; internal_txs := []; token_txs := []; nft_txs := [];
     erc1155_txs := [] |}.

Definition book : gmap string string :=
  list_to_map [("0xme", "ADDRESS_OF_INTEREST"); ("0xproxy", "DSProxy");
               ("0xreg", "Maker: Proxy Registry"); ("0xdex", "Exchange")].

Definition contracts : gmap string string :=
  list_to_map [("0xproxy", "DSProxy"); ("0xreg", "Maker: Proxy Registry");
               ("0xdex", "Exchange"); ("0xvault", "Vault")].

(** A plain transfer of 2 ETH to an address that is no known contract,
    with a token event and an internal event under the same hash. *)
Definition plain_tx : raw_event :=
  event [("hash", "0xa1"); ("timeStamp", "1600000000"); ("from", "0xme");
         ("to", "0xfriend"); ("input", "0x");
         ("value", "2000000000000000000"); ("isError", "0");
         ("functionName", "")].

Definition usdc_in : raw_event :=
  event [("hash", "0xa1"); ("timeStamp", "1600000000"); ("from", "0xdex");
         ("to", "0xme"); ("value", "1500000"); ("tokenDecimal", "6");
         ("tokenSymbol", "USDC"); ("tokenName", "USD Coin")].

Definition eth_in : raw_event :=
  event [("hash", "0xa1"); ("timeStamp", "1600000000"); ("from", "0xdex");
         ("to", "0xme"); ("value", "1000000000000000000")].

Definition plain_data : EtherscanData :=
  {| txs := [plain_tx]; internal_txs := [eth_in]; token_txs := [usdc_in];
     nft_txs := []; erc1155_txs := [] |}.

Definition plain_explorer : TransactionExplorer :=
  {| address_data := plain_data; ds_proxy_data := no_events;
     address_book := book; known_contracts := contracts |}.

Definition plain_row : tx_row :=
  {| row_hash := "0xa1"; row_timestamp := 1600000000; row_normal := 1 |}.

(** A plain transfer of no value. *)
Definition zero_tx : raw_event :=
  event [("hash", "0xa2"); ("timeStamp", "1600000100"); ("from", "0xme");
         ("to", "0xfriend"); ("input", "0x"); ("value", "0")].

Definition zero_explorer : TransactionExplorer :=
  {| address_data :=
       {| txs := [zero_tx]; internal_txs := []; token_txs := [];
          nft_txs := []; erc1155_txs := [] |};
     ds_proxy_data := no_events;
     address_book := book; known_contracts := contracts |}.

Definition zero_row : tx_row :=
  {| row_hash := "0xa2"; row_timestamp := 1600000100; row_normal := 1 |}.

(** An inbound transaction seen through its sub-events only: one ERC-20
    event, one ERC-721 event and one internal event. *)
Definition nft_in : raw_event :=
  event [("hash", "0xb1"); ("timeStamp", "1600000200"); ("from", "0xdex");
         ("to", "0xme"); ("value", "1"); ("tokenDecimal", "0");
         ("tokenSymbol", "PUNK"); ("tokenName", "Punk"); ("tokenID", "7")].

Definition usdc_b1 : raw_event :=
  event [("hash", "0xb1"); ("timeStamp", "1600000200"); ("from", "0xdex");
         ("to", "0xme"); ("value", "1500000"); ("tokenDecimal", "6");
         ("tokenSymbol", "USDC"); ("tokenName", "USD Coin")].

Definition eth_b1 : raw_event :=
  event [("hash", "0xb1"); ("timeStamp", "1600000200"); ("from", "0xdex");
         ("to", "0xme"); ("value", "2000000000000000000")].

Definition inbound_data : EtherscanData :=
  {| txs := []; internal_txs := [eth_b1]; token_txs := [usdc_b1];
     nft_txs := [nft_in]; erc1155_txs := [] |}.

Definition inbound_explorer : TransactionExplorer :=
  {| address_data := inbound_data; ds_proxy_data := no_events;
     address_book := book; known_contracts := contracts |}.

Definition inbound_row : tx_row :=
  {| row_hash := "0xb1"; row_timestamp := 1600000200; row_normal := 0 |}.





(** A call of a contract that no table knows. *)
Definition unknown_call : raw_event :=
  event [("hash", "0xc1"); ("timeStamp", "1600000400"); ("from", "0xme");
         ("to", "0xnew"); ("input", "0xa9059cbb"); ("value", "0");
         ("isError", "0"); ("functionName", "transfer(address,uint256)")].

Definition unknown_explorer : TransactionExplorer :=
  {| address_data :=
       {| txs := [unknown_call]; internal_txs := []; token_txs := [];
          nft_txs := []; erc1155_txs := [] |};
     ds_proxy_data := no_events;
     address_book := book; known_contracts := contracts |}.

Definition unknown_row : tx_row :=
  {| row_hash := "0xc1"; row_timestamp := 1600000400; row_normal := 1 |}.

(** A call of a contract that the known-contracts table lists and the
    address book does not. *)
Definition vault_call : raw_event :=
  event [("hash", "0xc2"); ("timeStamp", "1600000500"); ("from", "0xme");
         ("to", "0xvault"); ("input", "0xd0e30db0"); ("value", "0");
         ("isError", "0"); ("functionName", "deposit()")].

Definition vault_explorer : TransactionExplorer :=
  {| address_data :=
       {| txs := [vault_call]; internal_txs := []; token_txs := [];
          nft_txs := []; erc1155_txs := [] |};
     ds_proxy_data := no_events;
     address_book := book; known_contracts := contracts |}.

Definition vault_row : tx_row :=
  {| row_hash := "0xc2"; row_timestamp := 1600000500; row_normal := 1 |}.

(** A call of the proxy registry. *)
Definition registry_call : raw_event :=
  event [("hash", "0xc3"); ("timeStamp", "1600000600"); ("from", "0xme");
         ("to", "0xreg"); ("input", "0x5ff3a382"); ("value", "0");
         ("isError", "0"); ("functionName", "build()")].

(** A failed call of the exchange that carried 1 ETH. *)
Definition failed_call : raw_event :=
  event [("hash", "0xc4"); ("timeStamp", "1600000700"); ("from", "0xme");
         ("to", "0xdex"); ("input", "0x7ff36ab5");
         ("value", "1000000000000000000");
         ("isError", "1"); ("functionName", "swap(uint256)")].

Definition usdc_c4 : raw_event :=
  event [("hash", "0xc4"); ("timeStamp", "1600000700"); ("from", "0xdex");
         ("to", "0xme"); ("value", "1500000"); ("tokenDecimal", "6");
         ("tokenSymbol", "USDC")].

Definition failed_explorer : TransactionExplorer :=
  {| address_data :=
       {| txs := [failed_call]; internal_txs := []; token_txs := [usdc_c4];
          nft_txs := []; erc1155_txs := [] |};
     ds_proxy_data := no_events;
     address_book := book; known_contracts := contracts |}.

Definition failed_row : tx_row :=
  {| row_hash := "0xc4"; row_timestamp := 1600000700; row_normal := 1 |}.

Definition failed_result : TransactionResult :=
  {| tr_hash := "0xc4"; tr_ts := 1600000700;
     tr_from_address := "ADDRESS_OF_INTEREST"; tr_to_address := "Exchange";
     tr_contract := "Exchange"; tr_function := "swap";
     tr_external := false;
     tr_eth_movements := []; tr_tokens_movements := [];
     tr_error := true |}.

(** A call through the proxy: the exchange pays the proxy, the proxy
    passes the tokens on to the address of interest. *)
Definition proxy_call : raw_event :=
  event [("hash", "0xc5"); ("timeStamp", "1600000800"); ("from", "0xme");
         ("to", "0xproxy"); ("input", "0x1cff79cd");
         ("value", "1000000000000000000");
         ("isError", "0"); ("functionName", "execute(address,bytes)")].

Definition dai_to_me : raw_event :=
  event [("hash", "0xc5"); ("timeStamp", "1600000800"); ("from", "0xproxy");
         ("to", "0xme"); ("value", "3000000000000000000");
         ("tokenDecimal", "18"); ("tokenSymbol", "DAI")].

Definition dai_to_proxy : raw_event :=
  event [("hash", "0xc5"); ("timeStamp", "1600000800"); ("from", "0xdex");
         ("to", "0xproxy"); ("value", "3000000000000000000");
         ("tokenDecimal", "18"); ("tokenSymbol", "DAI")].

Definition refund : raw_event :=
  event [("hash", "0xc5"); ("timeStamp", "1600000800"); ("from", "0xproxy");
         ("to", "0xme"); ("value", "500000000000000000")].

Definition proxy_explorer : TransactionExplorer :=
  {| address_data :=
       {| txs := [proxy_call]; internal_txs := [refund];
          token_txs := [dai_to_me]; nft_txs := []; erc1155_txs := [] |};
     ds_proxy_data :=
       {| txs := []; internal_txs := [];
          token_txs := [dai_to_proxy; dai_to_me];
          nft_txs := []; erc1155_txs := [] |};
     address_book := book; known_contracts := contracts |}.

Definition proxy_row : tx_row :=
  {| row_hash := "0xc5"; row_timestamp := 1600000800; row_normal := 1 |}.

(** A ledger row that claims a normal event where the raw set has none. *)
Definition orphan_row : tx_row :=
  {| row_hash := "0xdead"; row_timestamp := 1600000900; row_normal := 1 |}.

(** A failed call of the proxy registry. *)
Definition failed_registry_call : raw_event :=
  event [("hash", "0xc6"); ("timeStamp", "1600000950"); ("from", "0xme");
         ("to", "0xreg"); ("input", "0x5ff3a382"); ("value", "0");
         ("isError", "1"); ("functionName", "build()")].

Definition failed_registry_explorer : TransactionExplorer :=
  {| address_data :=
       {| txs := [failed_registry_call]; internal_txs := []; token_txs := [];
          nft_txs := []; erc1155_txs := [] |};
     ds_proxy_data := no_events;
     address_book := book; known_contracts := contracts |}.

Definition failed_registry_row : tx_row :=
  {| row_hash := "0xc6"; row_timestamp := 1600000950; row_normal := 1 |}.

(** The call through the proxy once more, now with an ERC-721 event under
    its hash in the events of the primary address and another one in the
    events of the proxy address. *)
Definition punk_to_me : raw_event :=
  event [("hash", "0xc5"); ("timeStamp", "1600000800"); ("from", "0xdex");
         ("to", "0xme"); ("value", "1"); ("tokenDecimal", "0");
         ("tokenSymbol", "PUNK"); ("tokenName", "Punk"); ("tokenID", "7")].

Definition punk_to_proxy : raw_event :=
  event [("hash", "0xc5"); ("timeStamp", "1600000800"); ("from", "0xdex");
         ("to", "0xproxy"); ("value", "1"); ("tokenDecimal", "0");
         ("tokenSymbol", "PUNK"); ("tokenName", "Punk"); ("tokenID", "8")].

Definition proxy_nft_explorer : TransactionExplorer :=
  {| address_data :=
       {| txs := [proxy_call]; internal_txs := [refund];
          token_txs := [dai_to_me]; nft_txs := [punk_to_me];
          erc1155_txs := [] |};
     ds_proxy_data :=
       {| txs := []; internal_txs := [];
          token_txs := [dai_to_proxy; dai_to_me];
          nft_txs := [punk_to_proxy]; erc1155_txs := [] |};
     address_book := book; known_contracts := contracts |}.

End Sample.

(** ** Sample ledger *)

Module SampleLedger.

Definition event (fields : list (string * string)) : raw_event :=
  list_to_map fields.

(** Four hashes over four categories: ["0xa"] is a normal and an internal
    event (the internal one with a later timestamp), ["0xb"] and ["0xc"]
    share the timestamp 10, ["0xb"] is seen first. *)
Definition data : EtherscanData :=
  {| txs := [ event [("hash", "0xa"); ("timeStamp", "30")];
              event [("hash", "0xb"); ("timeStamp", "10")] ];
     internal_txs := [ event [("hash", "0xc"); ("timeStamp", "10")];
                       event [("hash", "0xa"); ("timeStamp", "99")] ];
     token_txs := [ event [("hash", "0xd"); ("timeStamp", "5")];
                    event [("hash", "0xd"); ("timeStamp", "5")] ];
     nft_txs := [ event [("hash", "0xb"); ("timeStamp", "10")] ];
     erc1155_txs := [] |}.

Definition keys : list (string * Z) :=
  [("0xa", 30); ("0xb", 10); ("0xc", 10); ("0xa", 99); ("0xd", 5);
   ("0xd", 5); ("0xb", 10)].

(** A clock that accepts every timestamp. *)
Definition fromtimestamp (ts : Z) : outcome Z := Ok ts.
Definition datetime_date (dt : Z) : Z := dt / 86400.

End SampleLedger.

(** ** Sample store *)

Module SampleStore.

(** A platform whose server answers each request with the number of
    requests it has seen before. *)
Definition counting : platform nat :=
  {| path_join := fun d n => String.append d (String.append "/" n);
     writable := fun _ => true;
     respond := fun history _ => Done (Some (length history)) |}.

(** A platform whose server always answers [null]. *)
Definition silent : platform nat :=
  {| path_join := fun d n => String.append d (String.append "/" n);
     writable := fun _ => true;
     respond := fun _ _ => Done None |}.

Definition empty_world : world nat :=
  {| files := ∅; requests := []; stdout := [] |}.

Definition retriever : EtherscanDataRetriever :=
  retriever_init "KEY" default_url default_cache_path.

Definition params : gmap string string := account_params "0xme" "KEY" "txlist".

(** The same request for another block range and with another key. *)
Definition other_params : gmap string string :=
  <["startblock" := "100"]> (account_params "0xme" "KEY2" "txlist").

(** A request outside the account module. *)
Definition price_params : gmap string string :=
  list_to_map [("module", "stats"); ("action", "ethprice"); ("apikey", "KEY")].

(** An account request without an address. *)
Definition anonymous_params : gmap string string :=
  list_to_map [("module", "account"); ("action", "txlist"); ("apikey", "KEY")].

End SampleStore.

Module SampleCalls.

(** A call of the exchange by somebody else, with a token event for the
    address of interest under the same hash. *)
Definition third_party_call : raw_event :=
  Sample.event [("hash", "0xd1"); ("timeStamp", "1600001000");
                ("from", "0xdex"); ("to", "0xme"); ("input", "0xa9059cbb");
                ("value", "1000000000000000000"); ("isError", "0");
                ("functionName", "transfer(address,uint256)")].

Definition usdc_d1 : raw_event :=
  Sample.event [("hash", "0xd1"); ("timeStamp", "1600001000");
                ("from", "0xdex"); ("to", "0xme"); ("value", "1500000");
                ("tokenDecimal", "6"); ("tokenSymbol", "USDC")].

Definition third_party_explorer : TransactionExplorer :=
  {| address_data :=
       {| txs := [third_party_call]; internal_txs := [];
          token_txs := [usdc_d1]; nft_txs := []; erc1155_txs := [] |};
     ds_proxy_data := Sample.no_events;
     address_book := Sample.book; known_contracts := Sample.contracts |}.

Definition third_party_row : tx_row :=
  {| row_hash := "0xd1"; row_timestamp := 1600001000; row_normal := 1 |}.

(** An ERC-20 event that came without its hash, beside a good one. *)
Definition hashless_token : raw_event :=
  Sample.event [("timeStamp", "1600001100"); ("from", "0xdex"); ("to", "0xme");
                ("value", "1"); ("tokenDecimal", "6"); ("tokenSymbol", "USDC")].

Definition hashless_explorer : TransactionExplorer :=
  {| address_data :=
       {| txs := []; internal_txs := [];
          token_txs := [usdc_d1; hashless_token]; nft_txs := [];
          erc1155_txs := [] |};
     ds_proxy_data := Sample.no_events;
     address_book := Sample.book; known_contracts := Sample.contracts |}.

Definition inbound_d1_row : tx_row :=
  {| row_hash := "0xd1"; row_timestamp := 1600001000; row_normal := 0 |}.

End SampleCalls.
(** ** Basic facts *)

Lemma getitem_Some (d : gmap string string) k v :
  d !! k = Some v -> Py.getitem d k = Ok v.
Proof. unfold Py.getitem. intros ->. reflexivity. Qed.

Lemma getitem_None (d : gmap string string) k :
  d !! k = None -> Py.getitem d k = Raise (KeyError k).
Proof. unfold Py.getitem. intros ->. reflexivity. Qed.

Lemma getitem_inv (d : gmap string string) k v :
  Py.getitem d k = Ok v -> d !! k = Some v.
Proof. unfold Py.getitem. destruct (d !! k); congruence. Qed.

Lemma eth_value_Some (e : raw_event) v x :
  e !! "value" = Some v -> Py.float_of_str v = Ok x ->
  eth_value e = Ok (div_1e18 x).
Proof.
  intros Hv Hx. unfold eth_value.
  rewrite (getitem_Some _ _ _ Hv). simpl. rewrite Hx. simpl.
  unfold Py.truediv. reflexivity.
Qed.

(** The filter of the source and the filter of the specification. *)
Lemma by_hash_sharing (l : list raw_event) hash :
  hashed l -> by_hash l hash = Ok (sharing_hash hash l).
Proof.
  unfold hashed, sharing_hash. induction 1 as [|e l [h He] _ IH]; [reflexivity|].
  simpl. rewrite (getitem_Some _ _ _ He). simpl. rewrite IH. simpl.
  rewrite filter_cons. destruct (String.eqb_spec h hash) as [->|Hne].
  - rewrite decide_True by assumption. reflexivity.
  - rewrite decide_False by congruence. reflexivity.
Qed.

Lemma by_hash_unhashed (l : list raw_event) hash :
  ~ hashed l -> by_hash l hash = Raise (KeyError "hash").
Proof.
  unfold hashed. induction l as [|e l IH]; intros Hn.
  - exfalso. apply Hn. constructor.
  - simpl. destruct (e !! "hash") as [h|] eqn:He.
    + rewrite (getitem_Some _ _ _ He). simpl. rewrite IH; [reflexivity|].
      intros Hl. apply Hn. constructor; [rewrite He; eauto | assumption].
    + rewrite (getitem_None _ _ He). reflexivity.
Qed.

(** *** Loops as maps *)

Lemma token_body_normalize self r e :
  token_body self r e
  = (m ← normalize_token self e;
     Ok (add_token_movement r (am_name m) (am_value m)
           (am_from_address m) (am_to_address m))).
Proof.
  unfold token_body, normalize_token.
  destruct (token_value e); simpl; [|reflexivity].
  destruct (Py.getitem e "tokenSymbol"); simpl; [|reflexivity].
  destruct (Py.getitem e "from"); simpl; [|reflexivity].
  destruct (Py.getitem e "to"); reflexivity.
Qed.

Lemma internal_body_normalize self r e :
  internal_body self r e
  = (m ← normalize_internal self e;
     Ok (add_eth_movement r (am_value m)
           (am_from_address m) (am_to_address m))).
Proof.
  unfold internal_body, normalize_internal.
  destruct (eth_value e); simpl; [|reflexivity].
  destruct (Py.getitem e "from"); simpl; [|reflexivity].
  destruct (Py.getitem e "to"); reflexivity.
Qed.

Lemma ds_token_body_normalize self r e :
  ds_token_body self r e
  = (m ← normalize_token self e;
     Ok (if decide (kept_proxy_movement m)
         then add_token_movement r (am_name m) (am_value m)
                (am_from_address m) (am_to_address m)
         else r)).
Proof.
  unfold ds_token_body, normalize_token.
  destruct (token_value e); simpl; [|reflexivity].
  destruct (Py.getitem e "tokenSymbol"); simpl; [|reflexivity].
  destruct (Py.getitem e "from") as [f|]; simpl; [|reflexivity].
  destruct (Py.getitem e "to") as [t|]; simpl; [|reflexivity].
  unfold kept_proxy_movement; simpl.
  destruct (String.eqb_spec (get_address_name self f) "ADDRESS_OF_INTEREST") as [Hf|Hf].
  - rewrite decide_False by (intros [? _]; contradiction). reflexivity.
  - destruct (String.eqb_spec (get_address_name self t) "ADDRESS_OF_INTEREST") as [Ht|Ht].
    + rewrite decide_False by (intros [_ ?]; contradiction). reflexivity.
    + rewrite decide_True by (split; assumption). reflexivity.
Qed.

Lemma with_movements_id r :
  with_movements r (tr_eth_movements r) (tr_tokens_movements r) = r.
Proof. destruct r; reflexivity. Qed.

Lemma add_token_movement_with r m :
  add_token_movement r (am_name m) (am_value m) (am_from_address m) (am_to_address m)
  = with_movements r (tr_eth_movements r) (tr_tokens_movements r ++ [m]).
Proof. destruct m; reflexivity. Qed.

Lemma add_eth_movement_with r m :
  am_name m = "ETH" ->
  add_eth_movement r (am_value m) (am_from_address m) (am_to_address m)
  = with_movements r (tr_eth_movements r ++ [m]) (tr_tokens_movements r).
Proof. destruct m; simpl; intros ->; reflexivity. Qed.

Lemma normalize_internal_name self e m :
  normalize_internal self e = Ok m -> am_name m = "ETH".
Proof.
  unfold normalize_internal.
  destruct (eth_value e); simpl; [|discriminate].
  destruct (Py.getitem e "from"); simpl; [|discriminate].
  destruct (Py.getitem e "to"); simpl; [|discriminate].
  intros [= <-]. reflexivity.
Qed.

Lemma for_each_token_body self l : forall r,
  for_each (token_body self) l r
  = (ms ← map_outcome (normalize_token self) l;
     Ok (with_movements r (tr_eth_movements r) (tr_tokens_movements r ++ ms))).
Proof.
  induction l as [|e l IH]; intros r; simpl.
  - rewrite app_nil_r, with_movements_id. reflexivity.
  - rewrite token_body_normalize.
    destruct (normalize_token self e) as [m|]; simpl; [|reflexivity].
    rewrite IH, add_token_movement_with.
    destruct (map_outcome (normalize_token self) l) as [ms|]; simpl; [|reflexivity].
    rewrite <- app_assoc. reflexivity.
Qed.

Lemma for_each_internal_body self l : forall r,
  for_each (internal_body self) l r
  = (ms ← map_outcome (normalize_internal self) l;
     Ok (with_movements r (tr_eth_movements r ++ ms) (tr_tokens_movements r))).
Proof.
  induction l as [|e l IH]; intros r; simpl.
  - rewrite app_nil_r, with_movements_id. reflexivity.
  - rewrite internal_body_normalize.
    destruct (normalize_internal self e) as [m|] eqn:Hm; simpl; [|reflexivity].
    rewrite IH, (add_eth_movement_with _ _ (normalize_internal_name _ _ _ Hm)).
    destruct (map_outcome (normalize_internal self) l) as [ms|]; simpl; [|reflexivity].
    rewrite <- app_assoc. reflexivity.
Qed.

Lemma for_each_ds_token_body self l : forall r,
  for_each (ds_token_body self) l r
  = (ms ← map_outcome (normalize_token self) l;
     Ok (with_movements r (tr_eth_movements r)
           (tr_tokens_movements r ++ filter kept_proxy_movement ms))).
Proof.
  induction l as [|e l IH]; intros r; simpl.
  - rewrite app_nil_r, with_movements_id. reflexivity.
  - rewrite ds_token_body_normalize.
    destruct (normalize_token self e) as [m|]; [|reflexivity].
    cbn [mbind outcome_mbind outcome_bind]. rewrite IH.
    destruct (map_outcome (normalize_token self) l) as [ms|];
      cbn [mbind outcome_mbind outcome_bind]; [|reflexivity].
    rewrite filter_cons.
    destruct (decide (kept_proxy_movement m)).
    + rewrite add_token_movement_with. simpl. rewrite <- app_assoc. reflexivity.
    + reflexivity.
Qed.

(** *** Paths of [process_transaction] *)

Ltac bind_step := cbn [mbind outcome_mbind outcome_bind].

Lemma normal_branch self row :
  1 <= row_normal row ->
  hashed (txs (address_data self)) ->
  process_transaction self row
  = match sharing_hash (row_hash row) (txs (address_data self)) with
    | [] => Raise IndexError
    | tx :: _ =>
        f ← Py.getitem tx "from";
        t ← Py.getitem tx "to";
        input ← Py.getitem tx "input";
        let result :=
          set_to_address (get_address_name self t)
            (set_from_address (get_address_name self f)
               (new_result (row_hash row) (row_timestamp row))) in
        if String.eqb input "0x" then
          value ← eth_value tx;
          Ok ([], Some (add_eth_movement result value
                          (get_address_name self f) (get_address_name self t)))
        else if String.eqb (get_address_name self f) "ADDRESS_OF_INTEREST" then
          if Py.contains (known_contracts self) t then
            r ← process_contract_transaction self row tx result;
            Ok ([], Some r)
          else Ok ([PrintStr (String.append "NEW CONTRACT: " t); PrintDict tx], None)
        else Ok ([], Some result)
    end.
Proof.
  intros Hn Hh. unfold process_transaction.
  assert ((row_normal row <? 1) = false) as -> by (apply Z.ltb_ge; lia).
  rewrite (by_hash_sharing _ _ Hh). bind_step.
  destruct (sharing_hash (row_hash row) (txs (address_data self))) as [|tx rest];
    [reflexivity|].
  destruct (Py.getitem tx "from") as [f|]; bind_step; [|reflexivity].
  destruct (Py.getitem tx "to") as [t|]; bind_step; [|reflexivity].
  destruct (Py.getitem tx "input") as [input|]; bind_step; [|reflexivity].
  destruct (String.eqb input "0x"); [reflexivity|].
  destruct (String.eqb (get_address_name self f) "ADDRESS_OF_INTEREST"); [|reflexivity].
  destruct (Py.contains (known_contracts self) t); reflexivity.
Qed.

Lemma head_cons_inv {A} (l : list A) x :
  head l = Some x -> exists l', l = x :: l'.
Proof. destruct l; simpl; intros [= ->]; eauto. Qed.

(** A plain value transfer: one ETH movement, nothing else. *)
Lemma plain_transfer self row tx f t v x :
  1 <= row_normal row ->
  hashed (txs (address_data self)) ->
  head (sharing_hash (row_hash row) (txs (address_data self))) = Some tx ->
  tx !! "from" = Some f ->
  tx !! "to" = Some t ->
  tx !! "input" = Some "0x" ->
  tx !! "value" = Some v ->
  Py.float_of_str v = Ok x ->
  process_transaction self row
  = Ok ([], Some
      {| tr_hash := row_hash row; tr_ts := row_timestamp row;
         tr_from_address := get_address_name self f;
         tr_to_address := get_address_name self t;
         tr_contract := ""; tr_function := "";
         tr_external := false;
         tr_eth_movements :=
           [ {| am_name := "ETH"; am_value := div_1e18 x;
                am_from_address := get_address_name self f;
                am_to_address := get_address_name self t |} ];
         tr_tokens_movements := [];
         tr_error := false |}).
Proof.
  intros Hn Hh Hhd Hf Ht Hi Hv Hx.
  rewrite (normal_branch _ _ Hn Hh).
  destruct (head_cons_inv _ _ Hhd) as [rest ->].
  rewrite (getitem_Some _ _ _ Hf), (getitem_Some _ _ _ Ht), (getitem_Some _ _ _ Hi).
  bind_step. cbv zeta.
  change (String.eqb "0x" "0x") with true. cbv iota.
  rewrite (eth_value_Some _ _ _ Hv Hx). reflexivity.
Qed.

(** *** Paths of [process_contract_transaction] *)

Lemma contract_lookup_fails self row tx result to :
  tx !! "to" = Some to ->
  address_book self !! to = None ->
  process_contract_transaction self row tx result = Raise (KeyError to).
Proof.
  intros Ht Hb. unfold process_contract_transaction.
  rewrite (getitem_Some _ _ _ Ht). bind_step.
  rewrite (getitem_None _ _ Hb). reflexivity.
Qed.

Lemma registry_branch self row tx result to :
  tx !! "to" = Some to ->
  address_book self !! to = Some "Maker: Proxy Registry" ->
  process_contract_transaction self row tx result
  = Ok (set_contract "Maker: Proxy Registry" result).
Proof.
  intros Ht Hb. unfold process_contract_transaction.
  rewrite (getitem_Some _ _ _ Ht). bind_step.
  rewrite (getitem_Some _ _ _ Hb). reflexivity.
Qed.

(** Up to the test of the error flag. *)
Lemma contract_branch self row tx result to name fn ie n :
  tx !! "to" = Some to ->
  address_book self !! to = Some name ->
  name ≠ "Maker: Proxy Registry" ->
  tx !! "functionName" = Some fn ->
  tx !! "isError" = Some ie ->
  Py.int ie = Ok n ->
  process_contract_transaction self row tx result
  = let result := set_function (Py.split_head fn) (set_contract name result) in
    if 0 <? n then Ok (set_error true result)
    else
      value ← eth_value tx;
      result ← (if Py.gt0 value then
                  f ← Py.getitem tx "from";
                  t ← Py.getitem tx "to";
                  Ok (add_eth_movement result value
                        (get_address_name self f) (get_address_name self t))
                else Ok result);
      token_txs ← token_txs_by_tx_hash (address_data self) (row_hash row);
      internal_txs ← internal_txs_by_tx_hash (address_data self) (row_hash row);
      ds_token_txs ← token_txs_by_tx_hash (ds_proxy_data self) (row_hash row);
      result ← for_each (token_body self) token_txs result;
      result ← for_each (internal_body self) internal_txs result;
      for_each (ds_token_body self) ds_token_txs result.
Proof.
  intros Ht Hb Hne Hf Hie Hn. unfold process_contract_transaction.
  rewrite (getitem_Some _ _ _ Ht). bind_step.
  rewrite (getitem_Some _ _ _ Hb). bind_step.
  destruct (String.eqb_spec name "Maker: Proxy Registry") as [|_]; [contradiction|].
  rewrite (getitem_Some _ _ _ Hf). bind_step.
  rewrite (getitem_Some _ _ _ Hie). bind_step.
  rewrite Hn. reflexivity.
Qed.

(** The three loops after the ETH step. *)
Lemma decomposition_loops self row r tms ems dms :
  hashed (token_txs (address_data self)) ->
  hashed (internal_txs (address_data self)) ->
  hashed (token_txs (ds_proxy_data self)) ->
  map_outcome (normalize_token self)
    (sharing_hash (row_hash row) (token_txs (address_data self))) = Ok tms ->
  map_outcome (normalize_internal self)
    (sharing_hash (row_hash row) (internal_txs (address_data self))) = Ok ems ->
  map_outcome (normalize_token self)
    (sharing_hash (row_hash row) (token_txs (ds_proxy_data self))) = Ok dms ->
  (token_txs ← token_txs_by_tx_hash (address_data self) (row_hash row);
   internal_txs ← internal_txs_by_tx_hash (address_data self) (row_hash row);
   ds_token_txs ← token_txs_by_tx_hash (ds_proxy_data self) (row_hash row);
   result ← for_each (token_body self) token_txs r;
   result ← for_each (internal_body self) internal_txs result;
   for_each (ds_token_body self) ds_token_txs result)
  = Ok (with_movements r
          (tr_eth_movements r ++ ems)
          (tr_tokens_movements r ++ tms ++ filter kept_proxy_movement dms)).
Proof.
  intros Ht Hi Hd Htm Hem Hdm.
  unfold token_txs_by_tx_hash, internal_txs_by_tx_hash.
  rewrite (by_hash_sharing _ _ Ht), (by_hash_sharing _ _ Hi),
    (by_hash_sharing _ _ Hd). bind_step.
  rewrite for_each_token_body, Htm. bind_step.
  rewrite for_each_internal_body, Hem. bind_step.
  rewrite for_each_ds_token_body, Hdm. bind_step.
  cbn [with_movements tr_eth_movements tr_tokens_movements tr_hash tr_ts
       tr_from_address tr_to_address tr_contract tr_function tr_external tr_error].
  rewrite <- app_assoc. reflexivity.
Qed.

(** *** Invariants of the loops *)

Lemma for_each_token_body_error self l r r' :
  for_each (token_body self) l r = Ok r' ->
  tr_error r' = tr_error r /\ tr_contract r' = tr_contract r.
Proof.
  rewrite for_each_token_body.
  destruct (map_outcome (normalize_token self) l); bind_step; [|discriminate].
  intros [= <-]. split; reflexivity.
Qed.

Lemma for_each_internal_body_error self l r r' :
  for_each (internal_body self) l r = Ok r' ->
  tr_error r' = tr_error r /\ tr_contract r' = tr_contract r.
Proof.
  rewrite for_each_internal_body.
  destruct (map_outcome (normalize_internal self) l); bind_step; [|discriminate].
  intros [= <-]. split; reflexivity.
Qed.

Lemma for_each_ds_token_body_error self l r r' :
  for_each (ds_token_body self) l r = Ok r' ->
  tr_error r' = tr_error r /\ tr_contract r' = tr_contract r.
Proof.
  rewrite for_each_ds_token_body.
  destruct (map_outcome (normalize_token self) l); bind_step; [|discriminate].
  intros [= <-]. split; reflexivity.
Qed.

(** Destructs the computation at the head of a hypothesis [H : _ = Ok _]. *)
Ltac unbind H :=
  match type of H with
  | mbind _ ?m = Ok _ =>
      let E := fresh "E" in
      destruct m eqn:E; cbn [mbind outcome_mbind outcome_bind] in H; [|discriminate H]
  | (if ?b then _ else _) = Ok _ =>
      let E := fresh "E" in destruct b eqn:E
  | (match ?l with nil => _ | cons _ _ => _ end) = Ok _ =>
      destruct l; [discriminate H|]
  end.

(** A result of the decomposition with the error flag set comes from the
    test of [isError], before any movement is appended. *)
Lemma decomposition_error self row tx result r :
  process_contract_transaction self row tx result = Ok r ->
  tr_error result = false ->
  tr_error r = true ->
  tr_eth_movements r = tr_eth_movements result
  /\ tr_tokens_movements r = tr_tokens_movements result.
Proof.
  intros H H0 H1. unfold process_contract_transaction in H.
  do 3 unbind H.
  { revert H; intros [= <-]. simpl in H1. congruence. }
  do 4 unbind H.
  { revert H; intros [= <-]. split; reflexivity. }
  exfalso.
  do 5 unbind H.
  do 2 unbind H.
  match goal with
  | Ht : for_each (token_body _) _ ?r0 = Ok ?r1,
    Hi : for_each (internal_body _) _ ?r1 = Ok ?r2 |- _ =>
      destruct (for_each_token_body_error _ _ _ _ Ht) as [Et _];
      destruct (for_each_internal_body_error _ _ _ _ Hi) as [Ei _];
      destruct (for_each_ds_token_body_error _ _ _ _ H) as [Ed _];
      assert (tr_error r0 = false) as Hr0
  end.
  { match goal with
    | E : (if Py.gt0 ?v then _ else _) = Ok _ |- _ =>
        destruct (Py.gt0 v); [unbind E|]; revert E; intros [= <-]; exact H0
    end. }
  congruence.
Qed.



Lemma decomposition_contract self row tx result to name r :
  tx !! "to" = Some to ->
  address_book self !! to = Some name ->
  process_contract_transaction self row tx result = Ok r ->
  tr_contract r = name.
Proof.
  intros Ht Hb H. unfold process_contract_transaction in H.
  rewrite (getitem_Some _ _ _ Ht) in H. cbn [mbind outcome_mbind outcome_bind] in H.
  rewrite (getitem_Some _ _ _ Hb) in H. cbn [mbind outcome_mbind outcome_bind] in H.
  unbind H.
  { revert H; intros [= <-]. reflexivity. }
  do 4 unbind H.
  { revert H; intros [= <-]. reflexivity. }
  do 7 unbind H.
  match goal with
  | Ht : for_each (token_body _) _ ?r0 = Ok ?r1,
    Hi : for_each (internal_body _) _ ?r1 = Ok ?r2 |- _ =>
      destruct (for_each_token_body_error _ _ _ _ Ht) as [_ Et];
      destruct (for_each_internal_body_error _ _ _ _ Hi) as [_ Ei];
      destruct (for_each_ds_token_body_error _ _ _ _ H) as [_ Ed];
      assert (tr_contract r0 = name) as Hr0
  end.
  { match goal with
    | E : (if Py.gt0 ?v then _ else _) = Ok _ |- _ =>
        destruct (Py.gt0 v); [unbind E|]; revert E; intros [= <-]; reflexivity
    end. }
  congruence.
Qed.

(** Whatever [process_transaction] returns with the error flag set has no
    movement. *)
Lemma classification_error self row out r :
  process_transaction self row = Ok (out, Some r) ->
  tr_error r = true ->
  tr_eth_movements r = [] /\ tr_tokens_movements r = [].
Proof.
  intros H He. unfold process_transaction in H.
  destruct (row_normal row <? 1).
  - exfalso. do 4 unbind H. revert H; intros [= <- <-].
    match goal with
    | Ht : for_each (token_body _) _ _ = Ok _,
      Hi : for_each (internal_body _) _ _ = Ok _ |- _ =>
        destruct (for_each_token_body_error _ _ _ _ Ht) as [Et _];
        destruct (for_each_internal_body_error _ _ _ _ Hi) as [Ei _]
    end.
    simpl in *. congruence.
  - do 6 unbind H.
    + unbind H. revert H; intros [= <- <-]. discriminate He.
    + unbind H.
      * unbind H; [discriminate H|].
        unbind H. revert H; intros [= <- <-].
        match goal with
        | Hp : process_contract_transaction _ _ _ _ = Ok _ |- _ =>
            destruct (decomposition_error _ _ _ _ _ Hp eq_refl He) as [-> ->]
        end.
        split; reflexivity.
      * revert H; intros [= <- <-]. discriminate He.
Qed.

(** ** Facts about the ledger builder *)

Lemma map_outcome_Forall2 {A B} (f : A -> outcome B) l bs :
  map_outcome f l = Ok bs -> Forall2 (fun a b => f a = Ok b) l bs.
Proof.
  revert bs. induction l as [|a l IH]; intros bs; simpl.
  - intros [= <-]. constructor.
  - destruct (f a) as [b|] eqn:Hb; bind_step; [|discriminate].
    destruct (map_outcome f l) as [r|]; bind_step; [|discriminate].
    intros [= <-]. constructor; [assumption | apply IH; reflexivity].
Qed.

Lemma event_key_hash e p : event_key e = Ok p -> e !! "hash" = Some p.1.
Proof.
  unfold event_key. intros H. do 3 unbind H. revert H; intros [= <-].
  simpl. apply getitem_inv. assumption.
Qed.

Lemma keyed_hashed l ps : map_outcome event_key l = Ok ps -> hashed l.
Proof.
  intros H. apply map_outcome_Forall2 in H. unfold hashed.
  induction H as [|e p l ps He _ IH]; constructor; [|assumption].
  rewrite (event_key_hash _ _ He). eauto.
Qed.

(** *** The first loop *)

Lemma seen_body_step seen acc e h n :
  event_key e = Ok (h, n) ->
  seen_body (seen, acc) e
  = Ok (if bool_decide (h ∈ seen) then (seen, acc)
        else ({[ h ]} ∪ seen, acc ++ [(h, n)])).
Proof.
  unfold event_key, seen_body. intros H. do 3 unbind H.
  revert H; intros [= -> ->]. bind_step. cbn [fst snd].
  destruct (bool_decide (h ∈ seen)); [reflexivity|].
  match goal with
  | E2 : Py.int _ = Ok _ |- _ => rewrite E2; reflexivity
  end.
Qed.

Lemma seen_loop evs : forall ps seen acc,
  map_outcome event_key evs = Ok ps ->
  exists seen',
    for_each seen_body evs (seen, acc) = Ok (seen', acc ++ first_seen seen ps).
Proof.
  induction evs as [|e evs IH]; intros ps seen acc; simpl.
  - intros [= <-]. simpl. rewrite app_nil_r. eauto.
  - destruct (event_key e) as [[h n]|] eqn:He; bind_step; [|discriminate].
    destruct (map_outcome event_key evs) as [ps'|] eqn:Hps; bind_step; [|discriminate].
    intros [= <-]. rewrite (seen_body_step _ _ _ _ _ He). bind_step.
    cbn [first_seen fst].
    destruct (bool_decide (h ∈ seen)).
    + apply IH. reflexivity.
    + destruct (IH ps' ({[h]} ∪ seen) (acc ++ [(h, n)]) eq_refl) as [s' Hs'].
      exists s'. rewrite Hs', <- app_assoc. reflexivity.
Qed.

Lemma first_seen_elem seen ps p :
  p ∈ first_seen seen ps -> p ∈ ps /\ p.1 ∉ seen.
Proof.
  revert seen. induction ps as [|q ps IH]; intros seen; simpl.
  - intros H. inversion H.
  - destruct (bool_decide_reflect (q.1 ∈ seen)) as [Hin|Hin].
    + intros H. destruct (IH _ H). split; [set_solver | assumption].
    + intros H. apply elem_of_cons in H as [->|H].
      * split; [set_solver | assumption].
      * destruct (IH _ H). split; set_solver.
Qed.

Lemma first_seen_hashes seen ps h :
  h ∈ (first_seen seen ps).*1 <-> h ∈ ps.*1 /\ h ∉ seen.
Proof.
  revert seen. induction ps as [|q ps IH]; intros seen; simpl.
  - set_solver.
  - destruct (bool_decide_reflect (q.1 ∈ seen)) as [Hin|Hin].
    + rewrite IH. set_solver.
    + rewrite fmap_cons, !elem_of_cons, IH.
      destruct (decide (h = q.1)); set_solver.
Qed.

Lemma first_seen_NoDup seen ps : NoDup (first_seen seen ps).*1.
Proof.
  revert seen. induction ps as [|q ps IH]; intros seen; simpl.
  - constructor.
  - destruct (bool_decide (q.1 ∈ seen)); [apply IH|].
    rewrite fmap_cons. constructor; [|apply IH].
    rewrite first_seen_hashes. set_solver.
Qed.

Lemma first_seen_first seen ps p :
  p ∈ first_seen seen ps -> first_occurrence ps p.
Proof.
  unfold first_occurrence.
  revert seen. induction ps as [|q ps IH]; intros seen; simpl.
  - intros H. inversion H.
  - destruct (bool_decide_reflect (q.1 ∈ seen)) as [Hin|Hin].
    + intros H. destruct (first_seen_elem _ _ _ H) as [_ Hp].
      destruct (IH _ H) as (l1 & l2 & -> & Hl).
      exists (q :: l1), l2. split; [reflexivity|].
      rewrite fmap_cons. apply not_elem_of_cons. split; [congruence | assumption].
    + intros H. apply elem_of_cons in H as [->|H].
      * exists [], ps. split; [reflexivity | apply not_elem_of_nil].
      * destruct (first_seen_elem _ _ _ H) as [_ Hp].
        destruct (IH _ H) as (l1 & l2 & -> & Hl).
        exists (q :: l1), l2. split; [reflexivity|].
        rewrite fmap_cons. apply not_elem_of_cons. split; [|assumption].
        intros E. apply Hp. rewrite E. set_solver.
Qed.

Lemma before_elem {A} (x y : A) l : before x y l -> x ∈ l /\ y ∈ l.
Proof.
  induction l as [|z l IH]; simpl; [tauto|].
  intros [[-> H]|H]; [set_solver|]. destruct (IH H). set_solver.
Qed.

Lemma first_seen_before seen ps p1 p2 :
  before p1 p2 (first_seen seen ps) -> seen_earlier ps p1.1 p2.1.
Proof.
  unfold seen_earlier.
  revert seen. induction ps as [|q ps IH]; intros seen; simpl; [tauto|].
  destruct (bool_decide_reflect (q.1 ∈ seen)) as [Hin|Hin].
  - intros H. destruct (before_elem _ _ _ H) as [H1 H2].
    apply first_seen_elem in H1 as [_ H1]. apply first_seen_elem in H2 as [_ H2].
    destruct (IH _ H) as (l1 & p & l2 & -> & Hp & Ha & Hb).
    exists (q :: l1), p, l2. rewrite fmap_cons.
    split; [reflexivity|]. split; [assumption|].
    split; apply not_elem_of_cons; (split; [congruence | assumption]).
  - simpl. intros [[-> H]|H].
    + exists [], p1, ps.
      split; [reflexivity|]. split; [reflexivity|].
      split; apply not_elem_of_nil.
    + destruct (before_elem _ _ _ H) as [H1 H2].
      apply first_seen_elem in H1 as [_ H1]. apply first_seen_elem in H2 as [_ H2].
      destruct (IH _ H) as (l1 & p & l2 & -> & Hp & Ha & Hb).
      exists (q :: l1), p, l2. rewrite fmap_cons.
      split; [reflexivity|]. split; [assumption|].
      split; apply not_elem_of_cons; (split; [|assumption]);
        intros E; [apply H1 | apply H2]; rewrite E; set_solver.
Qed.

(** *** The sort *)

Section SortedFacts.

Context {A : Type} (key : A -> Z).

Lemma insert_by_key_elem (x a : A) s :
  x ∈ insert_by_key key a s <-> x = a \/ x ∈ s.
Proof.
  induction s as [|z s IH]; simpl.
  - set_solver.
  - destruct (key a <=? key z); [set_solver|].
    rewrite !elem_of_cons, IH. tauto.
Qed.

Lemma sorted_by_key_elem (x : A) l : x ∈ sorted_by_key key l <-> x ∈ l.
Proof.
  induction l as [|a l IH]; simpl; [reflexivity|].
  rewrite insert_by_key_elem, elem_of_cons, IH. reflexivity.
Qed.

Lemma insert_by_key_perm (a : A) s : insert_by_key key a s ≡ₚ a :: s.
Proof.
  induction s as [|z s IH]; simpl; [reflexivity|].
  destruct (key a <=? key z); [reflexivity|].
  rewrite IH. apply Permutation_swap.
Qed.

Lemma sorted_by_key_perm (l : list A) : sorted_by_key key l ≡ₚ l.
Proof.
  induction l as [|a l IH]; simpl; [reflexivity|].
  rewrite insert_by_key_perm, IH. reflexivity.
Qed.

(** Where two elements of the list with the new element stood before. *)
Lemma before_insert (a x y : A) s :
  (forall u v, before u v s -> key u <= key v) ->
  before x y (insert_by_key key a s) ->
  before x y s
  \/ (x = a /\ y ∈ s /\ key a <= key y)
  \/ (y = a /\ x ∈ s /\ key x < key a).
Proof.
  induction s as [|z s IH]; intros Hs; simpl.
  - intros [[_ H]|[]]. inversion H.
  - destruct (Z.leb_spec (key a) (key z)) as [Hle|Hlt]; simpl.
    + intros [[-> H]|H]; [|left; exact H].
      right; left. split; [reflexivity|]. split; [exact H|].
      apply elem_of_cons in H as [->|H]; [assumption|].
      specialize (Hs z y). simpl in Hs. specialize (Hs (or_introl (conj eq_refl H))). lia.
    + intros [[-> H]|H].
      * apply insert_by_key_elem in H as [->|H].
        -- right; right. split; [reflexivity|]. split; [set_solver | lia].
        -- left. left. split; [reflexivity | assumption].
      * destruct IH as [H'|[(-> & H1 & H2)|(-> & H1 & H2)]].
        -- intros u v Huv. apply Hs. simpl. right. assumption.
        -- assumption.
        -- left. right. assumption.
        -- right; left. split; [reflexivity|]. split; [set_solver | assumption].
        -- right; right. split; [reflexivity|]. split; [set_solver | assumption].
Qed.

(** The sort is ascending, and stable: elements with equal keys keep the
    order they had. *)
Lemma sorted_by_key_before (x y : A) l :
  before x y (sorted_by_key key l) ->
  key x <= key y /\ (key x = key y -> before x y l).
Proof.
  revert x y. induction l as [|a l IH]; intros x y; simpl; [tauto|].
  intros H. apply before_insert in H.
  - destruct H as [H|[(-> & H1 & H2)|(-> & H1 & H2)]].
    + destruct (IH _ _ H) as [Hk Hb]. split; [assumption|].
      intros E. right. apply Hb. assumption.
    + split; [assumption|]. intros _. left. split; [reflexivity|].
      exact (proj1 (sorted_by_key_elem _ _) H1).
    + split; [lia|]. intros E. lia.
  - intros u v Huv. apply (IH _ _ Huv).
Qed.

End SortedFacts.

Lemma precedes_before {A} (x y : A) l : precedes x y l -> before x y l.
Proof.
  intros (l1 & l2 & l3 & ->). induction l1 as [|z l1 IH]; simpl.
  - left. split; [reflexivity | set_solver].
  - right. assumption.
Qed.

(** *** The frame and the count loops *)

Section LedgerFacts.

Context {datetime date : Type}.
Variable fromtimestamp : Z -> outcome datetime.
Variable datetime_date : datetime -> date.

Abbreviation row := (summary_row datetime date).

Lemma make_frame_filled d (keys : list (string * Z)) :
  (forall p, p ∈ keys -> is_Ok (fromtimestamp p.2) = true) ->
  exists rows : list row,
    make_frame datetime date fromtimestamp datetime_date keys = Ok rows
    /\ filled_frame d [] keys rows.
Proof.
  unfold filled_frame. induction keys as [|[h ts] keys IH]; intros Hk; simpl.
  - exists []. split; [reflexivity | constructor].
  - assert (is_Ok (fromtimestamp ts) = true) as Hts
      by (apply (Hk (h, ts)); set_solver).
    destruct (fromtimestamp ts) as [dt|]; [|discriminate]. bind_step.
    destruct IH as (rows & -> & Hrows); [intros p Hp; apply Hk; set_solver|].
    bind_step. eexists. split; [reflexivity|].
    constructor; [|assumption].
    cbn. split; [reflexivity|]. split; [reflexivity|].
    intros c. destruct c; reflexivity.
Qed.

Lemma set_column_hash c n (r : row) : sr_hash (set_column c n r) = sr_hash r.
Proof. reflexivity. Qed.

Lemma set_column_twice c n (r : row) :
  set_column c n (set_column c n r) = set_column c n r.
Proof. destruct c; reflexivity. Qed.

Lemma get_set_column c c' n (r : row) :
  get_column c' (set_column c n r) = if decide (c' = c) then n else get_column c' r.
Proof. destruct c, c'; reflexivity. Qed.

Lemma count_upd_step c events h hs (r : row) :
  count_upd c events hs
    (if String.eqb (sr_hash r) h
     then set_column c (Z.of_nat (length (sharing_hash h events))) r
     else r)
  = count_upd c events (h :: hs) r.
Proof.
  unfold count_upd. destruct (String.eqb_spec (sr_hash r) h) as [<-|Hne].
  - rewrite set_column_hash, set_column_twice.
    rewrite (bool_decide_eq_true_2 (sr_hash r ∈ sr_hash r :: hs)) by set_solver.
    destruct (bool_decide (sr_hash r ∈ hs)); reflexivity.
  - destruct (bool_decide_reflect (sr_hash r ∈ hs)) as [Hin|Hin].
    + rewrite bool_decide_eq_true_2 by set_solver. reflexivity.
    + rewrite bool_decide_eq_false_2 by set_solver. reflexivity.
Qed.

Lemma count_body_step c events (data : list row) e h :
  hashed events ->
  e !! "hash" = Some h ->
  count_body c events data e
  = Ok (loc_assign c h (Z.of_nat (length (sharing_hash h events))) data).
Proof.
  intros Hall He. unfold count_body.
  rewrite (getitem_Some _ _ _ He). bind_step.
  rewrite (by_hash_sharing _ _ Hall). reflexivity.
Qed.

Lemma count_loop_map c events evs : forall data : list row,
  hashed events -> hashed evs ->
  for_each (count_body c events) evs data
  = Ok (map (count_upd c events (hashes evs)) data).
Proof.
  induction evs as [|e evs IH]; intros data Hall Hevs; simpl.
  - f_equal. unfold count_upd. simpl.
    induction data as [|r data IHd]; [reflexivity|].
    simpl. rewrite <- IHd. reflexivity.
  - inversion Hevs as [|? ? [h He] Hevs']; subst.
    rewrite (count_body_step _ _ _ _ _ Hall He). bind_step.
    rewrite (IH _ Hall Hevs'). f_equal.
    unfold hashes. cbn [omap list_omap]. rewrite He.
    unfold loc_assign. rewrite map_map. apply map_ext.
    intros r. apply count_upd_step.
Qed.

Lemma sharing_hash_nil h l :
  hashed l -> h ∉ hashes l -> sharing_hash h l = [].
Proof.
  unfold hashed, sharing_hash, hashes. induction 1 as [|e l [x He] _ IH]; [reflexivity|].
  cbn [omap list_omap]. rewrite He. intros Hn.
  rewrite filter_cons, decide_False by (rewrite He; set_solver).
  apply IH. set_solver.
Qed.

Lemma count_loop_filled d c filled keys (rows : list row) :
  hashed (column_events d c) ->
  c ∉ filled ->
  filled_frame d filled keys rows ->
  exists rows',
    count_loop d c rows = Ok rows'
    /\ filled_frame d (c :: filled) keys rows'.
Proof.
  intros Hh Hc Hf. unfold count_loop. rewrite (count_loop_map _ _ _ _ Hh Hh).
  eexists. split; [reflexivity|].
  unfold filled_frame in *. induction Hf as [|p r keys rows (H1 & H2 & H3) _ IH];
    [constructor|].
  simpl. constructor; [|exact IH].
  unfold count_upd. destruct (bool_decide_reflect (sr_hash r ∈ hashes (column_events d c)))
    as [Hin|Hin].
  - rewrite set_column_hash. split; [assumption|]. split; [assumption|].
    intros c'. rewrite get_set_column. destruct (decide (c' = c)) as [->|Hne].
    + rewrite bool_decide_eq_true_2 by set_solver. reflexivity.
    + rewrite H3. destruct (bool_decide_reflect (c' ∈ filled)) as [Hi|Hi].
      * rewrite bool_decide_eq_true_2 by set_solver. reflexivity.
      * rewrite bool_decide_eq_false_2 by set_solver. reflexivity.
  - split; [assumption|]. split; [assumption|].
    intros c'. rewrite H3. destruct (decide (c' = c)) as [->|Hne].
    + rewrite bool_decide_eq_false_2 by assumption.
      rewrite bool_decide_eq_true_2 by set_solver.
      rewrite (sharing_hash_nil _ _ Hh Hin). reflexivity.
    + destruct (bool_decide_reflect (c' ∈ filled)) as [Hi|Hi].
      * rewrite bool_decide_eq_true_2 by set_solver. reflexivity.
      * rewrite bool_decide_eq_false_2 by set_solver. reflexivity.
Qed.

Lemma column_events_hashed d ps c :
  map_outcome event_key (all_txs d) = Ok ps -> hashed (column_events d c).
Proof.
  intros H. apply keyed_hashed in H. unfold hashed, all_txs in *.
  rewrite !Forall_app in H. destruct c; simpl; tauto.
Qed.

Ltac fresh_column :=
  repeat (apply not_elem_of_cons; split; [discriminate|]); apply not_elem_of_nil.

(** The frame that [get_summary] returns. *)
Lemma get_summary_filled d ps :
  map_outcome event_key (all_txs d) = Ok ps ->
  (forall p, p ∈ ps -> is_Ok (fromtimestamp p.2) = true) ->
  exists rows : list row,
    get_summary datetime date fromtimestamp datetime_date d = Ok rows
    /\ filled_frame d [erc1155; erc721; erc20; has_internal; normal]
         (sorted_by_key snd (first_seen ∅ ps)) rows.
Proof.
  intros Hps Hts. unfold get_summary.
  destruct (seen_loop _ _ ∅ [] Hps) as [seen' ->]. bind_step.
  cbn [snd app].
  destruct (make_frame_filled d (sorted_by_key snd (first_seen ∅ ps)))
    as (rows0 & -> & H0).
  { intros p Hp. apply Hts. apply sorted_by_key_elem in Hp.
    apply first_seen_elem in Hp. tauto. }
  bind_step.
  assert (forall c, hashed (column_events d c)) as Hh
    by (intros c; exact (column_events_hashed _ _ _ Hps)).
  destruct (count_loop_filled d normal [] _ _ (Hh _) ltac:(fresh_column) H0)
    as (rows1 & -> & H1). bind_step.
  destruct (count_loop_filled d has_internal [normal] _ _ (Hh _)
              ltac:(fresh_column) H1) as (rows2 & -> & H2). bind_step.
  destruct (count_loop_filled d erc20 [has_internal; normal] _ _ (Hh _)
              ltac:(fresh_column) H2) as (rows3 & -> & H3). bind_step.
  destruct (count_loop_filled d erc721 [erc20; has_internal; normal] _ _ (Hh _)
              ltac:(fresh_column) H3) as (rows4 & -> & H4). bind_step.
  destruct (count_loop_filled d erc1155 [erc721; erc20; has_internal; normal]
              _ _ (Hh _) ltac:(fresh_column) H4) as (rows5 & -> & H5).
  exists rows5. split; [reflexivity | exact H5].
Qed.

Lemma filled_frame_hashes d filled keys (rows : list row) :
  filled_frame d filled keys rows -> sr_hash <$> rows = keys.*1.
Proof.
  unfold filled_frame. induction 1 as [|p r keys rows (H1 & _) _ IH]; [reflexivity|].
  rewrite !fmap_cons, H1, IH. reflexivity.
Qed.

Lemma filled_frame_elem d filled keys (rows : list row) r :
  filled_frame d filled keys rows -> r ∈ rows ->
  (sr_hash r, sr_timestamp r) ∈ keys
  /\ forall c, get_column c r
               = if bool_decide (c ∈ filled)
                 then Z.of_nat (length (sharing_hash (sr_hash r) (column_events d c)))
                 else 0.
Proof.
  unfold filled_frame. induction 1 as [|[h ts] r' keys rows (H1 & H2 & H3) _ IH].
  - intros H. inversion H.
  - intros H. apply elem_of_cons in H as [->|H].
    + simpl in H1, H2. split; [rewrite H1, H2; apply list_elem_of_here | exact H3].
    + destruct (IH H). split; [set_solver | assumption].
Qed.

Lemma filled_frame_before d filled keys (rows : list row) r1 r2 :
  filled_frame d filled keys rows -> before r1 r2 rows ->
  before (sr_hash r1, sr_timestamp r1) (sr_hash r2, sr_timestamp r2) keys.
Proof.
  intros Hf. pose proof Hf as Hf'. unfold filled_frame in Hf.
  induction Hf as [|[h ts] r' keys rows (H1 & H2 & H3) Hrest IH]; simpl; [tauto|].
  intros [[-> H]|H].
  - left. simpl in H1, H2. split; [rewrite H1, H2; reflexivity|].
    exact (proj1 (filled_frame_elem d filled keys rows r2 Hrest H)).
  - right. apply IH; assumption.
Qed.

End LedgerFacts.

(** ** Numbers *)

(** [10 ** 18] converts to binary64 without rounding error. *)
Lemma ten_pow_18_exact : Py.float_of_int (10 ^ 18) = Ok ten_pow_18.
Proof. vm_compute. reflexivity. Qed.

Lemma digit_not_underscore c : Py.is_digit c = true -> Py.is_char c 95 = false.
Proof. unfold Py.is_digit, Py.is_char. lia. Qed.

Lemma digit_not_space c : Py.is_digit c = true -> Py.is_space c = false.
Proof. unfold Py.is_digit, Py.is_space. lia. Qed.

Lemma digit_not_sign c :
  Py.is_digit c = true -> Py.is_char c 45 = false /\ Py.is_char c 43 = false.
Proof. unfold Py.is_digit, Py.is_char. lia. Qed.

Lemma strip_underscores_digits l : forall prev,
  forallb Py.is_digit l = true -> Py.strip_underscores prev l = Some l.
Proof.
  induction l as [|c l IH]; intros prev; simpl; [reflexivity|].
  intros H. apply andb_true_iff in H as [Hc Hl].
  rewrite (digit_not_underscore _ Hc), (IH _ Hl). reflexivity.
Qed.

Lemma drop_spaces_digit c l :
  Py.is_digit c = true -> Py.drop_spaces (c :: l) = c :: l.
Proof. intros Hc. simpl. rewrite (digit_not_space _ Hc). reflexivity. Qed.

Lemma forallb_rev {A} (p : A -> bool) l : forallb p (rev l) = forallb p l.
Proof.
  induction l as [|a l IH]; [reflexivity|].
  simpl. rewrite forallb_app, IH. simpl. rewrite andb_true_r. apply andb_comm.
Qed.

Lemma strip_digits l : forallb Py.is_digit l = true -> Py.strip l = l.
Proof.
  intros H. unfold Py.strip. destruct l as [|c l]; [reflexivity|].
  pose proof H as H'. simpl in H'. apply andb_true_iff in H' as [Hc _].
  rewrite (drop_spaces_digit _ _ Hc).
  rewrite <- forallb_rev in H.
  destruct (rev (c :: l)) as [|c' l'] eqn:E.
  - apply (f_equal (@length _)) in E. rewrite length_rev in E. discriminate E.
  - simpl in H. apply andb_true_iff in H as [Hc' _].
    rewrite (drop_spaces_digit _ _ Hc'), <- E. apply rev_involutive.
Qed.

Lemma span_digits l : forallb Py.is_digit l = true -> Py.span Py.is_digit l = (l, []).
Proof.
  induction l as [|c l IH]; simpl; [reflexivity|].
  intros H. apply andb_true_iff in H as [-> Hl]. rewrite (IH Hl). reflexivity.
Qed.

(** [float] reads every non-empty string of decimal digits: the [value]
    of a raw event, an integer in base units, always has an amount. *)
Lemma float_of_digits (s : string) :
  s ≠ "" ->
  forallb Py.is_digit (list_ascii_of_string s) = true ->
  exists x, Py.float_of_str s = Ok x.
Proof.
  intros Hne Hd. unfold Py.float_of_str, Py.float_of_chars.
  destruct (list_ascii_of_string s) as [|c l] eqn:E.
  - exfalso. apply Hne. destruct s; [reflexivity | discriminate E].
  - rewrite (strip_underscores_digits _ _ Hd), (strip_digits _ Hd).
    pose proof Hd as Hc. simpl in Hc. apply andb_true_iff in Hc as [Hc _].
    unfold Py.take_sign. destruct (digit_not_sign _ Hc) as [-> ->].
    unfold Py.decimal. rewrite (span_digits _ Hd). simpl. eauto.
Qed.

(** ** No other source of [IndexError] *)

Lemma bind_no_index {A B} (m : outcome A) (f : A -> outcome B) :
  no_index_error m -> (forall a, no_index_error (f a)) ->
  no_index_error (m ≫= f).
Proof. unfold no_index_error. destruct m; simpl; [auto | congruence]. Qed.

Lemma Ok_no_index {A} (a : A) : no_index_error (Ok a).
Proof. discriminate. Qed.

Lemma getitem_no_index d k : no_index_error (Py.getitem d k).
Proof. unfold Py.getitem. destruct (d !! k); discriminate. Qed.

Lemma float_of_str_no_index s : no_index_error (Py.float_of_str s).
Proof. unfold Py.float_of_str. destruct (Py.float_of_chars _); discriminate. Qed.

Lemma int_no_index s : no_index_error (Py.int s).
Proof. unfold Py.int. destruct (Py.int_of_chars _); discriminate. Qed.

Lemma float_of_int_no_index n : no_index_error (Py.float_of_int n).
Proof.
  unfold Py.float_of_int.
  destruct (binary_normalize Py.prec Py.emax n 0 false); discriminate.
Qed.

Lemma pow10_no_index n : no_index_error (Py.pow10 n).
Proof.
  unfold Py.pow10. destruct (0 <=? n); [apply Ok_no_index|].
  apply bind_no_index; [apply float_of_int_no_index | intros; apply Ok_no_index].
Qed.

Lemma truediv_no_index x y : no_index_error (Py.truediv x y).
Proof.
  unfold Py.truediv. apply bind_no_index.
  - destruct y; [apply float_of_int_no_index | apply Ok_no_index].
  - intros d. destruct (Py.is_zero d); discriminate.
Qed.

Ltac no_index_step :=
  lazymatch goal with
  | |- no_index_error (Ok _) => apply Ok_no_index
  | |- no_index_error (Py.getitem _ _) => apply getitem_no_index
  | |- no_index_error (Py.float_of_str _) => apply float_of_str_no_index
  | |- no_index_error (Py.int _) => apply int_no_index
  | |- no_index_error (Py.pow10 _) => apply pow10_no_index
  | |- no_index_error (Py.truediv _ _) => apply truediv_no_index
  | |- no_index_error (mbind _ _) => apply bind_no_index; [|intros ?]
  | |- no_index_error (if ?b then _ else _) => destruct b
  end.

Ltac no_index := repeat no_index_step.

Lemma eth_value_no_index e : no_index_error (eth_value e).
Proof. unfold eth_value. no_index. Qed.

Lemma token_value_no_index e : no_index_error (token_value e).
Proof. unfold token_value. no_index. Qed.

Lemma by_hash_no_index l h : no_index_error (by_hash l h).
Proof.
  induction l as [|a l IH]; simpl; [apply Ok_no_index|].
  apply bind_no_index; [apply getitem_no_index | intros h'].
  apply bind_no_index; [exact IH | intros r; apply Ok_no_index].
Qed.

Lemma for_each_no_index {A S} (body : S -> A -> outcome S) l :
  (forall s a, no_index_error (body s a)) ->
  forall s, no_index_error (for_each body l s).
Proof.
  intros Hb. induction l; intros s; simpl; [apply Ok_no_index|].
  apply bind_no_index; [apply Hb | intros; apply IHl].
Qed.

Lemma token_body_no_index self r e : no_index_error (token_body self r e).
Proof. unfold token_body. apply bind_no_index; [apply token_value_no_index|]. intros. no_index. Qed.

Lemma internal_body_no_index self r e : no_index_error (internal_body self r e).
Proof. unfold internal_body. apply bind_no_index; [apply eth_value_no_index|]. intros. no_index. Qed.

Lemma ds_token_body_no_index self r e : no_index_error (ds_token_body self r e).
Proof. unfold ds_token_body. apply bind_no_index; [apply token_value_no_index|]. intros. no_index. Qed.

Ltac no_index_loops self :=
  repeat first
    [ no_index_step
    | lazymatch goal with
      | |- no_index_error (eth_value _) => apply eth_value_no_index
      | |- no_index_error (by_hash _ _) => apply by_hash_no_index
      | |- no_index_error (for_each (token_body _) _ _) =>
          apply (for_each_no_index _ _ (token_body_no_index self))
      | |- no_index_error (for_each (internal_body _) _ _) =>
          apply (for_each_no_index _ _ (internal_body_no_index self))
      | |- no_index_error (for_each (ds_token_body _) _ _) =>
          apply (for_each_no_index _ _ (ds_token_body_no_index self))
      end ].

Lemma decomposition_no_index self row tx result :
  no_index_error (process_contract_transaction self row tx result).
Proof.
  unfold process_contract_transaction, token_txs_by_tx_hash, internal_txs_by_tx_hash.
  no_index_loops self.
Qed.

(** [process_transaction] raises [IndexError] in one situation only: the
    row counts a normal event and the raw set has none under its hash. *)
Lemma index_error_is_inconsistent_ledger self row :
  process_transaction self row = Raise IndexError ->
  1 <= row_normal row
  /\ hashed (txs (address_data self))
  /\ sharing_hash (row_hash row) (txs (address_data self)) = [].
Proof.
  unfold process_transaction. destruct (Z.ltb_spec (row_normal row) 1) as [Hlt|Hge].
  - intros H. exfalso. revert H.
    unfold token_txs_by_tx_hash, internal_txs_by_tx_hash.
    match goal with |- ?m = _ -> False => change (no_index_error m) end.
    no_index_loops self.
  - intros H. split; [exact Hge|].
    destruct (decide (hashed (txs (address_data self)))) as [Hh|Hh].
    + split; [exact Hh|]. rewrite (by_hash_sharing _ _ Hh) in H.
      cbn [mbind outcome_mbind outcome_bind] in H.
      destruct (sharing_hash (row_hash row) (txs (address_data self))) as [|tx rest];
        [reflexivity|].
      exfalso. revert H.
      match goal with |- ?m = _ -> False => change (no_index_error m) end.
      repeat first
        [ no_index_step
        | lazymatch goal with
          | |- no_index_error (eth_value _) => apply eth_value_no_index
          | |- no_index_error (process_contract_transaction _ _ _ _) =>
              apply decomposition_no_index
          end ].
    + rewrite (by_hash_unhashed _ _ Hh) in H. discriminate H.
Qed.

(** ** The classifier: external-inbound entries *)

(** C1 (as amended).  For a ledger entry whose normal count is less than 1,
    [process_transaction] returns a result with [external] set, with the
    from/to names left empty, no contract and no function, whose token
    movements are the normalized forms of the ERC-20 events ([token_txs])
    sharing the hash, in order, and whose ETH movements are the normalized
    forms of the internal events sharing the hash, each value divided by
    [10^18]; nothing is printed and no other branch is taken.  ERC-721 and
    ERC-1155 events are not collected. *)
Theorem external_inbound_movements self row tms ems :
  row_normal row < 1 ->
  hashed (token_txs (address_data self)) ->
  hashed (internal_txs (address_data self)) ->
  map_outcome (normalize_token self)
    (sharing_hash (row_hash row) (token_txs (address_data self))) = Ok tms ->
  map_outcome (normalize_internal self)
    (sharing_hash (row_hash row) (internal_txs (address_data self))) = Ok ems ->
  process_transaction self row
  = Ok ([], Some
      {| tr_hash := row_hash row; tr_ts := row_timestamp row;
         tr_from_address := ""; tr_to_address := "";
         tr_contract := ""; tr_function := "";
         tr_external := true;
         tr_eth_movements := ems;
         tr_tokens_movements := tms;
         tr_error := false |}).
Proof.
  intros Hn Ht Hi Htm Hem. unfold process_transaction.
  assert ((row_normal row <? 1) = true) as -> by (apply Z.ltb_lt; lia).
  unfold token_txs_by_tx_hash, internal_txs_by_tx_hash.
  rewrite (by_hash_sharing _ _ Ht). bind_step.
  rewrite for_each_token_body, Htm. bind_step.
  rewrite (by_hash_sharing _ _ Hi). bind_step.
  rewrite for_each_internal_body, Hem. reflexivity.
Qed.

Lemma external_inbound_movements_witness :
  Sample.inbound_row.(row_normal) < 1
  /\ process_transaction Sample.inbound_explorer Sample.inbound_row
     = Ok ([], Some
         {| tr_hash := "0xb1"; tr_ts := 1600000200;
            tr_from_address := ""; tr_to_address := "";
            tr_contract := ""; tr_function := "";
            tr_external := true;
            tr_eth_movements :=
              [ {| am_name := "ETH"; am_value := two;
                   am_from_address := "Exchange";
                   am_to_address := "ADDRESS_OF_INTEREST" |} ];
            tr_tokens_movements :=
              [ {| am_name := "USDC"; am_value := one_and_a_half;
                   am_from_address := "Exchange";
                   am_to_address := "ADDRESS_OF_INTEREST" |} ];
            tr_error := false |}).
Proof.
  split; [vm_compute; reflexivity|].
  apply (external_inbound_movements Sample.inbound_explorer Sample.inbound_row).
  - vm_compute; reflexivity.
  - repeat constructor; vm_compute; eauto.
  - repeat constructor; vm_compute; eauto.
  - vm_compute; reflexivity.
  - vm_compute; reflexivity.
Defined.

(** C1 as the specification states it fails: an ERC-721 event that shares
    the hash and has a normalized form is left out of the token
    movements. *)
Lemma external_inbound_skips_nft :
  (Sample.nft_in ∈ sharing_hash (row_hash Sample.inbound_row)
                     (token_category_events (address_data Sample.inbound_explorer)))
  /\ exists m tms r,
      normalize_token Sample.inbound_explorer Sample.nft_in = Ok m
      /\ map_outcome (normalize_token Sample.inbound_explorer)
           (sharing_hash (row_hash Sample.inbound_row)
              (token_category_events (address_data Sample.inbound_explorer)))
         = Ok tms
      /\ process_transaction Sample.inbound_explorer Sample.inbound_row
         = Ok ([], Some r)
      /\ (m ∈ tms)
      /\ (m ∉ tr_tokens_movements r)
      /\ tr_tokens_movements r ≠ tms.
Proof.
  split.
  - unfold sharing_hash. apply list_elem_of_filter. split; [reflexivity|].
    simpl. set_solver.
  - eexists _, _, _. split; [vm_compute; reflexivity|].
    split; [vm_compute; reflexivity|].
    split; [vm_compute; reflexivity|].
    cbn [tr_tokens_movements].
    split; [set_solver|]. split.
    + intros H. apply list_elem_of_singleton in H. discriminate H.
    + discriminate.
Qed.

(** ** The classifier: plain value transfers *)

(** C3.  For a ledger entry with a normal-category event (the first one
    under the hash, the one the classifier takes) whose input is ["0x"],
    [process_transaction] returns at once a result with exactly one ETH
    movement, of the event's value divided by [10^18] between the
    resolved sender and recipient, and with no token movement, whatever
    token and internal events share the hash; the value
    ["2000000000000000000"] gives the amount [2.0]. *)
Theorem plain_value_transfer self row tx f t v x :
  1 <= row_normal row ->
  hashed (txs (address_data self)) ->
  head (sharing_hash (row_hash row) (txs (address_data self))) = Some tx ->
  tx !! "from" = Some f ->
  tx !! "to" = Some t ->
  tx !! "input" = Some "0x" ->
  tx !! "value" = Some v ->
  Py.float_of_str v = Ok x ->
  exists r amount,
    process_transaction self row = Ok ([], Some r)
    /\ tr_eth_movements r
       = [ {| am_name := "ETH"; am_value := amount;
              am_from_address := get_address_name self f;
              am_to_address := get_address_name self t |} ]
    /\ amount = SFdiv Py.prec Py.emax x ten_pow_18
    /\ tr_tokens_movements r = []
    /\ tr_error r = false
    /\ (v = "2000000000000000000" -> amount = two).
Proof.
  intros Hn Hh Hhd Hf Ht Hi Hv Hx.
  eexists _, _. split; [exact (plain_transfer _ _ _ _ _ _ _ Hn Hh Hhd Hf Ht Hi Hv Hx)|].
  cbn [tr_eth_movements tr_tokens_movements tr_error].
  repeat split.
  intros ->.
  assert (Py.float_of_str "2000000000000000000"
          = Ok (S754_finite false 7812500000000000 8)) as Hc
    by (vm_compute; reflexivity).
  rewrite Hc in Hx. revert Hx; intros [= <-]. vm_compute. reflexivity.
Qed.

Lemma plain_value_transfer_witness :
  exists r,
    process_transaction Sample.plain_explorer Sample.plain_row = Ok ([], Some r)
    /\ tr_eth_movements r
       = [ {| am_name := "ETH"; am_value := two;
              am_from_address := "ADDRESS_OF_INTEREST";
              am_to_address := "0xfriend" |} ]
    /\ tr_tokens_movements r = []
    /\ sharing_hash "0xa1" (token_txs Sample.plain_data) = [Sample.usdc_in]
    /\ sharing_hash "0xa1" (internal_txs Sample.plain_data) = [Sample.eth_in].
Proof.
  destruct (plain_value_transfer Sample.plain_explorer Sample.plain_row
              Sample.plain_tx "0xme" "0xfriend" "2000000000000000000"
              (S754_finite false 7812500000000000 8))
    as (r & amount & Hr & He & _ & Ht & _ & Ha).
  - vm_compute; discriminate.
  - repeat constructor; vm_compute; eauto.
  - vm_compute; reflexivity.
  - vm_compute; reflexivity.
  - vm_compute; reflexivity.
  - vm_compute; reflexivity.
  - vm_compute; reflexivity.
  - vm_compute; reflexivity.
  - exists r. rewrite (Ha eq_refl) in He.
    split; [exact Hr|]. split; [exact He|]. split; [exact Ht|].
    split; vm_compute; reflexivity.
Defined.

(** C10.  A plain transfer of value ["0"] is recorded all the same: the
    result carries exactly one ETH movement, of amount [0], between the
    resolved sender and recipient. *)
Theorem zero_value_transfer_recorded self row tx f t :
  1 <= row_normal row ->
  hashed (txs (address_data self)) ->
  head (sharing_hash (row_hash row) (txs (address_data self))) = Some tx ->
  tx !! "from" = Some f ->
  tx !! "to" = Some t ->
  tx !! "input" = Some "0x" ->
  tx !! "value" = Some "0" ->
  exists r,
    process_transaction self row = Ok ([], Some r)
    /\ tr_eth_movements r
       = [ {| am_name := "ETH"; am_value := S754_zero false;
              am_from_address := get_address_name self f;
              am_to_address := get_address_name self t |} ]
    /\ tr_tokens_movements r = [].
Proof.
  intros Hn Hh Hhd Hf Ht Hi Hv.
  eexists. split.
  - apply (plain_transfer _ _ _ _ _ "0" (S754_zero false) Hn Hh Hhd Hf Ht Hi Hv).
    vm_compute. reflexivity.
  - split; reflexivity.
Qed.

Lemma zero_value_transfer_recorded_witness :
  exists r,
    process_transaction Sample.zero_explorer Sample.zero_row = Ok ([], Some r)
    /\ tr_eth_movements r
       = [ {| am_name := "ETH"; am_value := S754_zero false;
              am_from_address := "ADDRESS_OF_INTEREST";
              am_to_address := "0xfriend" |} ]
    /\ tr_tokens_movements r = [].
Proof.
  apply (zero_value_transfer_recorded Sample.zero_explorer Sample.zero_row
           Sample.zero_tx "0xme" "0xfriend").
  - vm_compute; discriminate.
  - repeat constructor; vm_compute; eauto.
  - vm_compute; reflexivity.
  - vm_compute; reflexivity.
  - vm_compute; reflexivity.
  - vm_compute; reflexivity.
  - vm_compute; reflexivity.
Defined.

(** ** The classifier: failures *)

(** C8.  For a ledger entry whose normal count is at least 1 while no
    normal event of the raw set has its hash, classification fails: the
    indexing [[...][0]] of the empty list of matching events raises
    [IndexError], the exception that stands for the specification's
    [InconsistentLedgerError] (by [index_error_is_inconsistent_ledger]
    nothing else in the classifier raises it).  The failure is the
    outcome of this one call; the classification of another row does not
    depend on it. *)
Theorem inconsistent_ledger_fails self row :
  1 <= row_normal row ->
  hashed (txs (address_data self)) ->
  sharing_hash (row_hash row) (txs (address_data self)) = [] ->
  process_transaction self row = Raise IndexError.
Proof.
  intros Hn Hh He. rewrite (normal_branch _ _ Hn Hh), He. reflexivity.
Qed.

Lemma inconsistent_ledger_fails_witness :
  process_transaction Sample.plain_explorer Sample.orphan_row = Raise IndexError
  /\ is_Ok (process_transaction Sample.plain_explorer Sample.plain_row) = true.
Proof.
  split.
  - apply (inconsistent_ledger_fails Sample.plain_explorer Sample.orphan_row).
    + vm_compute; discriminate.
    + repeat constructor; vm_compute; eauto.
    + vm_compute; reflexivity.
  - vm_compute; reflexivity.
Defined.

(** C6 (as amended).  For a ledger entry whose normal event has an input
    other than ["0x"], is sent by the address of interest and goes to a
    recipient absent from the known-contracts table, classification
    prints the recipient and the raw transaction and returns nothing
    ([None]); no exception is raised, so the caller goes on with the
    remaining transactions. *)
Theorem unknown_contract_returns_nothing self row tx f t input :
  1 <= row_normal row ->
  hashed (txs (address_data self)) ->
  head (sharing_hash (row_hash row) (txs (address_data self))) = Some tx ->
  tx !! "from" = Some f ->
  tx !! "to" = Some t ->
  tx !! "input" = Some input ->
  input ≠ "0x" ->
  get_address_name self f = "ADDRESS_OF_INTEREST" ->
  known_contracts self !! t = None ->
  process_transaction self row
  = Ok ([PrintStr (String.append "NEW CONTRACT: " t); PrintDict tx], None).
Proof.
  intros Hn Hh Hhd Hf Ht Hi Hne Ha Hk.
  rewrite (normal_branch _ _ Hn Hh).
  destruct (head_cons_inv _ _ Hhd) as [rest ->].
  rewrite (getitem_Some _ _ _ Hf), (getitem_Some _ _ _ Ht), (getitem_Some _ _ _ Hi).
  bind_step. cbv zeta.
  destruct (String.eqb_spec input "0x") as [|_]; [contradiction|].
  rewrite Ha. change (String.eqb "ADDRESS_OF_INTEREST" "ADDRESS_OF_INTEREST") with true.
  cbv iota. unfold Py.contains. rewrite Hk. reflexivity.
Qed.

Lemma unknown_contract_returns_nothing_witness :
  process_transaction Sample.unknown_explorer Sample.unknown_row
  = Ok ([PrintStr "NEW CONTRACT: 0xnew"; PrintDict Sample.unknown_call], None).
Proof.
  apply (unknown_contract_returns_nothing Sample.unknown_explorer
           Sample.unknown_row Sample.unknown_call "0xme" "0xnew" "0xa9059cbb").
  - vm_compute; discriminate.
  - repeat constructor; vm_compute; eauto.
  - vm_compute; reflexivity.
  - vm_compute; reflexivity.
  - vm_compute; reflexivity.
  - vm_compute; reflexivity.
  - discriminate.
  - vm_compute; reflexivity.
  - vm_compute; reflexivity.
Defined.

(** C6 as the specification states it fails: a plain transfer sent by the
    address of interest to a recipient absent from the known-contracts
    table is classified, with its ETH movement. *)
Lemma unknown_recipient_plain_transfer :
  head (sharing_hash (row_hash Sample.plain_row)
          (txs (address_data Sample.plain_explorer))) = Some Sample.plain_tx
  /\ Sample.plain_tx !! "from" = Some "0xme"
  /\ get_address_name Sample.plain_explorer "0xme" = "ADDRESS_OF_INTEREST"
  /\ Sample.plain_tx !! "to" = Some "0xfriend"
  /\ known_contracts Sample.plain_explorer !! "0xfriend" = None
  /\ exists r,
      process_transaction Sample.plain_explorer Sample.plain_row
      = Ok ([], Some r)
      /\ length (tr_eth_movements r) = 1%nat.
Proof.
  repeat split; try (vm_compute; reflexivity).
  eexists. split; vm_compute; reflexivity.
Qed.

(** ** Contract-transaction decomposition *)

(** C4 (as amended).  In the decomposition the contract name is looked up
    in the address book (not in the known-contracts table) under the
    recipient address: the lookup raises [KeyError] when the address book
    has no entry for the recipient, and otherwise every result carries
    the name found there.  When that name is ["Maker: Proxy Registry"] the
    result comes back with the contract name set and nothing else
    changed: no movement appended, no function name extracted, the error
    flag as it was. *)
Theorem contract_name_from_address_book self row tx result to :
  tx !! "to" = Some to ->
  match address_book self !! to with
  | None =>
      process_contract_transaction self row tx result = Raise (KeyError to)
  | Some name =>
      (forall r, process_contract_transaction self row tx result = Ok r ->
                 tr_contract r = name)
      /\ (name = "Maker: Proxy Registry" ->
          exists r,
            process_contract_transaction self row tx result = Ok r
            /\ r = set_contract "Maker: Proxy Registry" result
            /\ tr_eth_movements r = tr_eth_movements result
            /\ tr_tokens_movements r = tr_tokens_movements result
            /\ tr_function r = tr_function result
            /\ tr_error r = tr_error result)
  end.
Proof.
  intros Ht. destruct (address_book self !! to) as [name|] eqn:Hb.
  - split.
    + intros r Hr. exact (decomposition_contract _ _ _ _ _ _ _ Ht Hb Hr).
    + intros ->. eexists. split; [exact (registry_branch _ _ _ _ _ Ht Hb)|].
      repeat split.
  - exact (contract_lookup_fails _ _ _ _ _ Ht Hb).
Qed.

Lemma contract_name_from_address_book_witness :
  process_contract_transaction Sample.plain_explorer Sample.plain_row
    Sample.registry_call (new_result "0xc3" 1600000600)
  = Ok (set_contract "Maker: Proxy Registry" (new_result "0xc3" 1600000600))
  /\ process_contract_transaction Sample.vault_explorer Sample.vault_row
       Sample.vault_call (new_result "0xc2" 1600000500)
     = Raise (KeyError "0xvault").
Proof.
  split.
  - pose proof (contract_name_from_address_book Sample.plain_explorer
                  Sample.plain_row Sample.registry_call
                  (new_result "0xc3" 1600000600) "0xreg" eq_refl) as H.
    change (address_book Sample.plain_explorer !! "0xreg")
      with (Some "Maker: Proxy Registry") in H.
    destruct H as [_ H]. destruct (H eq_refl) as (r & Hr & -> & _). exact Hr.
  - exact (contract_name_from_address_book Sample.vault_explorer
             Sample.vault_row Sample.vault_call
             (new_result "0xc2" 1600000500) "0xvault" eq_refl).
Defined.

(** C4 as the specification states it fails: the recipient is a member of
    the known-contracts table, the check of step 5 passes, and the lookup
    of the contract name raises all the same. *)
Lemma known_contract_lookup_fails :
  Sample.vault_call !! "to" = Some "0xvault"
  /\ Py.contains (known_contracts Sample.vault_explorer) "0xvault" = true
  /\ process_contract_transaction Sample.vault_explorer Sample.vault_row
       Sample.vault_call (new_result "0xc2" 1600000500)
     = Raise (KeyError "0xvault")
  /\ process_transaction Sample.vault_explorer Sample.vault_row
     = Raise (KeyError "0xvault").
Proof. repeat split; vm_compute; reflexivity. Qed.

(** C5 (as amended).  Every result returned by [process_transaction]
    with the error flag set has no ETH movement and no token movement.
    In the decomposition the [isError] field is read only for a contract
    other than the proxy registry: there, when [int] reads it as a
    positive number, the flag is set and the result returned at once, the
    movement lists being those it was given.  A call of the contract
    named ["Maker: Proxy Registry"] returns before the field is read:
    its result has the flag as it was given, whatever [isError] holds. *)
Theorem error_result_has_no_movements self row :
  (forall out r,
     process_transaction self row = Ok (out, Some r) ->
     tr_error r = true ->
     tr_eth_movements r = [] /\ tr_tokens_movements r = [])
  /\ (forall tx result to name fn ie n,
        tx !! "to" = Some to ->
        address_book self !! to = Some name ->
        name ≠ "Maker: Proxy Registry" ->
        tx !! "functionName" = Some fn ->
        tx !! "isError" = Some ie ->
        Py.int ie = Ok n ->
        0 < n ->
        exists r,
          process_contract_transaction self row tx result = Ok r
          /\ tr_error r = true
          /\ tr_eth_movements r = tr_eth_movements result
          /\ tr_tokens_movements r = tr_tokens_movements result)
  /\ (forall tx result to,
        tx !! "to" = Some to ->
        address_book self !! to = Some "Maker: Proxy Registry" ->
        exists r,
          process_contract_transaction self row tx result = Ok r
          /\ tr_error r = tr_error result
          /\ tr_eth_movements r = tr_eth_movements result
          /\ tr_tokens_movements r = tr_tokens_movements result).
Proof.
  split; [|split].
  - intros out r. apply classification_error.
  - intros tx result to name fn ie n Ht Hb Hne Hf Hie Hn Hpos.
    rewrite (contract_branch _ _ _ _ _ _ _ _ _ Ht Hb Hne Hf Hie Hn). cbv zeta.
    assert ((0 <? n) = true) as -> by (apply Z.ltb_lt; assumption).
    eexists. split; [reflexivity|]. repeat split.
  - intros tx result to Ht Hb.
    rewrite (registry_branch _ _ _ _ _ Ht Hb).
    eexists. split; [reflexivity|]. repeat split.
Qed.

Lemma error_result_has_no_movements_witness :
  process_transaction Sample.failed_explorer Sample.failed_row
  = Ok ([], Some Sample.failed_result)
  /\ tr_error Sample.failed_result = true
  /\ tr_eth_movements Sample.failed_result = []
  /\ tr_tokens_movements Sample.failed_result = []
  /\ sharing_hash "0xc4" (token_txs (address_data Sample.failed_explorer))
     = [Sample.usdc_c4]
  /\ (exists r,
        process_contract_transaction Sample.failed_explorer Sample.failed_row
          Sample.failed_call (new_result "0xc4" 1600000700) = Ok r
        /\ tr_error r = true
        /\ tr_eth_movements r = [] /\ tr_tokens_movements r = [])
  /\ (exists r,
        process_contract_transaction Sample.failed_registry_explorer
          Sample.failed_registry_row Sample.failed_registry_call
          (new_result "0xc6" 1600000950) = Ok r
        /\ tr_error r = false).
Proof.
  assert (process_transaction Sample.failed_explorer Sample.failed_row
          = Ok ([], Some Sample.failed_result)) as Hr
    by (vm_compute; reflexivity).
  destruct (error_result_has_no_movements
              Sample.failed_explorer Sample.failed_row) as (H1 & H2 & _).
  destruct (error_result_has_no_movements
              Sample.failed_registry_explorer Sample.failed_registry_row)
    as (_ & _ & H3).
  destruct (H1 [] Sample.failed_result Hr eq_refl) as [He Ht].
  split; [exact Hr|]. split; [reflexivity|].
  split; [exact He|]. split; [exact Ht|].
  split; [vm_compute; reflexivity|]. split.
  - apply (H2 Sample.failed_call (new_result "0xc4" 1600000700)
             "0xdex" "Exchange" "swap(uint256)" "1" 1).
    + vm_compute; reflexivity.
    + vm_compute; reflexivity.
    + discriminate.
    + vm_compute; reflexivity.
    + vm_compute; reflexivity.
    + vm_compute; reflexivity.
    + lia.
  - destruct (H3 Sample.failed_registry_call (new_result "0xc6" 1600000950)
                "0xreg") as (r & Hrun & Herr & _).
    + vm_compute; reflexivity.
    + vm_compute; reflexivity.
    + exists r. split; [exact Hrun | exact Herr].
Defined.

(** C5 as the specification states it fails: a call of the proxy
    registry whose [isError] field is ["1"] comes back without the error
    flag, from the decomposition and from [process_transaction]. *)
Lemma failed_registry_call_not_flagged :
  Sample.failed_registry_call !! "isError" = Some "1"
  /\ Py.int "1" = Ok 1
  /\ Sample.failed_registry_call !! "to" = Some "0xreg"
  /\ Py.contains (known_contracts Sample.failed_registry_explorer) "0xreg" = true
  /\ exists r,
       process_contract_transaction Sample.failed_registry_explorer
         Sample.failed_registry_row Sample.failed_registry_call
         (set_to_address "Maker: Proxy Registry"
            (set_from_address "ADDRESS_OF_INTEREST"
               (new_result "0xc6" 1600000950))) = Ok r
       /\ process_transaction Sample.failed_registry_explorer
            Sample.failed_registry_row = Ok ([], Some r)
       /\ tr_contract r = "Maker: Proxy Registry"
       /\ tr_error r = false.
Proof.
  split; [vm_compute; reflexivity|]. split; [vm_compute; reflexivity|].
  split; [vm_compute; reflexivity|]. split; [vm_compute; reflexivity|].
  eexists. split; [vm_compute; reflexivity|].
  split; [vm_compute; reflexivity|]. split; reflexivity.
Qed.

(** C2 (as amended).  In the decomposition of a contract transaction that
    reaches the loops, every ERC-20 event ([token_txs]) of the primary
    address under the hash adds its normalized movement, and an ERC-20
    event of the proxy address adds its normalized movement exactly when
    neither the resolved sender nor the resolved recipient is
    ["ADDRESS_OF_INTEREST"]: the token movements of the result are those
    it was given, then the primary ones, then the proxy ones that are
    kept, in order.  ERC-721 and ERC-1155 events, of either address, are
    not collected. *)
Theorem proxy_pass_through_omitted self row tx result
    to name fn ie n v x f tms ems dms :
  tx !! "to" = Some to ->
  address_book self !! to = Some name ->
  name ≠ "Maker: Proxy Registry" ->
  tx !! "functionName" = Some fn ->
  tx !! "isError" = Some ie ->
  Py.int ie = Ok n ->
  n <= 0 ->
  tx !! "value" = Some v ->
  Py.float_of_str v = Ok x ->
  tx !! "from" = Some f ->
  hashed (token_txs (address_data self)) ->
  hashed (internal_txs (address_data self)) ->
  hashed (token_txs (ds_proxy_data self)) ->
  map_outcome (normalize_token self)
    (sharing_hash (row_hash row) (token_txs (address_data self))) = Ok tms ->
  map_outcome (normalize_internal self)
    (sharing_hash (row_hash row) (internal_txs (address_data self))) = Ok ems ->
  map_outcome (normalize_token self)
    (sharing_hash (row_hash row) (token_txs (ds_proxy_data self))) = Ok dms ->
  exists r,
    process_contract_transaction self row tx result = Ok r
    /\ tr_tokens_movements r
       = tr_tokens_movements result ++ tms
           ++ filter (fun m => ¬ (am_from_address m = "ADDRESS_OF_INTEREST"
                                  \/ am_to_address m = "ADDRESS_OF_INTEREST"))
                dms.
Proof.
  intros Ht Hb Hne Hf Hie Hn Hle Hv Hx Hfrom Hh1 Hh2 Hh3 Htm Hem Hdm.
  rewrite (contract_branch _ _ _ _ _ _ _ _ _ Ht Hb Hne Hf Hie Hn). cbv zeta.
  assert ((0 <? n) = false) as -> by (apply Z.ltb_ge; assumption).
  rewrite (eth_value_Some _ _ _ Hv Hx). bind_step.
  rewrite (getitem_Some _ _ _ Hfrom), (getitem_Some _ _ _ Ht). bind_step.
  assert (filter (fun m => ¬ (am_from_address m = "ADDRESS_OF_INTEREST"
                              \/ am_to_address m = "ADDRESS_OF_INTEREST")) dms
          = filter kept_proxy_movement dms) as ->.
  { apply list_filter_iff. intros m. unfold kept_proxy_movement. tauto. }
  destruct (Py.gt0 (div_1e18 x)); bind_step;
    rewrite (decomposition_loops _ _ _ _ _ _ Hh1 Hh2 Hh3 Htm Hem Hdm);
    eexists; (split; [reflexivity|]); reflexivity.
Qed.

Lemma proxy_pass_through_omitted_witness :
  exists r,
    process_contract_transaction Sample.proxy_explorer Sample.proxy_row
      Sample.proxy_call (new_result "0xc5" 1600000800) = Ok r
    /\ tr_tokens_movements r
       = [ {| am_name := "DAI"; am_value := three;
              am_from_address := "DSProxy";
              am_to_address := "ADDRESS_OF_INTEREST" |};
           {| am_name := "DAI"; am_value := three;
              am_from_address := "Exchange";
              am_to_address := "DSProxy" |} ].
Proof.
  refine (proxy_pass_through_omitted Sample.proxy_explorer Sample.proxy_row
            Sample.proxy_call (new_result "0xc5" 1600000800)
            "0xproxy" "DSProxy" "execute(address,bytes)" "0" 0
            "1000000000000000000" (S754_finite false 7812500000000000 7) "0xme"
            [ {| am_name := "DAI"; am_value := three;
                 am_from_address := "DSProxy";
                 am_to_address := "ADDRESS_OF_INTEREST" |} ]
            [ {| am_name := "ETH"; am_value := S754_finite false 4503599627370496 (-53);
                 am_from_address := "DSProxy";
                 am_to_address := "ADDRESS_OF_INTEREST" |} ]
            [ {| am_name := "DAI"; am_value := three;
                 am_from_address := "Exchange";
                 am_to_address := "DSProxy" |};
              {| am_name := "DAI"; am_value := three;
                 am_from_address := "DSProxy";
                 am_to_address := "ADDRESS_OF_INTEREST" |} ]
            _ _ _ _ _ _ _ _ _ _ _ _ _ _ _ _);
    try (vm_compute; reflexivity);
    try discriminate;
    try (repeat constructor; vm_compute; eauto; fail).
Defined.

(** C2 as the specification states it fails: an ERC-721 event of the
    primary address that shares the hash and has a normalized form is not
    appended to the token movements, and an ERC-721 event of the proxy
    address whose two parties both differ from the address of interest is
    left out as well. *)
Lemma proxy_decomposition_skips_nft :
  (Sample.punk_to_me
     ∈ sharing_hash (row_hash Sample.proxy_row)
         (token_category_events (address_data Sample.proxy_nft_explorer)))
  /\ (Sample.punk_to_proxy
        ∈ sharing_hash (row_hash Sample.proxy_row)
            (token_category_events (ds_proxy_data Sample.proxy_nft_explorer)))
  /\ exists m m' r,
       normalize_token Sample.proxy_nft_explorer Sample.punk_to_me = Ok m
       /\ normalize_token Sample.proxy_nft_explorer Sample.punk_to_proxy = Ok m'
       /\ am_from_address m' ≠ "ADDRESS_OF_INTEREST"
       /\ am_to_address m' ≠ "ADDRESS_OF_INTEREST"
       /\ process_contract_transaction Sample.proxy_nft_explorer
            Sample.proxy_row Sample.proxy_call (new_result "0xc5" 1600000800)
          = Ok r
       /\ (m ∉ tr_tokens_movements r)
       /\ (m' ∉ tr_tokens_movements r).
Proof.
  split; [|split].
  - unfold sharing_hash. apply list_elem_of_filter. split; [reflexivity|].
    simpl. set_solver.
  - unfold sharing_hash. apply list_elem_of_filter. split; [reflexivity|].
    simpl. set_solver.
  - eexists _, _, _. split; [vm_compute; reflexivity|].
    split; [vm_compute; reflexivity|].
    split; [discriminate|]. split; [discriminate|].
    split; [vm_compute; reflexivity|].
    cbn [tr_tokens_movements].
    split; intros H;
      repeat (apply elem_of_cons in H as [H|H]; [discriminate H|]);
      inversion H.
Qed.

(** ** Malformed amounts *)




(** ** The ledger builder *)

(** C7.  For raw events that all carry a hash and a timestamp that [int]
    reads (and that the clock accepts), [get_summary] returns one row per
    distinct hash: the hashes of the rows have no duplicate and are the
    hashes of the events, as many rows as distinct hashes; each row
    carries the timestamp of the first event with its hash in the order
    of [all_txs]; the rows are in ascending order of timestamp and rows
    with equal timestamps stand in the order their hashes were first
    seen; and every count column holds the number of events of its own
    category that share the row's hash. *)
Theorem summary_is_ledger {datetime date : Type}
    (fromtimestamp : Z -> outcome datetime) (datetime_date : datetime -> date)
    (d : EtherscanData) (ps : list (string * Z)) :
  map_outcome event_key (all_txs d) = Ok ps ->
  (forall p, p ∈ ps -> is_Ok (fromtimestamp p.2) = true) ->
  exists rows,
    get_summary datetime date fromtimestamp datetime_date d = Ok rows
    /\ NoDup (sr_hash <$> rows)
    /\ (forall h, h ∈ sr_hash <$> rows <-> h ∈ ps.*1)
    /\ length rows = size (list_to_set (C := gset string) ps.*1)
    /\ (forall r, r ∈ rows -> first_occurrence ps (sr_hash r, sr_timestamp r))
    /\ (forall r1 r2,
          precedes r1 r2 rows ->
          sr_timestamp r1 <= sr_timestamp r2
          /\ (sr_timestamp r1 = sr_timestamp r2 ->
              seen_earlier ps (sr_hash r1) (sr_hash r2)))
    /\ (forall r c,
          r ∈ rows ->
          get_column c r
          = Z.of_nat (length (sharing_hash (sr_hash r) (column_events d c)))).
Proof.
  intros Hps Hts.
  destruct (get_summary_filled fromtimestamp datetime_date d ps Hps Hts)
    as (rows & Hrows & Hf).
  exists rows. split; [exact Hrows|].
  pose proof (filled_frame_hashes _ _ _ _ Hf) as Hh.
  assert (sr_hash <$> rows ≡ₚ (first_seen ∅ ps).*1) as Hperm.
  { rewrite Hh. apply fmap_Permutation. apply sorted_by_key_perm. }
  assert (NoDup (sr_hash <$> rows)) as Hnd.
  { rewrite Hperm. apply first_seen_NoDup. }
  assert (forall h, h ∈ sr_hash <$> rows <-> h ∈ ps.*1) as Hel.
  { intros h. rewrite Hperm, first_seen_hashes. split; [tauto|].
    intros H. split; [exact H | apply not_elem_of_empty]. }
  split; [exact Hnd|]. split; [exact Hel|]. split; [|split; [|split]].
  - rewrite <- (length_fmap sr_hash rows).
    rewrite <- (size_list_to_set (C := gset string) _ Hnd).
    f_equal. apply set_eq. intros h. rewrite !elem_of_list_to_set. apply Hel.
  - intros r Hr. destruct (filled_frame_elem _ _ _ _ _ Hf Hr) as [Hk _].
    apply (first_seen_first ∅).
    exact (proj1 (sorted_by_key_elem _ _ _) Hk).
  - intros r1 r2 Hp. apply precedes_before in Hp.
    pose proof (filled_frame_before _ _ _ _ _ _ Hf Hp) as Hb.
    apply sorted_by_key_before in Hb. cbn [snd] in Hb. destruct Hb as [Hle Hst].
    split; [exact Hle|]. intros E.
    exact (first_seen_before _ _ _ _ (Hst E)).
  - intros r c Hr. destruct (filled_frame_elem _ _ _ _ _ Hf Hr) as [_ Hc].
    rewrite Hc. destruct c; reflexivity.
Qed.

Lemma summary_is_ledger_witness :
  map_outcome event_key (all_txs SampleLedger.data) = Ok SampleLedger.keys
  /\ exists rows,
      get_summary Z Z SampleLedger.fromtimestamp SampleLedger.datetime_date
        SampleLedger.data = Ok rows
      /\ NoDup (sr_hash <$> rows)
      /\ length rows = 4%nat
      /\ (fun r => (sr_hash r, sr_timestamp r)) <$> rows
         = [("0xd", 5); ("0xb", 10); ("0xc", 10); ("0xa", 30)]
      /\ (fun r => (sr_normal r, sr_has_internal r, sr_erc20 r, sr_erc721 r,
                    sr_erc1155 r)) <$> rows
         = [(0, 0, 2, 0, 0); (1, 0, 0, 1, 0); (0, 1, 0, 0, 0); (1, 1, 0, 0, 0)].
Proof.
  assert (map_outcome event_key (all_txs SampleLedger.data)
          = Ok SampleLedger.keys) as Hk by (vm_compute; reflexivity).
  split; [exact Hk|].
  destruct (summary_is_ledger SampleLedger.fromtimestamp
              SampleLedger.datetime_date SampleLedger.data SampleLedger.keys Hk)
    as (rows & Hrows & Hnd & _).
  - intros p _. reflexivity.
  - exists rows. split; [exact Hrows|]. split; [exact Hnd|].
    vm_compute in Hrows. revert Hrows; intros [= <-].
    repeat split.
Defined.

(** ** Facts about the raw event store *)

Section StoreFacts.

Context {R : Type}.
Variable P : platform R.
Variable self : EtherscanDataRetriever.

Ltac io_step :=
  cbv [mbind mret io_mbind io_mret io_bind io_ret lift print read_cache
       write_cache http_result];
  cbn [files requests stdout].

Lemma is_account_action_total params name :
  cache_name params = Ok name ->
  exists b, is_account_action self params = Ok b.
Proof.
  unfold cache_name, is_account_action. intros H. do 2 unbind H.
  bind_step. destruct (String.eqb _ "account"); bind_step; eauto.
Qed.

(** [get_from_cache] reads: it leaves the files and the requests as they
    are, and what it returns is what the file holds. *)
Lemma get_from_cache_reads params w w' r :
  get_from_cache P self params w = (w', r) ->
  files w' = files w /\ requests w' = requests w
  /\ (w' = w \/ w' = printing (FoundInCache params) w)
  /\ forall v, r = Done (Some v) ->
       exists path address,
         cache_file P self params = Ok path
         /\ is_account_action self params = Ok true
         /\ params !! "address" = Some address
         /\ cache_entry w path address = Some (Some v).
Proof.
  unfold get_from_cache, cache_file, cache_entry. io_step.
  destruct (cache_name params) as [name|e]; io_step.
  2: { intros [= <- <-]. repeat split; auto. discriminate. }
  destruct (files w !! path_join P (r_cache_path self) name) as [cd|] eqn:Hf; io_step.
  2: { intros [= <- <-]. repeat split; auto. discriminate. }
  destruct (is_account_action self params) as [[|]|e]; io_step.
  2, 3: intros [= <- <-]; repeat split; auto; discriminate.
  destruct (Py.getitem params "address") as [a|e] eqn:Ha; io_step.
  2: { intros [= <- <-]. repeat split; auto. discriminate. }
  destruct (cd !! a) as [res|] eqn:Hc; io_step.
  2: { intros [= <- <-]. repeat split; auto. discriminate. }
  intros [= <- <-]. repeat split; auto.
  intros v [= ->]. exists (path_join P (r_cache_path self) name), a.
  bind_step. rewrite Hf. simpl. rewrite Hc.
  repeat split; auto. apply getitem_inv. assumption.
Qed.

Lemma cache_entry_insert_file (w : world R) path cd path' a :
  cache_entry {| files := <[path := cd]> (files w); requests := requests w;
                 stdout := stdout w |} path' a
  = if decide (path = path') then cd !! a else cache_entry w path' a.
Proof.
  unfold cache_entry. cbn [files]. rewrite lookup_insert.
  destruct (decide (path = path')); reflexivity.
Qed.

(** [update_cache] sends nothing; when it succeeds it has written the
    file of the parameters, with the result under the address for an
    account action and with the old content (or an empty dictionary)
    otherwise; when it fails no file has changed. *)
Lemma update_cache_writes params result w w' r :
  update_cache P self params result w = (w', r) ->
  requests w' = requests w
  /\ (forall e, r = Failed e -> w' = w \/ w' = printing (CannotUpdateCache params) w)
  /\ (r = Done tt ->
      exists path,
        cache_file P self params = Ok path
        /\ writable P path = true
        /\ ((is_account_action self params = Ok true
             /\ exists a, params !! "address" = Some a
                /\ stdout w' = stdout w
                /\ files w'
                   = <[path := <[a := result]> (default ∅ (files w !! path))]>
                       (files w))
            \/ (is_account_action self params = Ok false
                /\ stdout w' = stdout w ++ [CannotUpdateCache params]
                /\ files w'
                   = <[path := default ∅ (files w !! path)]> (files w)))).
Proof.
  unfold update_cache, cache_file. io_step.
  destruct (cache_name params) as [name|e]; io_step; bind_step.
  2: { intros [= <- <-]. split; [reflexivity|]. split; [auto | discriminate]. }
  destruct (is_account_action self params) as [[|]|e]; io_step.
  - destruct (Py.getitem params "address") as [a|e] eqn:Ha; io_step.
    2: { intros [= <- <-]. split; [reflexivity|]. split; [auto | discriminate]. }
    destruct (writable P (path_join P (r_cache_path self) name)) eqn:Hw.
    + intros [= <- <-]. split; [reflexivity|]. split; [discriminate|].
      intros _. eexists. split; [reflexivity|]. split; [exact Hw|].
      left. split; [reflexivity|]. exists a.
      split; [apply getitem_inv; exact Ha|]. split; reflexivity.
    + intros [= <- <-]. split; [reflexivity|]. split; [auto | discriminate].
  - destruct (writable P (path_join P (r_cache_path self) name)) eqn:Hw.
    + intros [= <- <-]. split; [reflexivity|]. split; [discriminate|].
      intros _. eexists. split; [reflexivity|]. split; [exact Hw|].
      right. split; [reflexivity|]. split; reflexivity.
    + intros [= <- <-]. split; [reflexivity|]. split; [|discriminate].
      intros _ _. right. reflexivity.
  - intros [= <- <-]. split; [reflexivity|]. split; [auto | discriminate].
Qed.

(** [update_cache] changes at most one entry: the one of its own file and
    address. *)
Lemma update_cache_frame params result w w' r path a :
  update_cache P self params result w = (w', r) ->
  ¬ (cache_file P self params = Ok path /\ params !! "address" = Some a) ->
  cache_entry w' path a = cache_entry w path a.
Proof.
  intros H Hno. destruct (update_cache_writes _ _ _ _ _ H) as (_ & Hfail & Hok).
  destruct r as [[]|e].
  - destruct (Hok eq_refl) as (p & Hp & _ & [(_ & a0 & Ha & _ & Hf)|(_ & _ & Hf)]);
      unfold cache_entry; rewrite Hf, lookup_insert;
      (destruct (decide (p = path)) as [->|]; [|reflexivity]).
    + simpl. rewrite lookup_insert.
      destruct (decide (a0 = a)) as [->|]; [exfalso; apply Hno; auto|].
      destruct (files w !! path); simpl; [reflexivity | apply lookup_empty].
    + destruct (files w !! path); simpl; [reflexivity | apply lookup_empty].
  - destruct (Hfail e eq_refl) as [->| ->]; reflexivity.
Qed.

(** *** [get_data] *)

(** [get_data] sends at most one request, to the URL of the retriever and
    with the parameters as they are. *)
Lemma get_data_requests params w w' r :
  get_data P self params w = (w', r) ->
  requests w' = requests w
  \/ requests w' = requests w ++ [request_of self params].
Proof.
  unfold get_data. io_step.
  destruct (get_from_cache P self params w) as [w1 [[v|]|e]] eqn:Hg;
    destruct (get_from_cache_reads _ _ _ _ Hg) as (_ & Hq & _).
  - intros [= <- <-]. left. exact Hq.
  - destruct (respond P (requests w1) _) as [res|e] eqn:Hr.
    + destruct (update_cache P self params res _) as [w2 [[]|e]] eqn:Hu;
        destruct (update_cache_writes _ _ _ _ _ Hu) as (Hq2 & _);
        intros [= <- <-]; right; rewrite Hq2; cbn [requests]; rewrite Hq;
        reflexivity.
    + intros [= <- <-]. right. cbn [requests]. rewrite Hq. reflexivity.
  - intros [= <- <-]. left. exact Hq.
Qed.

(** A result that is [None] does not come from the cache. *)
Lemma get_data_None_requests params w w' :
  get_data P self params w = (w', Done None) ->
  requests w' = requests w ++ [request_of self params].
Proof.
  unfold get_data. io_step.
  destruct (get_from_cache P self params w) as [w1 [[v|]|e]] eqn:Hg;
    destruct (get_from_cache_reads _ _ _ _ Hg) as (_ & Hq & _);
    [discriminate| |discriminate].
  destruct (respond P (requests w1) _) as [res|e] eqn:Hr; [|discriminate].
  destruct (update_cache P self params res _) as [w2 [[]|e]] eqn:Hu;
    [|discriminate].
  destruct (update_cache_writes _ _ _ _ _ Hu) as (Hq2 & _).
  intros [= <- _]. rewrite Hq2. cbn [requests]. rewrite Hq. reflexivity.
Qed.

(** When the file holds a result for the address of an account action,
    [get_data] prints a line and returns it. *)
Lemma get_data_hit params w path a v :
  cache_file P self params = Ok path ->
  is_account_action self params = Ok true ->
  params !! "address" = Some a ->
  cache_entry w path a = Some (Some v) ->
  get_data P self params w = (printing (FoundInCache params) w, Done (Some v)).
Proof.
  unfold cache_file, cache_entry, get_data, get_from_cache. intros Hp Ha Had Hc.
  destruct (cache_name params) as [name|]; [|discriminate].
  revert Hp. bind_step. intros [= <-]. io_step.
  destruct (files w !! path_join P (r_cache_path self) name) as [cd|];
    [|discriminate]. simpl in Hc.
  io_step. rewrite Ha. io_step. rewrite (getitem_Some _ _ _ Had). io_step.
  rewrite Hc. reflexivity.
Qed.

(** After [get_data] has returned a result for an account action, the
    cache holds it. *)
Lemma get_data_stores params w w' v :
  is_account_action self params = Ok true ->
  get_data P self params w = (w', Done (Some v)) ->
  exists path a,
    cache_file P self params = Ok path
    /\ params !! "address" = Some a
    /\ cache_entry w' path a = Some (Some v).
Proof.
  intros Hacc. unfold get_data. io_step.
  destruct (get_from_cache P self params w) as [w1 [[v1|]|e]] eqn:Hg;
    destruct (get_from_cache_reads _ _ _ _ Hg) as (Hf & _ & _ & Hv);
    [| |discriminate].
  - intros [= <- <-]. destruct (Hv v1 eq_refl) as (path & a & Hp & _ & Ha & Hc).
    exists path, a. split; [exact Hp|]. split; [exact Ha|].
    unfold cache_entry in *. rewrite Hf. exact Hc.
  - destruct (respond P (requests w1) _) as [res|e] eqn:Hr; [|discriminate].
    destruct (update_cache P self params res _) as [w2 [[]|e]] eqn:Hu;
      [|discriminate].
    destruct (update_cache_writes _ _ _ _ _ Hu) as (_ & _ & Hok).
    intros [= <- ->].
    destruct (Hok eq_refl) as (path & Hp & _ & [(_ & a & Ha & _ & Hfw)|(Hn & _)]);
      [|congruence].
    exists path, a. split; [exact Hp|]. split; [exact Ha|].
    unfold cache_entry. rewrite Hfw, lookup_insert_eq. simpl.
    apply lookup_insert_eq.
Qed.

Lemma same_cache_key_name params params' :
  same_cache_key params params' -> cache_name params' = cache_name params.
Proof.
  intros (Hm & Ha & _). unfold cache_name, Py.getitem. rewrite Hm, Ha. reflexivity.
Qed.

Lemma same_cache_key_account params params' :
  same_cache_key params params' ->
  is_account_action self params' = is_account_action self params.
Proof.
  intros (Hm & Ha & _). unfold is_account_action, Py.getitem.
  rewrite Hm, Ha. reflexivity.
Qed.

(** When there is no result to take from the cache, [get_from_cache]
    returns [None] and sends nothing. *)
Lemma get_from_cache_no_result params w path :
  cache_file P self params = Ok path ->
  (is_account_action self params = Ok false
   \/ (is_account_action self params = Ok true
       /\ exists a, params !! "address" = Some a
                    /\ forall v, cache_entry w path a ≠ Some (Some v))) ->
  exists w', get_from_cache P self params w = (w', Done None)
             /\ files w' = files w /\ requests w' = requests w.
Proof.
  unfold cache_file, cache_entry, get_from_cache. intros Hp Hc.
  destruct (cache_name params) as [name|]; [|discriminate].
  revert Hp. bind_step. intros [= <-]. io_step.
  destruct (files w !! path_join P (r_cache_path self) name) as [cd|] eqn:Hf;
    [|eexists; split; [reflexivity|]; split; reflexivity].
  io_step. destruct Hc as [-> | (-> & a & Ha & Hv)]; io_step.
  - eexists. split; [reflexivity|]. split; reflexivity.
  - rewrite (getitem_Some _ _ _ Ha). io_step. simpl in Hv.
    destruct (cd !! a) as [[v|]|] eqn:Hcd.
    + exfalso. exact (Hv v eq_refl).
    + eexists. split; [reflexivity|]. split; reflexivity.
    + eexists. split; [reflexivity|]. split; reflexivity.
Qed.

(** What [get_data] does when the cache gives nothing. *)
Lemma get_data_miss params w w' r path :
  cache_file P self params = Ok path ->
  (is_account_action self params = Ok false
   \/ (is_account_action self params = Ok true
       /\ exists a, params !! "address" = Some a
                    /\ forall v, cache_entry w path a ≠ Some (Some v))) ->
  get_data P self params w = (w', r) ->
  requests w' = requests w ++ [request_of self params].
Proof.
  intros Hp Hc. destruct (get_from_cache_no_result _ _ _ Hp Hc) as (w1 & Hg & _ & Hq).
  unfold get_data. io_step. rewrite Hg.
  destruct (respond P (requests w1) _) as [res|e] eqn:Hr.
  - destruct (update_cache P self params res _) as [w2 [[]|e]] eqn:Hu;
      destruct (update_cache_writes _ _ _ _ _ Hu) as (Hq2 & _);
      intros [= <- <-]; rewrite Hq2; cbn [requests]; rewrite Hq; reflexivity.
  - intros [= <- <-]. cbn [requests]. rewrite Hq. reflexivity.
Qed.

(** [get_data] changes at most one cache entry: the one of its own file
    and address. *)
Lemma get_data_frame params w w' r path a :
  get_data P self params w = (w', r) ->
  ¬ (cache_file P self params = Ok path /\ params !! "address" = Some a) ->
  cache_entry w' path a = cache_entry w path a.
Proof.
  unfold get_data. io_step.
  destruct (get_from_cache P self params w) as [w1 [[v|]|e]] eqn:Hg;
    destruct (get_from_cache_reads _ _ _ _ Hg) as (Hf & _).
  - intros [= <- <-] _. unfold cache_entry. rewrite Hf. reflexivity.
  - destruct (respond P (requests w1) _) as [res|e] eqn:Hr.
    + destruct (update_cache P self params res _) as [w2 [[]|e]] eqn:Hu;
        intros [= <- <-] Hno;
        rewrite (update_cache_frame _ _ _ _ _ _ _ Hu Hno);
        unfold cache_entry; cbn [files]; rewrite Hf; reflexivity.
    + intros [= <- <-] _. unfold cache_entry. cbn [files]. rewrite Hf.
      reflexivity.
  - intros [= <- <-] _. unfold cache_entry. rewrite Hf. reflexivity.
Qed.

(** No account action: [get_from_cache] gives nothing and does nothing. *)
Lemma get_from_cache_not_account params w path :
  cache_file P self params = Ok path ->
  is_account_action self params = Ok false ->
  get_from_cache P self params w = (w, Done None).
Proof.
  unfold cache_file, get_from_cache. intros Hp Hacc.
  destruct (cache_name params) as [name|]; [|discriminate]. io_step.
  destruct (files w !! _); [|reflexivity]. io_step. rewrite Hacc. reflexivity.
Qed.

End StoreFacts.

(** ** The raw event store: properties *)

(** X1.  Once [get_data] has returned a result for an account action,
    every later call with the same module, action and address is served
    from the cache: it returns that result, prints one line, sends no
    request and leaves the files as they are, whatever the other
    parameters (block range, sort order, API key) and whatever the server
    would now answer. *)
Theorem get_data_served_from_cache {R} (P : platform R)
    (self : EtherscanDataRetriever) (params params' : gmap string string)
    (w w1 : world R) (v : R) :
  is_account_action self params = Ok true ->
  get_data P self params w = (w1, Done (Some v)) ->
  same_cache_key params params' ->
  get_data P self params' w1
  = ({| files := files w1; requests := requests w1;
        stdout := stdout w1 ++ [FoundInCache params'] |}, Done (Some v)).
Proof.
  intros Hacc Hget Hkey.
  destruct (get_data_stores P self _ _ _ _ Hacc Hget) as (path & a & Hp & Ha & Hc).
  apply (get_data_hit P self params' w1 path a v).
  - unfold cache_file. rewrite (same_cache_key_name _ _ Hkey). exact Hp.
  - rewrite (same_cache_key_account self _ _ Hkey). exact Hacc.
  - destruct Hkey as (_ & _ & ->). exact Ha.
  - exact Hc.
Qed.

Lemma get_data_served_from_cache_witness :
  exists w1,
    get_data SampleStore.counting SampleStore.retriever SampleStore.params
      SampleStore.empty_world = (w1, Done (Some 0%nat))
    /\ length (requests w1) = 1%nat
    /\ get_data SampleStore.counting SampleStore.retriever
         SampleStore.other_params w1
       = ({| files := files w1; requests := requests w1;
             stdout := stdout w1 ++ [FoundInCache SampleStore.other_params] |},
          Done (Some 0%nat)).
Proof.
  eexists. split; [vm_compute; reflexivity|]. split; [reflexivity|].
  apply (get_data_served_from_cache SampleStore.counting SampleStore.retriever
           SampleStore.params SampleStore.other_params SampleStore.empty_world).
  - vm_compute; reflexivity.
  - vm_compute; reflexivity.
  - repeat split; vm_compute; reflexivity.
Defined.

(** X2.  A [null] result is never served from the cache: a call of
    [get_data] that returns [None] has sent a request, and the next call
    with the same parameters sends one again, whatever it returns. *)
Theorem get_data_null_is_refetched {R} (P : platform R)
    (self : EtherscanDataRetriever) (params : gmap string string)
    (w w1 : world R) :
  get_data P self params w = (w1, Done None) ->
  requests w1 = requests w ++ [request_of self params]
  /\ forall w2 r2,
       get_data P self params w1 = (w2, r2) ->
       requests w2 = requests w1 ++ [request_of self params].
Proof.
  intros Hget. split; [exact (get_data_None_requests P self _ _ _ Hget)|].
  intros w2 r2. revert Hget. unfold get_data at 1.
  cbv [mbind mret io_mbind io_mret io_bind io_ret http_result].
  destruct (get_from_cache P self params w) as [w0 [[v|]|e]] eqn:Hg;
    [discriminate| |discriminate].
  destruct (respond P (requests w0) _) as [res|e]; [|discriminate].
  destruct (update_cache P self params res _) as [w' [[]|e]] eqn:Hu;
    [|discriminate].
  intros [= -> ->].
  destruct (update_cache_writes P self _ _ _ _ _ Hu) as (_ & _ & Hok).
  destruct (Hok eq_refl)
    as (path & Hp & _ & [(Hacc & a & Ha & _ & Hf)|(Hacc & _ & _)]).
  - apply (get_data_miss P self params w1 w2 r2 path Hp).
    right. split; [exact Hacc|]. exists a. split; [exact Ha|].
    intros v. unfold cache_entry. rewrite Hf, lookup_insert_eq. simpl.
    rewrite lookup_insert_eq. discriminate.
  - apply (get_data_miss P self params w1 w2 r2 path Hp). left. exact Hacc.
Qed.

Lemma get_data_null_is_refetched_witness :
  let w1 := (get_data SampleStore.silent SampleStore.retriever
               SampleStore.params SampleStore.empty_world).1 in
  get_data SampleStore.silent SampleStore.retriever SampleStore.params
    SampleStore.empty_world = (w1, Done None)
  /\ length (requests w1) = 1%nat
  /\ forall w2 r2,
       get_data SampleStore.silent SampleStore.retriever SampleStore.params w1
       = (w2, r2) ->
       length (requests w2) = 2%nat.
Proof.
  intros w1.
  assert (get_data SampleStore.silent SampleStore.retriever SampleStore.params
            SampleStore.empty_world = (w1, Done None)) as H0
    by (subst w1; vm_compute; reflexivity).
  destruct (get_data_null_is_refetched SampleStore.silent
              SampleStore.retriever SampleStore.params
              SampleStore.empty_world w1 H0) as [H1 H2].
  split; [exact H0|]. split; [rewrite H1; reflexivity|].
  intros w2 r2 H. rewrite (H2 _ _ H), length_app, H1. reflexivity.
Defined.

(** X3.  A request that is no account action is never cached: every call
    of [get_data] sends it to the server and changes no cache entry, and
    a call that returns has printed ["Cannot update cache"]. *)
Theorem get_data_other_requests_not_cached {R} (P : platform R)
    (self : EtherscanDataRetriever) (params : gmap string string)
    (module action : string) (w w1 : world R) (r : io_result (option R)) :
  params !! "module" = Some module ->
  params !! "action" = Some action ->
  ¬ (module = "account" /\ action ∈ r_account_actions self) ->
  get_data P self params w = (w1, r) ->
  requests w1 = requests w ++ [request_of self params]
  /\ (forall path a, cache_entry w1 path a = cache_entry w path a)
  /\ (forall res, r = Done res ->
        stdout w1 = stdout w ++ [CannotUpdateCache params]).
Proof.
  intros Hm Hact Hno Hget.
  assert (is_account_action self params = Ok false) as Hacc.
  { unfold is_account_action. rewrite (getitem_Some _ _ _ Hm). bind_step.
    destruct (String.eqb_spec module "account") as [->|]; [|reflexivity].
    rewrite (getitem_Some _ _ _ Hact). bind_step.
    rewrite bool_decide_eq_false_2; [reflexivity|]. intros Hin. apply Hno. auto. }
  assert (exists path, cache_file P self params = Ok path) as [path Hp].
  { unfold cache_file, cache_name.
    rewrite (getitem_Some _ _ _ Hm), (getitem_Some _ _ _ Hact). bind_step. eauto. }
  split; [exact (get_data_miss P self _ _ _ _ path Hp (or_introl Hacc) Hget)|].
  revert Hget. unfold get_data.
  cbv [mbind mret io_mbind io_mret io_bind io_ret http_result].
  rewrite (get_from_cache_not_account P self _ w path Hp Hacc).
  destruct (respond P (requests w) _) as [res|e].
  - destruct (update_cache P self params res _) as [w' [[]|e]] eqn:Hu;
      destruct (update_cache_writes P self _ _ _ _ _ Hu) as (_ & Hfail & Hok).
    + destruct (Hok eq_refl) as (p' & Hp' & _ & [(Hacc' & _)|(_ & Hs & Hf)]);
        [congruence|].
      intros [= <- <-]. split.
      * intros p a. unfold cache_entry. rewrite Hf. cbn [files].
        rewrite lookup_insert.
        destruct (decide (p' = p)) as [->|]; [|reflexivity].
        destruct (files w !! p); simpl; [reflexivity | apply lookup_empty].
      * intros _ _. exact Hs.
    + intros [= <- <-]. split; [|discriminate].
      intros p a. destruct (Hfail e eq_refl) as [-> | ->]; reflexivity.
  - intros [= <- <-]. split; [|discriminate]. intros p a. reflexivity.
Qed.

Lemma get_data_other_requests_not_cached_witness :
  let run := get_data SampleStore.counting SampleStore.retriever
               SampleStore.price_params in
  (run SampleStore.empty_world).2 = Done (Some 0%nat)
  /\ (run (run SampleStore.empty_world).1).2 = Done (Some 1%nat)
  /\ length (requests (run (run SampleStore.empty_world).1).1) = 2%nat
  /\ forall path a,
       cache_entry (run SampleStore.empty_world).1 path a
       = cache_entry SampleStore.empty_world path a.
Proof.
  intros run. split; [vm_compute; reflexivity|].
  split; [vm_compute; reflexivity|]. split; [vm_compute; reflexivity|].
  refine (proj1 (proj2 (get_data_other_requests_not_cached SampleStore.counting
            SampleStore.retriever SampleStore.price_params "stats" "ethprice"
            SampleStore.empty_world _ (run SampleStore.empty_world).2
            eq_refl eq_refl _ _))).
  - intros [H _]. discriminate H.
  - subst run. apply surjective_pairing.
Defined.

(** X4.  [get_data] sends at most one request, to the URL of the
    retriever and with the parameters it was given, and it changes at
    most one cache entry, the one of its own file and address: the
    results cached for other addresses and for other actions stay. *)
Theorem get_data_footprint {R} (P : platform R)
    (self : EtherscanDataRetriever) (params : gmap string string)
    (w w1 : world R) (r : io_result (option R)) :
  get_data P self params w = (w1, r) ->
  (requests w1 = requests w
   \/ requests w1 = requests w ++ [request_of self params])
  /\ forall path a,
       ¬ (cache_file P self params = Ok path /\ params !! "address" = Some a) ->
       cache_entry w1 path a = cache_entry w path a.
Proof.
  intros H. split; [exact (get_data_requests P self _ _ _ _ H)|].
  intros path a. exact (get_data_frame P self _ _ _ _ _ _ H).
Qed.

Lemma get_data_footprint_witness :
  let run := get_data SampleStore.counting SampleStore.retriever in
  let w1 := (run SampleStore.params SampleStore.empty_world).1 in
  let w2 := (run (account_params "0xyou" "KEY" "txlist") w1).1 in
  cache_entry w1 "data/cache/account_txlist.pkl" "0xme" = Some (Some 0%nat)
  /\ cache_entry w2 "data/cache/account_txlist.pkl" "0xyou" = Some (Some 1%nat)
  /\ cache_entry w2 "data/cache/account_txlist.pkl" "0xme" = Some (Some 0%nat).
Proof.
  intros run w1 w2. split; [vm_compute; reflexivity|].
  split; [vm_compute; reflexivity|].
  rewrite (proj2 (get_data_footprint SampleStore.counting SampleStore.retriever
                    (account_params "0xyou" "KEY" "txlist") w1 w2
                    (run (account_params "0xyou" "KEY" "txlist") w1).2
                    (surjective_pairing _))
             "data/cache/account_txlist.pkl" "0xme").
  - vm_compute; reflexivity.
  - intros [_ H]. vm_compute in H. discriminate H.
Defined.

(** X5.  Missing keys.  Without ["module"] or without ["action"]
    [get_data] raises [KeyError] before it touches anything.  An account
    request without ["address"] raises [KeyError] too: at once when the
    cache file of the action exists, and otherwise only after the request
    has been sent, its answer being lost and nothing written. *)
Theorem get_data_missing_key {R} (P : platform R)
    (self : EtherscanDataRetriever) (params : gmap string string)
    (w : world R) :
  (params !! "module" = None ->
   get_data P self params w = (w, Failed (PyExn (KeyError "module"))))
  /\ (is_Some (params !! "module") -> params !! "action" = None ->
      get_data P self params w = (w, Failed (PyExn (KeyError "action"))))
  /\ (forall path res,
        cache_file P self params = Ok path ->
        is_account_action self params = Ok true ->
        params !! "address" = None ->
        respond P (requests w) (request_of self params) = Done res ->
        get_data P self params w
        = (match files w !! path with
           | Some _ => w
           | None => {| files := files w;
                        requests := requests w ++ [request_of self params];
                        stdout := stdout w |}
           end, Failed (PyExn (KeyError "address")))).
Proof.
  split; [|split].
  - intros Hm. unfold get_data, get_from_cache, cache_name.
    rewrite (getitem_None _ _ Hm). reflexivity.
  - intros [m Hm] Ha. unfold get_data, get_from_cache, cache_name.
    rewrite (getitem_Some _ _ _ Hm), (getitem_None _ _ Ha). reflexivity.
  - intros path res Hp Hacc Had Hres.
    unfold get_data, get_from_cache, update_cache.
    unfold cache_file in Hp.
    destruct (cache_name params) as [name|]; [|discriminate].
    revert Hp. bind_step. intros [= <-].
    cbv [mbind mret io_mbind io_mret io_bind io_ret lift read_cache
         http_result]. cbn [files requests stdout].
    destruct (files w !! path_join P (r_cache_path self) name) as [cd|] eqn:Hf.
    + rewrite Hacc, (getitem_None _ _ Had). reflexivity.
    + unfold request_of in Hres. rewrite Hres, Hacc, (getitem_None _ _ Had).
      reflexivity.
Qed.

Lemma get_data_missing_key_witness :
  get_data SampleStore.counting SampleStore.retriever
    SampleStore.anonymous_params SampleStore.empty_world
  = ({| files := ∅;
        requests := [request_of SampleStore.retriever
                       SampleStore.anonymous_params];
        stdout := [] |}, Failed (PyExn (KeyError "address"))).
Proof.
  exact (proj2 (proj2 (get_data_missing_key SampleStore.counting
                         SampleStore.retriever SampleStore.anonymous_params
                         SampleStore.empty_world))
           "data/cache/account_txlist.pkl" (Some 0%nat)
           eq_refl eq_refl eq_refl eq_refl).
Defined.

(** *** The constructor of [EtherscanData] *)

Section InitFacts.

Context {R : Type}.
Variable P : platform R.

Lemma account_params_module address api_key action :
  account_params address api_key action !! "module" = Some "account".
Proof. unfold account_params. rewrite lookup_insert_ne by discriminate. reflexivity. Qed.

Lemma account_params_action address api_key action :
  account_params address api_key action !! "action" = Some action.
Proof. unfold account_params. apply lookup_insert_eq. Qed.

Lemma account_params_address address api_key action :
  account_params address api_key action !! "address" = Some address.
Proof. unfold account_params. rewrite lookup_insert_ne by discriminate. reflexivity. Qed.

Lemma account_params_apikey address api_key action :
  account_params address api_key action !! "apikey" = Some api_key.
Proof. unfold account_params. rewrite lookup_insert_ne by discriminate. reflexivity. Qed.

Lemma account_params_file address api_key key action :
  cache_file P (retriever_init key default_url default_cache_path)
    (account_params address api_key action)
  = Ok (action_file P action).
Proof.
  unfold cache_file, cache_name.
  rewrite (getitem_Some _ _ _ (account_params_module _ _ _)),
    (getitem_Some _ _ _ (account_params_action _ _ _)).
  reflexivity.
Qed.

Lemma account_params_account address api_key key action :
  action ∈ ["txlist"; "txlistinternal"; "tokentx"; "tokennfttx"; "token1155tx"] ->
  is_account_action (retriever_init key default_url default_cache_path)
    (account_params address api_key action) = Ok true.
Proof.
  intros Hin. unfold is_account_action.
  rewrite (getitem_Some _ _ _ (account_params_module _ _ _)). bind_step.
  change (String.eqb "account" "account") with true. cbv iota.
  rewrite (getitem_Some _ _ _ (account_params_action _ _ _)). bind_step.
  rewrite bool_decide_eq_true_2; [reflexivity | exact Hin].
Qed.

Lemma sent_get_data address api_key action (w w' : world R) r :
  get_data P (retriever_init api_key default_url default_cache_path)
    (account_params address api_key action) w = (w', r) ->
  sent address api_key 1 w w'.
Proof.
  intros H. destruct (get_data_requests _ _ _ _ _ _ H) as [E|E].
  - exists []. rewrite app_nil_r. split; [exact E|]. split; [simpl; lia | constructor].
  - eexists. split; [exact E|]. split; [simpl; lia|].
    constructor; [|constructor]. unfold init_request, request_of. cbn.
    split; [reflexivity|]. split; [apply account_params_module|].
    split; [apply account_params_address | apply account_params_apikey].
Qed.

Lemma sent_trans address api_key n m (w w1 w2 : world R) :
  sent address api_key n w w1 -> sent address api_key m w1 w2 ->
  sent address api_key (n + m) w w2.
Proof.
  intros (q1 & E1 & L1 & F1) (q2 & E2 & L2 & F2). exists (q1 ++ q2).
  split; [rewrite E2, E1, app_assoc; reflexivity|].
  split; [rewrite length_app; lia | apply Forall_app; auto].
Qed.

Lemma sent_weaken address api_key n m (w w' : world R) :
  (n <= m)%nat -> sent address api_key n w w' -> sent address api_key m w w'.
Proof. intros Hle (qs & E & L & F). exists qs. repeat split; auto; lia. Qed.

End InitFacts.

(** X6.  Whatever [etherscan_url] the constructor of [EtherscanData] is
    given, and whether it succeeds or fails, it sends at most five
    requests, and every one of them goes to the default URL
    ["https://api.etherscan.io/api"], for the account module, with the
    address and the API key of the object. *)
Theorem EtherscanData_init_requests {R} (P : platform R)
    (address api_key etherscan_url : string) (w w1 : world R)
    (r : io_result (EtherscanObject R)) :
  EtherscanData_init P address api_key etherscan_url w = (w1, r) ->
  exists qs,
    requests w1 = requests w ++ qs
    /\ (length qs <= 5)%nat
    /\ Forall (fun q => req_url q = default_url
                        /\ req_params q !! "module" = Some "account"
                        /\ req_params q !! "address" = Some address
                        /\ req_params q !! "apikey" = Some api_key) qs.
Proof.
  unfold EtherscanData_init.
  cbv [mbind mret io_mbind io_mret io_bind io_ret].
  destruct (get_data P _ (account_params address api_key "txlist") w)
    as [wa ra] eqn:Ha.
  pose proof (sent_get_data P _ _ _ _ _ _ Ha) as Sa.
  destruct ra as [a|e];
    [|intros [= <- <-]; apply (sent_weaken _ _ 1 5); [lia | exact Sa]].
  destruct (get_data P _ (account_params address api_key "txlistinternal") wa)
    as [wb rb] eqn:Hb.
  pose proof (sent_trans _ _ _ _ _ _ _ Sa (sent_get_data P _ _ _ _ _ _ Hb)) as Sb.
  destruct rb as [b|e];
    [|intros [= <- <-]; apply (sent_weaken _ _ 2 5); [lia | exact Sb]].
  destruct (get_data P _ (account_params address api_key "tokentx") wb)
    as [wc rc] eqn:Hc.
  pose proof (sent_trans _ _ _ _ _ _ _ Sb (sent_get_data P _ _ _ _ _ _ Hc)) as Sc.
  destruct rc as [c|e];
    [|intros [= <- <-]; apply (sent_weaken _ _ 3 5); [lia | exact Sc]].
  destruct (get_data P _ (account_params address api_key "tokennfttx") wc)
    as [wd rd] eqn:Hd.
  pose proof (sent_trans _ _ _ _ _ _ _ Sc (sent_get_data P _ _ _ _ _ _ Hd)) as Sd.
  destruct rd as [d|e];
    [|intros [= <- <-]; apply (sent_weaken _ _ 4 5); [lia | exact Sd]].
  destruct (get_data P _ (account_params address api_key "token1155tx") wd)
    as [we re] eqn:He.
  pose proof (sent_trans _ _ _ _ _ _ _ Sd (sent_get_data P _ _ _ _ _ _ He)) as Se.
  destruct re as [e'|e]; intros [= <- <-]; exact Se.
Qed.

Lemma EtherscanData_init_requests_witness :
  let run := EtherscanData_init SampleStore.counting "0xme" "KEY"
               "https://api-goerli.etherscan.io/api" SampleStore.empty_world in
  req_url <$> requests run.1
  = [default_url; default_url; default_url; default_url; default_url]
  /\ exists qs, requests run.1 = qs /\ (length qs <= 5)%nat.
Proof.
  intros run. split; [vm_compute; reflexivity|].
  destruct (EtherscanData_init_requests SampleStore.counting "0xme" "KEY"
              "https://api-goerli.etherscan.io/api" SampleStore.empty_world
              run.1 run.2 (surjective_pairing _)) as (qs & E & L & _).
  exists qs. split; [exact E | exact L].
Defined.

Section InitCache.

Context {R : Type}.
Variable P : platform R.

Lemma NoDup_fmap_ne {A B} (f : A -> B) (l : list A) x y :
  NoDup (f <$> l) -> x ∈ l -> y ∈ l -> x ≠ y -> f x ≠ f y.
Proof.
  induction l as [|a l IH]; intros Hnd Hx Hy Hne Hf.
  - inversion Hx.
  - rewrite fmap_cons in Hnd. apply NoDup_cons in Hnd as [Ha Hnd].
    apply elem_of_cons in Hx as [->|Hx]; apply elem_of_cons in Hy as [->|Hy].
    + congruence.
    + apply Ha. rewrite Hf. apply list_elem_of_fmap_2. exact Hy.
    + apply Ha. rewrite <- Hf. apply list_elem_of_fmap_2. exact Hx.
    + exact (IH Hnd Hx Hy Hne Hf).
Qed.

Lemma action_files_distinct a b :
  distinct_cache_files P default_cache_path ->
  a ∈ ["txlist"; "txlistinternal"; "tokentx"; "tokennfttx"; "token1155tx"] ->
  b ∈ ["txlist"; "txlistinternal"; "tokentx"; "tokennfttx"; "token1155tx"] ->
  a ≠ b -> action_file P a ≠ action_file P b.
Proof.
  intros Hd Ha Hb Hne.
  apply (NoDup_fmap_ne
           (fun a => path_join P default_cache_path
                       (String.append "account"
                          (String.append "_" (String.append a ".pkl"))))
           ["txlist"; "txlistinternal"; "tokentx"; "tokennfttx"; "token1155tx"]);
    [exact Hd | exact Ha | exact Hb | exact Hne].
Qed.

(** A result that [get_data] returned for an account action is in the
    cache afterwards. *)
Lemma init_get_data_stores key address api_key action w w' v :
  action ∈ ["txlist"; "txlistinternal"; "tokentx"; "tokennfttx"; "token1155tx"] ->
  get_data P (retriever_init key default_url default_cache_path)
    (account_params address api_key action) w = (w', Done (Some v)) ->
  cache_entry w' (action_file P action) address = Some (Some v).
Proof.
  intros Hin Hget.
  destruct (get_data_stores P _ _ _ _ _
              (account_params_account _ _ _ _ Hin) Hget)
    as (path & a & Hfile & Haddr & Hentry).
  rewrite account_params_file in Hfile. rewrite account_params_address in Haddr.
  revert Hfile Haddr; intros [= <-] [= <-]. exact Hentry.
Qed.

(** [get_data] for one account action keeps the entries of the others. *)
Lemma init_get_data_frame key address api_key action action' a w w' r :
  distinct_cache_files P default_cache_path ->
  action ∈ ["txlist"; "txlistinternal"; "tokentx"; "tokennfttx"; "token1155tx"] ->
  action' ∈ ["txlist"; "txlistinternal"; "tokentx"; "tokennfttx"; "token1155tx"] ->
  action ≠ action' ->
  get_data P (retriever_init key default_url default_cache_path)
    (account_params address api_key action) w = (w', r) ->
  cache_entry w' (action_file P action') a = cache_entry w (action_file P action') a.
Proof.
  intros Hd Hin Hin' Hne Hget.
  apply (get_data_frame P _ _ _ _ _ _ _ Hget).
  rewrite account_params_file. intros [[= Hf] _].
  exact (action_files_distinct _ _ Hd Hin Hin' Hne Hf).
Qed.

Lemma init_get_data_hit key address api_key action w v :
  action ∈ ["txlist"; "txlistinternal"; "tokentx"; "tokennfttx"; "token1155tx"] ->
  cache_entry w (action_file P action) address = Some (Some v) ->
  get_data P (retriever_init key default_url default_cache_path)
    (account_params address api_key action) w
  = (printing (FoundInCache (account_params address api_key action)) w,
     Done (Some v)).
Proof.
  intros Hin Hentry.
  exact (get_data_hit P _ _ _ _ _ _ (account_params_file P _ _ _ _)
           (account_params_account _ _ _ _ Hin)
           (account_params_address _ _ _) Hentry).
Qed.

End InitCache.

(** X7.  Where the five cache files are five different files: after the
    constructor of [EtherscanData] has returned an object whose five
    event lists are all results (none is [None]), constructing the object
    again for the same address -- with any API key and any
    [etherscan_url] -- succeeds with the same five lists, sends no
    request and leaves every cache file as it is. *)
Theorem EtherscanData_init_cached {R} (P : platform R)
    (address api_key etherscan_url api_key' etherscan_url' : string)
    (w w1 : world R) (o : EtherscanObject R) (a b c d e : R) :
  distinct_cache_files P default_cache_path ->
  EtherscanData_init P address api_key etherscan_url w = (w1, Done o) ->
  o_txs o = Some a -> o_internal_txs o = Some b -> o_token_txs o = Some c ->
  o_nft_txs o = Some d -> o_erc1155_txs o = Some e ->
  exists w2 o',
    EtherscanData_init P address api_key' etherscan_url' w1 = (w2, Done o')
    /\ requests w2 = requests w1
    /\ files w2 = files w1
    /\ o_txs o' = Some a /\ o_internal_txs o' = Some b
    /\ o_token_txs o' = Some c /\ o_nft_txs o' = Some d
    /\ o_erc1155_txs o' = Some e.
Proof.
  intros Hd Hrun Ha Hb Hc Hd' He.
  assert (M1 : "txlist" ∈ ["txlist"; "txlistinternal"; "tokentx";
                            "tokennfttx"; "token1155tx"]) by set_solver.
  assert (M2 : "txlistinternal" ∈ ["txlist"; "txlistinternal"; "tokentx";
                                    "tokennfttx"; "token1155tx"]) by set_solver.
  assert (M3 : "tokentx" ∈ ["txlist"; "txlistinternal"; "tokentx";
                             "tokennfttx"; "token1155tx"]) by set_solver.
  assert (M4 : "tokennfttx" ∈ ["txlist"; "txlistinternal"; "tokentx";
                                "tokennfttx"; "token1155tx"]) by set_solver.
  assert (M5 : "token1155tx" ∈ ["txlist"; "txlistinternal"; "tokentx";
                                 "tokennfttx"; "token1155tx"]) by set_solver.
  unfold EtherscanData_init in Hrun.
  cbv [mbind mret io_mbind io_mret io_bind io_ret] in Hrun.
  destruct (get_data P _ (account_params address api_key "txlist") w)
    as [wa [ra|?]] eqn:Ga; [|discriminate].
  destruct (get_data P _ (account_params address api_key "txlistinternal") wa)
    as [wb [rb|?]] eqn:Gb; [|discriminate].
  destruct (get_data P _ (account_params address api_key "tokentx") wb)
    as [wc [rc|?]] eqn:Gc; [|discriminate].
  destruct (get_data P _ (account_params address api_key "tokennfttx") wc)
    as [wd [rd|?]] eqn:Gd; [|discriminate].
  destruct (get_data P _ (account_params address api_key "token1155tx") wd)
    as [we [re|?]] eqn:Ge; [|discriminate].
  revert Hrun; intros [= -> <-]. cbn in Ha, Hb, Hc, Hd', He. subst ra rb rc rd re.
  assert (Ea : cache_entry w1 (action_file P "txlist") address = Some (Some a)).
  { rewrite (init_get_data_frame P _ _ _ "token1155tx" "txlist" _ _ _ _ Hd
               M5 M1 ltac:(discriminate) Ge),
      (init_get_data_frame P _ _ _ "tokennfttx" "txlist" _ _ _ _ Hd
               M4 M1 ltac:(discriminate) Gd),
      (init_get_data_frame P _ _ _ "tokentx" "txlist" _ _ _ _ Hd
               M3 M1 ltac:(discriminate) Gc),
      (init_get_data_frame P _ _ _ "txlistinternal" "txlist" _ _ _ _ Hd
               M2 M1 ltac:(discriminate) Gb).
    apply (init_get_data_stores P _ _ _ "txlist" _ _ _ M1 Ga). }
  assert (Eb : cache_entry w1 (action_file P "txlistinternal") address
               = Some (Some b)).
  { rewrite (init_get_data_frame P _ _ _ "token1155tx" "txlistinternal" _ _ _ _ Hd
               M5 M2 ltac:(discriminate) Ge),
      (init_get_data_frame P _ _ _ "tokennfttx" "txlistinternal" _ _ _ _ Hd
               M4 M2 ltac:(discriminate) Gd),
      (init_get_data_frame P _ _ _ "tokentx" "txlistinternal" _ _ _ _ Hd
               M3 M2 ltac:(discriminate) Gc).
    apply (init_get_data_stores P _ _ _ "txlistinternal" _ _ _ M2 Gb). }
  assert (Ec : cache_entry w1 (action_file P "tokentx") address = Some (Some c)).
  { rewrite (init_get_data_frame P _ _ _ "token1155tx" "tokentx" _ _ _ _ Hd
               M5 M3 ltac:(discriminate) Ge),
      (init_get_data_frame P _ _ _ "tokennfttx" "tokentx" _ _ _ _ Hd
               M4 M3 ltac:(discriminate) Gd).
    apply (init_get_data_stores P _ _ _ "tokentx" _ _ _ M3 Gc). }
  assert (Ed : cache_entry w1 (action_file P "tokennfttx") address
               = Some (Some d)).
  { rewrite (init_get_data_frame P _ _ _ "token1155tx" "tokennfttx" _ _ _ _ Hd
               M5 M4 ltac:(discriminate) Ge).
    apply (init_get_data_stores P _ _ _ "tokennfttx" _ _ _ M4 Gd). }
  assert (Ee : cache_entry w1 (action_file P "token1155tx") address
               = Some (Some e))
    by apply (init_get_data_stores P _ _ _ "token1155tx" _ _ _ M5 Ge).
  clear Ga Gb Gc Gd Ge.
  unfold EtherscanData_init.
  cbv [mbind mret io_mbind io_mret io_bind io_ret].
  rewrite (init_get_data_hit P _ _ _ "txlist" _ _ M1 Ea).
  rewrite (init_get_data_hit P _ _ _ "txlistinternal" _ _ M2
             (Eb : cache_entry (printing _ w1) _ _ = _)).
  rewrite (init_get_data_hit P _ _ _ "tokentx" _ _ M3
             (Ec : cache_entry (printing _ (printing _ w1)) _ _ = _)).
  rewrite (init_get_data_hit P _ _ _ "tokennfttx" _ _ M4
             (Ed : cache_entry (printing _ (printing _ (printing _ w1))) _ _ = _)).
  rewrite (init_get_data_hit P _ _ _ "token1155tx" _ _ M5
             (Ee : cache_entry
                     (printing _ (printing _ (printing _ (printing _ w1)))) _ _
                   = _)).
  eexists _, _. split; [reflexivity|]. cbn. repeat split; reflexivity.
Qed.

Lemma EtherscanData_init_cached_witness :
  let w1 := (EtherscanData_init SampleStore.counting "0xme" "KEY" default_url
               SampleStore.empty_world).1 in
  exists w2 o',
    EtherscanData_init SampleStore.counting "0xme" "OTHER"
      "https://api-goerli.etherscan.io/api" w1 = (w2, Done o')
    /\ requests w2 = requests w1
    /\ o_txs o' = Some 0%nat /\ o_erc1155_txs o' = Some 4%nat.
Proof.
  intros w1.
  destruct (EtherscanData_init_cached SampleStore.counting "0xme" "KEY"
              default_url "OTHER" "https://api-goerli.etherscan.io/api"
              SampleStore.empty_world w1
              {| o_api_key := "KEY"; o_address := "0xme";
                 o_etherscan_url := default_url;
                 o_etherscan := SampleStore.retriever;
                 o_txs := Some 0%nat; o_internal_txs := Some 1%nat;
                 o_token_txs := Some 2%nat; o_nft_txs := Some 3%nat;
                 o_erc1155_txs := Some 4%nat |}
              0%nat 1%nat 2%nat 3%nat 4%nat)
    as (w2 & o' & Hrun & Hreq & _ & Ha & _ & _ & _ & He).
  - apply (bool_decide_unpack _). vm_compute. exact I.
  - subst w1. vm_compute. reflexivity.
  - reflexivity.
  - reflexivity.
  - reflexivity.
  - reflexivity.
  - reflexivity.
  - exists w2, o'. repeat split; assumption.
Defined.

(** ** Further properties of the classifier *)

(** X8.  A normal event that carries call data (its input is not ["0x"])
    and was not sent by the address of interest is classified by its two
    names alone: the result has the resolved sender and recipient, no
    movement of any kind -- whatever the value of the call and whatever
    token and internal events share the hash -- no contract, no function,
    and nothing is printed; the known-contracts table is not consulted. *)
Theorem third_party_call_names_only self row tx f t input :
  1 <= row_normal row ->
  hashed (txs (address_data self)) ->
  head (sharing_hash (row_hash row) (txs (address_data self))) = Some tx ->
  tx !! "from" = Some f ->
  tx !! "to" = Some t ->
  tx !! "input" = Some input ->
  input ≠ "0x" ->
  get_address_name self f ≠ "ADDRESS_OF_INTEREST" ->
  process_transaction self row
  = Ok ([], Some
      {| tr_hash := row_hash row; tr_ts := row_timestamp row;
         tr_from_address := get_address_name self f;
         tr_to_address := get_address_name self t;
         tr_contract := ""; tr_function := "";
         tr_external := false;
         tr_eth_movements := []; tr_tokens_movements := [];
         tr_error := false |}).
Proof.
  intros Hn Hh Hhead Hf Ht Hi Hne Hfrom.
  rewrite (normal_branch _ _ Hn Hh).
  destruct (head_cons_inv _ _ Hhead) as [rest ->].
  rewrite (getitem_Some _ _ _ Hf), (getitem_Some _ _ _ Ht),
    (getitem_Some _ _ _ Hi). bind_step. cbv zeta.
  destruct (String.eqb_spec input "0x") as [|_]; [contradiction|].
  destruct (String.eqb_spec (get_address_name self f) "ADDRESS_OF_INTEREST")
    as [|_]; [contradiction|].
  reflexivity.
Qed.

Lemma third_party_call_names_only_witness :
  process_transaction SampleCalls.third_party_explorer SampleCalls.third_party_row
  = Ok ([], Some
      {| tr_hash := "0xd1"; tr_ts := 1600001000;
         tr_from_address := "Exchange";
         tr_to_address := "ADDRESS_OF_INTEREST";
         tr_contract := ""; tr_function := "";
         tr_external := false;
         tr_eth_movements := []; tr_tokens_movements := [];
         tr_error := false |}).
Proof.
  apply (third_party_call_names_only SampleCalls.third_party_explorer
           SampleCalls.third_party_row SampleCalls.third_party_call
           "0xdex" "0xme" "0xa9059cbb").
  - simpl. lia.
  - apply (bool_decide_unpack _). vm_compute. exact I.
  - vm_compute. reflexivity.
  - vm_compute. reflexivity.
  - vm_compute. reflexivity.
  - vm_compute. reflexivity.
  - discriminate.
  - vm_compute. discriminate.
Defined.

(** *** What the loops keep *)

Lemma for_each_token_body_inv self l r r' :
  for_each (token_body self) l r = Ok r' ->
  exists ms, r' = with_movements r (tr_eth_movements r)
                    (tr_tokens_movements r ++ ms).
Proof.
  rewrite for_each_token_body.
  destruct (map_outcome (normalize_token self) l) as [ms|]; bind_step;
    [|discriminate].
  intros [= <-]. eauto.
Qed.

Lemma map_normalize_internal_named self l ms :
  map_outcome (normalize_internal self) l = Ok ms -> eth_named ms.
Proof.
  revert ms. induction l as [|e l IH]; intros ms; simpl.
  - intros [= <-]. constructor.
  - destruct (normalize_internal self e) as [m|] eqn:Hm; bind_step;
      [|discriminate].
    destruct (map_outcome (normalize_internal self) l) as [ms'|]; bind_step;
      [|discriminate].
    intros [= <-]. constructor.
    + exact (normalize_internal_name _ _ _ Hm).
    + apply IH. reflexivity.
Qed.

Lemma for_each_internal_body_inv self l r r' :
  for_each (internal_body self) l r = Ok r' ->
  exists ms, eth_named ms
             /\ r' = with_movements r (tr_eth_movements r ++ ms)
                       (tr_tokens_movements r).
Proof.
  rewrite for_each_internal_body.
  destruct (map_outcome (normalize_internal self) l) as [ms|] eqn:Hms; bind_step;
    [|discriminate].
  intros [= <-]. exists ms. split; [|reflexivity].
  exact (map_normalize_internal_named _ _ _ Hms).
Qed.

Lemma for_each_ds_token_body_inv self l r r' :
  for_each (ds_token_body self) l r = Ok r' ->
  exists ms, r' = with_movements r (tr_eth_movements r)
                    (tr_tokens_movements r ++ ms).
Proof.
  rewrite for_each_ds_token_body.
  destruct (map_outcome (normalize_token self) l) as [ms|]; bind_step;
    [|discriminate].
  intros [= <-]. eauto.
Qed.

(** The fields that the decomposition leaves as they are, and the names
    of the ETH movements. *)
Lemma decomposition_keeps self row tx result r :
  process_contract_transaction self row tx result = Ok r ->
  tr_hash r = tr_hash result /\ tr_ts r = tr_ts result
  /\ tr_external r = tr_external result
  /\ tr_from_address r = tr_from_address result
  /\ tr_to_address r = tr_to_address result
  /\ (eth_named (tr_eth_movements result) -> eth_named (tr_eth_movements r)).
Proof.
  intros H. unfold process_contract_transaction in H.
  do 3 unbind H.
  { revert H; intros [= <-]. repeat split; auto. }
  do 4 unbind H.
  { revert H; intros [= <-]. repeat split; auto. }
  do 5 unbind H. do 2 unbind H.
  match goal with
  | Ht : for_each (token_body _) _ ?r0 = Ok ?r1,
    Hi : for_each (internal_body _) _ ?r1 = Ok ?r2 |- _ =>
      destruct (for_each_token_body_inv _ _ _ _ Ht) as [tms ->];
      destruct (for_each_internal_body_inv _ _ _ _ Hi) as (ems & Hems & ->);
      destruct (for_each_ds_token_body_inv _ _ _ _ H) as [dms ->];
      assert (tr_hash r0 = tr_hash result /\ tr_ts r0 = tr_ts result
              /\ tr_external r0 = tr_external result
              /\ tr_from_address r0 = tr_from_address result
              /\ tr_to_address r0 = tr_to_address result
              /\ (eth_named (tr_eth_movements result)
                  -> eth_named (tr_eth_movements r0))) as Hr0
  end.
  { match goal with
    | E : (if Py.gt0 ?v then _ else _) = Ok _ |- _ =>
        destruct (Py.gt0 v); [unbind E|]; revert E; intros [= <-];
          repeat split; auto
    end.
    intros Hnamed. cbn. apply Forall_app. split; [exact Hnamed|].
    constructor; [reflexivity | constructor]. }
  destruct Hr0 as (? & ? & ? & ? & ? & Hnamed).
  cbn. repeat split; auto.
  intros Hres. apply Forall_app. split; [exact (Hnamed Hres) | exact Hems].
Qed.

(** A result of [by_hash] shows that every event had its hash. *)
Lemma by_hash_Ok l hash r :
  by_hash l hash = Ok r -> hashed l /\ r = sharing_hash hash l.
Proof.
  intros H. destruct (decide (hashed l)) as [Hh|Hh].
  - split; [exact Hh|]. rewrite (by_hash_sharing _ _ Hh) in H. congruence.
  - rewrite (by_hash_unhashed _ _ Hh) in H. discriminate.
Qed.

(** X9.  Every result that [process_transaction] returns carries the
    hash and the timestamp of its ledger row, has [external] set exactly
    when the row's normal count is below 1, and has only movements named
    ["ETH"] among its ETH movements; an external result has empty names,
    contract and function; and nothing is printed when a result is
    returned. *)
Theorem returned_result_invariants self row out r :
  process_transaction self row = Ok (out, Some r) ->
  out = []
  /\ tr_hash r = row_hash row
  /\ tr_ts r = row_timestamp row
  /\ tr_external r = (row_normal row <? 1)
  /\ Forall (fun m => am_name m = "ETH") (tr_eth_movements r)
  /\ (tr_external r = true ->
      tr_from_address r = "" /\ tr_to_address r = ""
      /\ tr_contract r = "" /\ tr_function r = "" /\ tr_error r = false).
Proof.
  intros H. unfold process_transaction in H.
  destruct (row_normal row <? 1).
  - do 4 unbind H. revert H; intros [= <- <-].
    match goal with
    | Ht : for_each (token_body _) _ _ = Ok _,
      Hi : for_each (internal_body _) _ _ = Ok _ |- _ =>
        destruct (for_each_token_body_inv _ _ _ _ Ht) as [tms ->];
        destruct (for_each_internal_body_inv _ _ _ _ Hi) as (ems & Hems & ->)
    end.
    cbn. repeat split; auto.
  - do 6 unbind H.
    + unbind H. revert H; intros [= <- <-]. cbn.
      repeat split; auto; try discriminate.
    + unbind H.
      * unbind H; [discriminate H|].
        unbind H. revert H; intros [= <- <-].
        match goal with
        | Hp : process_contract_transaction _ _ _ _ = Ok _ |- _ =>
            destruct (decomposition_keeps _ _ _ _ _ Hp)
              as (Eh & Et & Ee & _ & _ & Hnamed)
        end.
        cbn in Eh, Et, Ee, Hnamed.
        repeat split; auto; try congruence.
        apply Hnamed. constructor.
      * revert H; intros [= <- <-]. cbn.
        repeat split; auto; try discriminate.
Qed.

Lemma returned_result_invariants_witness :
  exists r,
    process_transaction Sample.proxy_explorer Sample.proxy_row = Ok ([], Some r)
    /\ tr_hash r = "0xc5" /\ tr_external r = false
    /\ Forall (fun m => am_name m = "ETH") (tr_eth_movements r)
    /\ length (tr_eth_movements r) = 2%nat.
Proof.
  destruct (process_transaction Sample.proxy_explorer Sample.proxy_row)
    as [[out [r|]]|e] eqn:E; try (vm_compute in E; discriminate E).
  destruct (returned_result_invariants _ _ _ _ E)
    as (-> & Hh & _ & He & Hn & _).
  exists r. split; [reflexivity|]. split; [exact Hh|]. split; [exact He|].
  split; [exact Hn|].
  vm_compute in E. revert E; intros [= <-]. reflexivity.
Defined.

(** X10.  [process_transaction] returns nothing ([None]) in one
    situation only: the row counts a normal event, the first normal event
    under its hash has an input other than ["0x"], its sender resolves to
    ["ADDRESS_OF_INTEREST"] and its recipient is absent from the
    known-contracts table; what is printed then is the recipient and the
    raw transaction. *)
Theorem nothing_returned_only_for_unknown_contract self row out :
  process_transaction self row = Ok (out, None) ->
  1 <= row_normal row
  /\ hashed (txs (address_data self))
  /\ exists tx f t input,
       head (sharing_hash (row_hash row) (txs (address_data self))) = Some tx
       /\ tx !! "from" = Some f
       /\ tx !! "to" = Some t
       /\ tx !! "input" = Some input
       /\ input ≠ "0x"
       /\ get_address_name self f = "ADDRESS_OF_INTEREST"
       /\ known_contracts self !! t = None
       /\ out = [PrintStr (String.append "NEW CONTRACT: " t); PrintDict tx].
Proof.
  intros H. unfold process_transaction in H.
  destruct (Z.ltb_spec (row_normal row) 1) as [Hlt|Hge].
  { do 4 unbind H. discriminate H. }
  split; [exact Hge|].
  unbind H.
  match goal with
  | Hb : by_hash _ _ = Ok _ |- _ =>
      destruct (by_hash_Ok _ _ _ Hb) as [Hh Hl]
  end.
  split; [exact Hh|].
  unbind H. do 4 unbind H.
  { unbind H. discriminate H. }
  unbind H; [|discriminate H].
  unbind H; [|unbind H; discriminate H].
  revert H; intros [= <-].
  match goal with
  | Hf : Py.getitem ?tx "from" = Ok ?f, Ht : Py.getitem ?tx "to" = Ok ?t,
    Hi : Py.getitem ?tx "input" = Ok ?i |- _ =>
      exists tx, f, t, i;
      pose proof (getitem_inv _ _ _ Hf); pose proof (getitem_inv _ _ _ Ht);
      pose proof (getitem_inv _ _ _ Hi)
  end.
  rewrite <- Hl. repeat split; try assumption.
  - intros ->. discriminate.
  - apply String.eqb_eq. assumption.
  - match goal with
    | Hc : negb (Py.contains _ _) = true |- _ =>
        unfold Py.contains in Hc;
        destruct (known_contracts self !! _); [discriminate Hc | reflexivity]
    end.
Qed.

Lemma nothing_returned_only_for_unknown_contract_witness :
  exists out,
    process_transaction Sample.unknown_explorer Sample.unknown_row = Ok (out, None)
    /\ 1 <= row_normal Sample.unknown_row
    /\ exists tx t,
         head (sharing_hash (row_hash Sample.unknown_row)
                 (txs (address_data Sample.unknown_explorer))) = Some tx
         /\ tx !! "to" = Some t
         /\ known_contracts Sample.unknown_explorer !! t = None.
Proof.
  destruct (process_transaction Sample.unknown_explorer Sample.unknown_row)
    as [[out [r|]]|e] eqn:E; try (vm_compute in E; discriminate E).
  destruct (nothing_returned_only_for_unknown_contract _ _ _ E)
    as (Hn & _ & tx & f & t & input & Hhd & _ & Ht & _ & _ & _ & Hk & _).
  exists out. split; [reflexivity|]. split; [exact Hn|].
  exists tx, t. repeat split; assumption.
Defined.

(** X11.  In the decomposition of a contract transaction that reaches
    the loops, the ETH movements of the result are those it was given,
    then -- only when the value of the call over [10^18] is positive -- one
    movement of that amount from the resolved sender to the resolved
    recipient, then the normalized internal events under the hash, in
    order.  A call of value ["0"] adds no movement of its own. *)
Theorem contract_call_eth_movements self row tx result
    to name fn ie n v x f tms ems dms :
  tx !! "to" = Some to ->
  address_book self !! to = Some name ->
  name ≠ "Maker: Proxy Registry" ->
  tx !! "functionName" = Some fn ->
  tx !! "isError" = Some ie ->
  Py.int ie = Ok n ->
  n <= 0 ->
  tx !! "value" = Some v ->
  Py.float_of_str v = Ok x ->
  tx !! "from" = Some f ->
  hashed (token_txs (address_data self)) ->
  hashed (internal_txs (address_data self)) ->
  hashed (token_txs (ds_proxy_data self)) ->
  map_outcome (normalize_token self)
    (sharing_hash (row_hash row) (token_txs (address_data self))) = Ok tms ->
  map_outcome (normalize_internal self)
    (sharing_hash (row_hash row) (internal_txs (address_data self))) = Ok ems ->
  map_outcome (normalize_token self)
    (sharing_hash (row_hash row) (token_txs (ds_proxy_data self))) = Ok dms ->
  exists r,
    process_contract_transaction self row tx result = Ok r
    /\ tr_eth_movements r
       = tr_eth_movements result
           ++ (if Py.gt0 (SFdiv Py.prec Py.emax x ten_pow_18)
               then [ {| am_name := "ETH";
                         am_value := SFdiv Py.prec Py.emax x ten_pow_18;
                         am_from_address := get_address_name self f;
                         am_to_address := name |} ]
               else [])
           ++ ems
    /\ (v = "0" -> tr_eth_movements r = tr_eth_movements result ++ ems).
Proof.
  intros Ht Hb Hne Hf Hie Hn Hle Hv Hx Hfrom Hh1 Hh2 Hh3 Htm Hem Hdm.
  rewrite (contract_branch _ _ _ _ _ _ _ _ _ Ht Hb Hne Hf Hie Hn). cbv zeta.
  assert ((0 <? n) = false) as -> by (apply Z.ltb_ge; assumption).
  rewrite (eth_value_Some _ _ _ Hv Hx). bind_step.
  rewrite (getitem_Some _ _ _ Hfrom), (getitem_Some _ _ _ Ht). bind_step.
  assert (Hname : get_address_name self to = name).
  { unfold get_address_name, Py.get. rewrite Hb. reflexivity. }
  assert (Hzero : v = "0" -> Py.gt0 (div_1e18 x) = false).
  { intros ->. assert (Py.float_of_str "0" = Ok (S754_zero false)) as E0
      by (vm_compute; reflexivity).
    rewrite E0 in Hx. revert Hx; intros [= <-]. vm_compute. reflexivity. }
  fold (div_1e18 x).
  destruct (Py.gt0 (div_1e18 x)) eqn:Hgt; bind_step;
    rewrite (decomposition_loops _ _ _ _ _ _ Hh1 Hh2 Hh3 Htm Hem Hdm);
    eexists; (split; [reflexivity|]);
    cbn [with_movements tr_eth_movements add_eth_movement set_function
         set_contract].
  - rewrite Hname, <- app_assoc. split; [reflexivity|].
    intros Hv0. discriminate (Hzero Hv0).
  - split; reflexivity.
Qed.

Lemma contract_call_eth_movements_witness :
  exists r,
    process_contract_transaction Sample.proxy_explorer Sample.proxy_row
      Sample.proxy_call (new_result "0xc5" 1600000800) = Ok r
    /\ tr_eth_movements r
       = [ {| am_name := "ETH";
              am_value := S754_finite false 4503599627370496 (-52);
              am_from_address := "ADDRESS_OF_INTEREST";
              am_to_address := "DSProxy" |};
           {| am_name := "ETH";
              am_value := S754_finite false 4503599627370496 (-53);
              am_from_address := "DSProxy";
              am_to_address := "ADDRESS_OF_INTEREST" |} ].
Proof.
  destruct (contract_call_eth_movements Sample.proxy_explorer Sample.proxy_row
            Sample.proxy_call (new_result "0xc5" 1600000800)
            "0xproxy" "DSProxy" "execute(address,bytes)" "0" 0
            "1000000000000000000" (S754_finite false 7812500000000000 7) "0xme"
            [ {| am_name := "DAI"; am_value := three;
                 am_from_address := "DSProxy";
                 am_to_address := "ADDRESS_OF_INTEREST" |} ]
            [ {| am_name := "ETH"; am_value := S754_finite false 4503599627370496 (-53);
                 am_from_address := "DSProxy";
                 am_to_address := "ADDRESS_OF_INTEREST" |} ]
            [ {| am_name := "DAI"; am_value := three;
                 am_from_address := "Exchange";
                 am_to_address := "DSProxy" |};
              {| am_name := "DAI"; am_value := three;
                 am_from_address := "DSProxy";
                 am_to_address := "ADDRESS_OF_INTEREST" |} ])
    as (r & Hr & He & _);
    lazymatch goal with
    | |- ex _ => idtac
    | |- hashed _ => apply (bool_decide_unpack _); vm_compute; exact I
    | |- _ ≠ _ => discriminate
    | |- _ <= _ => lia
    | |- _ => vm_compute; reflexivity
    end.
  exists r. split; [exact Hr|]. rewrite He. vm_compute. reflexivity.
Defined.

(** X12.  One event without a ["hash"] field is enough to make the
    classification fail, whatever hash the row has: an ERC-20 event
    without it makes every external-inbound classification raise
    [KeyError] for ["hash"], and a normal event without it does the same
    to the classification of every row that counts a normal event. *)
Theorem event_without_hash_breaks_classification self row :
  (row_normal row < 1 /\ ¬ hashed (token_txs (address_data self)))
  \/ (1 <= row_normal row /\ ¬ hashed (txs (address_data self))) ->
  process_transaction self row = Raise (KeyError "hash").
Proof.
  intros [[Hlt Hh]|[Hge Hh]]; unfold process_transaction.
  - assert ((row_normal row <? 1) = true) as -> by (apply Z.ltb_lt; lia).
    unfold token_txs_by_tx_hash. rewrite (by_hash_unhashed _ _ Hh). reflexivity.
  - assert ((row_normal row <? 1) = false) as -> by (apply Z.ltb_ge; lia).
    rewrite (by_hash_unhashed _ _ Hh). reflexivity.
Qed.

Lemma event_without_hash_breaks_classification_witness :
  SampleCalls.hashless_token
    ∈ token_txs (address_data SampleCalls.hashless_explorer)
  /\ SampleCalls.hashless_token !! "hash" = None
  /\ process_transaction SampleCalls.hashless_explorer SampleCalls.inbound_d1_row
     = Raise (KeyError "hash").
Proof.
  split; [right; left|]. split; [vm_compute; reflexivity|].
  apply event_without_hash_breaks_classification. left. split.
  - simpl. lia.
  - apply (bool_decide_eq_false_1 (hashed _)). vm_compute. reflexivity.
Defined.

(** *** The hash filters and the function name *)

(** X13.  The two hash filters, [token_txs_by_tx_hash] and
    [internal_txs_by_tx_hash], return the events of their list that carry
    the hash, in the order of the list, when every event of the list --
    with the hash asked for or not -- has a ["hash"] field; when one
    event has none they raise [KeyError] for ["hash"], whatever hash is
    asked for.  So a result is a sublist of the list, made of the events
    with the hash. *)
Theorem hash_filters_need_every_hash (d : EtherscanData) (hash : string) :
  (hashed (token_txs d) ->
   token_txs_by_tx_hash d hash
   = Ok (filter (fun e : raw_event => e !! "hash" = Some hash) (token_txs d)))
  /\ (¬ hashed (token_txs d) ->
      token_txs_by_tx_hash d hash = Raise (KeyError "hash"))
  /\ (hashed (internal_txs d) ->
      internal_txs_by_tx_hash d hash
      = Ok (filter (fun e : raw_event => e !! "hash" = Some hash)
              (internal_txs d)))
  /\ (¬ hashed (internal_txs d) ->
      internal_txs_by_tx_hash d hash = Raise (KeyError "hash"))
  /\ (forall r, token_txs_by_tx_hash d hash = Ok r ->
        r `sublist_of` token_txs d
        /\ forall e, e ∈ r <-> e ∈ token_txs d /\ e !! "hash" = Some hash)
  /\ (forall r, internal_txs_by_tx_hash d hash = Ok r ->
        r `sublist_of` internal_txs d
        /\ forall e, e ∈ r <-> e ∈ internal_txs d /\ e !! "hash" = Some hash).
Proof.
  unfold token_txs_by_tx_hash, internal_txs_by_tx_hash.
  assert (Hfilter : forall l r,
            by_hash l hash = Ok r ->
            r `sublist_of` l
            /\ forall e : raw_event, e ∈ r <-> e ∈ l /\ e !! "hash" = Some hash).
  { intros l r Hr. destruct (by_hash_Ok _ _ _ Hr) as [_ ->]. unfold sharing_hash.
    split; [apply sublist_filter|].
    intros e. rewrite list_elem_of_filter. tauto. }
  split; [apply by_hash_sharing|].
  split; [apply by_hash_unhashed|].
  split; [apply by_hash_sharing|].
  split; [apply by_hash_unhashed|].
  split; intros r Hr; exact (Hfilter _ _ Hr).
Qed.

Lemma hash_filters_need_every_hash_witness :
  token_txs_by_tx_hash (address_data SampleCalls.hashless_explorer) "0xd1"
  = Raise (KeyError "hash")
  /\ token_txs_by_tx_hash (address_data Sample.proxy_explorer) "0xc5"
     = Ok [Sample.dai_to_me].
Proof.
  destruct (hash_filters_need_every_hash
              (address_data SampleCalls.hashless_explorer) "0xd1")
    as (_ & H1 & _).
  destruct (hash_filters_need_every_hash
              (address_data Sample.proxy_explorer) "0xc5") as (H2 & _).
  split.
  - apply H1. apply (bool_decide_eq_false_1 (hashed _)). vm_compute. reflexivity.
  - rewrite H2; [reflexivity|].
    apply (bool_decide_unpack _). vm_compute. exact I.
Defined.

Lemma split_head_no_paren s : no_paren (Py.split_head s) = true.
Proof.
  induction s as [|c s IH]; simpl; [reflexivity|].
  destruct (Py.is_char c 40) eqn:E; simpl; [reflexivity|].
  rewrite E, IH. reflexivity.
Qed.

Lemma is_paren c : Py.is_char c 40 = true -> c = "("%char.
Proof.
  unfold Py.is_char, Py.code. intros H. apply Z.eqb_eq in H.
  assert (nat_of_ascii c = 40%nat) as Hn by lia.
  rewrite <- (ascii_nat_embedding c), Hn. reflexivity.
Qed.

Lemma split_head_prefix s :
  exists rest,
    s = String.append (Py.split_head s) rest
    /\ (rest = "" \/ exists rest', rest = String "(" rest').
Proof.
  induction s as [|c s (rest & IH & Hrest)]; simpl.
  - exists "". split; [reflexivity | left; reflexivity].
  - destruct (Py.is_char c 40) eqn:E; simpl.
    + exists (String c s). split; [reflexivity|]. right.
      rewrite (is_paren _ E). eauto.
    + exists rest. split; [|exact Hrest].
      change (String c s = String c (String.append (Py.split_head s) rest)).
      f_equal. exact IH.
Qed.

(** The function name of a result of the decomposition, the registry
    contract apart. *)
Lemma decomposition_function self row tx result to name fn r :
  tx !! "to" = Some to ->
  address_book self !! to = Some name ->
  name ≠ "Maker: Proxy Registry" ->
  tx !! "functionName" = Some fn ->
  process_contract_transaction self row tx result = Ok r ->
  tr_function r = Py.split_head fn.
Proof.
  intros Ht Hb Hne Hf H. unfold process_contract_transaction in H.
  rewrite (getitem_Some _ _ _ Ht) in H. cbn [mbind outcome_mbind outcome_bind] in H.
  rewrite (getitem_Some _ _ _ Hb) in H. cbn [mbind outcome_mbind outcome_bind] in H.
  destruct (String.eqb_spec name "Maker: Proxy Registry") as [|_]; [contradiction|].
  rewrite (getitem_Some _ _ _ Hf) in H. cbn [mbind outcome_mbind outcome_bind] in H.
  do 3 unbind H.
  { revert H; intros [= <-]. reflexivity. }
  do 5 unbind H. do 2 unbind H.
  match goal with
  | Ht : for_each (token_body _) _ ?r0 = Ok ?r1,
    Hi : for_each (internal_body _) _ ?r1 = Ok ?r2 |- _ =>
      destruct (for_each_token_body_inv _ _ _ _ Ht) as [tms ->];
      destruct (for_each_internal_body_inv _ _ _ _ Hi) as (ems & _ & ->);
      destruct (for_each_ds_token_body_inv _ _ _ _ H) as [dms ->];
      assert (tr_function r0 = Py.split_head fn) as Hr0
  end.
  { match goal with
    | E : (if Py.gt0 ?v then _ else _) = Ok _ |- _ =>
        destruct (Py.gt0 v); [unbind E|]; revert E; intros [= <-]; reflexivity
    end. }
  exact Hr0.
Qed.

(** X14.  The function name that the decomposition records is the text
    of the ["functionName"] field before its first opening parenthesis:
    it holds no parenthesis, and the field is the name followed by
    nothing or by a text that starts with the parenthesis.  (For the
    registry contract no function name is recorded.) *)
Theorem function_name_is_signature_head self row tx result to name fn r :
  tx !! "to" = Some to ->
  address_book self !! to = Some name ->
  name ≠ "Maker: Proxy Registry" ->
  tx !! "functionName" = Some fn ->
  process_contract_transaction self row tx result = Ok r ->
  no_paren (tr_function r) = true
  /\ exists rest,
       fn = String.append (tr_function r) rest
       /\ (rest = "" \/ exists rest', rest = String "(" rest').
Proof.
  intros Ht Hb Hne Hf H.
  rewrite (decomposition_function _ _ _ _ _ _ _ _ Ht Hb Hne Hf H).
  split; [apply split_head_no_paren | apply split_head_prefix].
Qed.

Lemma function_name_is_signature_head_witness :
  exists r,
    process_contract_transaction Sample.proxy_explorer Sample.proxy_row
      Sample.proxy_call (new_result "0xc5" 1600000800) = Ok r
    /\ tr_function r = "execute"
    /\ no_paren (tr_function r) = true.
Proof.
  destruct (process_contract_transaction Sample.proxy_explorer Sample.proxy_row
              Sample.proxy_call (new_result "0xc5" 1600000800))
    as [r|e] eqn:E; [|vm_compute in E; discriminate E].
  exists r. split; [reflexivity|].
  destruct (function_name_is_signature_head Sample.proxy_explorer
              Sample.proxy_row Sample.proxy_call (new_result "0xc5" 1600000800)
              "0xproxy" "DSProxy" "execute(address,bytes)" r) as [Hn _];
    lazymatch goal with
    | |- _ /\ _ => idtac
    | |- _ ≠ _ => discriminate
    | |- process_contract_transaction _ _ _ _ = _ => exact E
    | |- _ => vm_compute; reflexivity
    end.
  split; [|exact Hn].
  vm_compute in E. revert E; intros [= <-]. reflexivity.
Defined.

(** ** Further properties of the ledger builder *)

Lemma seen_body_inv seen acc e s1 a1 :
  seen_body (seen, acc) e = Ok (s1, a1) ->
  exists h, e !! "hash" = Some h
    /\ ((h ∈ seen /\ s1 = seen /\ a1 = acc)
        \/ (h ∉ seen /\ s1 = {[ h ]} ∪ seen
            /\ exists ts n, e !! "timeStamp" = Some ts /\ Py.int ts = Ok n
                            /\ a1 = acc ++ [(h, n)])).
Proof.
  unfold seen_body. intros H. unbind H. cbn [fst snd] in H.
  match goal with
  | Hh : Py.getitem e "hash" = Ok ?h |- _ =>
      exists h; split; [exact (getitem_inv _ _ _ Hh)|];
      destruct (bool_decide_reflect (h ∈ seen)) as [Hin|Hin]
  end.
  - revert H; intros [= <- <-]. left. auto.
  - do 2 unbind H. revert H; intros [= <- <-]. right.
    split; [exact Hin|]. split; [reflexivity|].
    match goal with
    | Ht : Py.getitem e "timeStamp" = Ok ?ts, Hn : Py.int _ = Ok ?n |- _ =>
        exists ts, n; split; [exact (getitem_inv _ _ _ Ht)|]; auto
    end.
Qed.

Lemma hashes_cons (e : raw_event) l h :
  e !! "hash" = Some h -> hashes (e :: l) = h :: hashes l.
Proof. unfold hashes. cbn [omap list_omap]. intros ->. reflexivity. Qed.

(** What the first loop has done when it ends without an exception. *)
Lemma seen_loop_inv evs : forall seen acc seen' acc',
  for_each seen_body evs (seen, acc) = Ok (seen', acc') ->
  hashed evs
  /\ exists new, acc' = acc ++ new
       /\ NoDup new.*1
       /\ forall h, h ∈ new.*1 <-> h ∈ hashes evs /\ h ∉ seen.
Proof.
  induction evs as [|e evs IH]; intros seen acc seen' acc'.
  - simpl. intros [= <- <-]. split; [constructor|]. exists [].
    rewrite app_nil_r. split; [reflexivity|]. split; [constructor|].
    intros h. cbn. set_solver.
  - cbn [for_each]. intros H.
    destruct (seen_body (seen, acc) e) as [[s1 a1]|] eqn:Hb;
      cbn [mbind outcome_mbind outcome_bind] in H; [|discriminate H].
    destruct (seen_body_inv _ _ _ _ _ Hb)
      as (h & Hh & [(Hin & -> & ->)|(Hin & -> & ts & n & _ & _ & ->)]);
      destruct (IH _ _ _ _ H) as (Hhd & new & -> & Hnd & Hel);
      (split; [constructor; [rewrite Hh; eauto | exact Hhd]|]);
      rewrite (hashes_cons _ _ _ Hh).
    + exists new. split; [reflexivity|]. split; [exact Hnd|].
      intros h'. rewrite Hel, elem_of_cons. split; [tauto|].
      intros [[->|?] ?]; [contradiction | tauto].
    + exists ((h, n) :: new). rewrite <- app_assoc. split; [reflexivity|].
      rewrite fmap_cons. cbn [fst]. split.
      * apply NoDup_cons. split; [|exact Hnd].
        rewrite Hel. intros [_ Hn]. apply Hn. set_solver.
      * intros h'. rewrite !elem_of_cons, Hel. split.
        -- intros [->|[? Hn]]; [tauto|].
           split; [tauto|]. intros ?. apply Hn. set_solver.
        -- intros [[->|?] Hn]; [tauto|].
           destruct (decide (h' = h)) as [->|Hne]; [tauto|].
           right. split; [assumption|]. set_solver.
Qed.

Section SummaryFacts.

Context {datetime date : Type}.
Variable fromtimestamp : Z -> outcome datetime.
Variable datetime_date : datetime -> date.

Lemma make_frame_inv d keys (rows : list (summary_row datetime date)) :
  make_frame datetime date fromtimestamp datetime_date keys = Ok rows ->
  filled_frame d [] keys rows.
Proof.
  unfold filled_frame. revert rows.
  induction keys as [|[h ts] keys IH]; intros rows; simpl.
  - intros [= <-]. constructor.
  - intros H. do 2 unbind H. revert H; intros [= <-].
    constructor; [|apply IH; reflexivity].
    cbn. split; [reflexivity|]. split; [reflexivity|].
    intros c. destruct c; reflexivity.
Qed.

Ltac new_column :=
  repeat (apply not_elem_of_cons; split; [discriminate|]); apply not_elem_of_nil.

Lemma hashed_columns d c : hashed (all_txs d) -> hashed (column_events d c).
Proof.
  unfold hashed, all_txs. rewrite !Forall_app. destruct c; simpl; tauto.
Qed.

(** A frame that [get_summary] returns: its rows are in line with keys of
    distinct hashes, those of the events, and every column is filled. *)
Lemma get_summary_inv d (rows : list (summary_row datetime date)) :
  get_summary datetime date fromtimestamp datetime_date d = Ok rows ->
  hashed (all_txs d)
  /\ exists keys,
       filled_frame d [erc1155; erc721; erc20; has_internal; normal] keys rows
       /\ NoDup keys.*1
       /\ forall h, h ∈ keys.*1 <-> h ∈ hashes (all_txs d).
Proof.
  intros H. unfold get_summary in H.
  destruct (for_each seen_body (all_txs d) (∅, [])) as [[seen acc]|] eqn:E1;
    cbn [mbind outcome_mbind outcome_bind] in H; [|discriminate H].
  destruct (seen_loop_inv _ _ _ _ _ E1) as (Hh & new & -> & Hnd & Hel).
  cbn [snd app] in H.
  split; [exact Hh|].
  destruct (make_frame datetime date fromtimestamp datetime_date
              (sorted_by_key snd new)) as [rows0|] eqn:E2;
    cbn [mbind outcome_mbind outcome_bind] in H; [|discriminate H].
  pose proof (make_frame_inv d _ _ E2) as H0.
  destruct (count_loop_filled d normal [] _ _ (hashed_columns d _ Hh)
              ltac:(new_column) H0) as (rows1 & E & H1).
  rewrite E in H; cbn [mbind outcome_mbind outcome_bind] in H; clear E.
  destruct (count_loop_filled d has_internal [normal] _ _ (hashed_columns d _ Hh)
              ltac:(new_column) H1) as (rows2 & E & H2).
  rewrite E in H; cbn [mbind outcome_mbind outcome_bind] in H; clear E.
  destruct (count_loop_filled d erc20 [has_internal; normal] _ _
              (hashed_columns d _ Hh) ltac:(new_column) H2)
    as (rows3 & E & H3).
  rewrite E in H; cbn [mbind outcome_mbind outcome_bind] in H; clear E.
  destruct (count_loop_filled d erc721 [erc20; has_internal; normal] _ _
              (hashed_columns d _ Hh) ltac:(new_column) H3)
    as (rows4 & E & H4).
  rewrite E in H; cbn [mbind outcome_mbind outcome_bind] in H; clear E.
  destruct (count_loop_filled d erc1155 [erc721; erc20; has_internal; normal]
              _ _ (hashed_columns d _ Hh) ltac:(new_column) H4)
    as (rows5 & E & H5).
  rewrite E in H. revert H; intros [= <-].
  exists (sorted_by_key snd new). split; [exact H5|].
  assert (Hperm : (sorted_by_key snd new).*1 ≡ₚ new.*1)
    by (apply fmap_Permutation, sorted_by_key_perm).
  split; [rewrite Hperm; exact Hnd|].
  intros h. rewrite Hperm, Hel. split; [tauto|].
  intros ?. split; [assumption | apply not_elem_of_empty].
Qed.

(** The count of a column, row by row. *)
Lemma get_summary_counts d (rows : list (summary_row datetime date)) r c :
  get_summary datetime date fromtimestamp datetime_date d = Ok rows ->
  r ∈ rows ->
  get_column c r
  = Z.of_nat (length (sharing_hash (sr_hash r) (column_events d c))).
Proof.
  intros H Hr. destruct (get_summary_inv _ _ H) as (_ & keys & Hf & _).
  rewrite (proj2 (filled_frame_elem _ _ _ _ _ Hf Hr) c).
  destruct c; reflexivity.
Qed.

End SummaryFacts.

(** *** Sums over the rows *)

Lemma sum_rows_ext {A} (f g : A -> Z) l :
  (forall x, x ∈ l -> f x = g x) -> sum_rows f l = sum_rows g l.
Proof.
  induction l as [|a l IH]; intros H; simpl; [reflexivity|].
  rewrite (H a) by apply list_elem_of_here.
  rewrite IH; [reflexivity|]. intros x Hx. apply H. apply list_elem_of_further, Hx.
Qed.

Lemma sum_rows_add {A} (f g : A -> Z) l :
  sum_rows (fun x => f x + g x) l = sum_rows f l + sum_rows g l.
Proof. induction l as [|a l IH]; simpl; [reflexivity|]. rewrite IH. lia. Qed.

Lemma sum_rows_fmap {A B} (g : A -> B) (f : B -> Z) l :
  sum_rows f (g <$> l) = sum_rows (fun x => f (g x)) l.
Proof. induction l as [|a l IH]; [reflexivity|]. simpl. f_equal. exact IH. Qed.

Lemma sum_rows_zero {A} (l : list A) : sum_rows (fun _ => 0) l = 0.
Proof. induction l as [|a l IH]; simpl; [reflexivity|]. rewrite IH. reflexivity. Qed.

Lemma sum_rows_indicator (h0 : string) hs :
  NoDup hs ->
  sum_rows (fun h => if decide (h = h0) then 1 else 0) hs
  = if decide (h0 ∈ hs) then 1 else 0.
Proof.
  induction 1 as [|h hs Hn _ IH]; cbn [sum_rows foldr].
  - rewrite decide_False by apply not_elem_of_nil. reflexivity.
  - fold (sum_rows (fun h => if decide (h = h0) then 1 else 0) hs).
    rewrite IH.
    destruct (decide (h = h0)) as [E|Hne], (decide (h0 ∈ hs)) as [Hin|Hin],
      (decide (h0 ∈ h :: hs)) as [Hin'|Hin']; try reflexivity; exfalso;
      rewrite ?elem_of_cons in *; naive_solver.
Qed.

(** Every event is counted under one hash. *)
Lemma count_by_hash (l : list raw_event) (hs : list string) :
  hashed l -> NoDup hs -> (forall h, h ∈ hashes l -> h ∈ hs) ->
  sum_rows (fun h => Z.of_nat (length (sharing_hash h l))) hs
  = Z.of_nat (length l).
Proof.
  intros Hh Hnd. unfold hashed in Hh.
  induction Hh as [|e l [h0 He] _ IH]; intros Hcov.
  - apply sum_rows_zero.
  - rewrite (hashes_cons _ _ _ He) in Hcov.
    rewrite (sum_rows_ext _
               (fun h => (if decide (h = h0) then 1 else 0)
                         + Z.of_nat (length (sharing_hash h l)))).
    + rewrite sum_rows_add, (sum_rows_indicator _ _ Hnd), IH.
      * rewrite decide_True by (apply Hcov, list_elem_of_here).
        cbn [length]. lia.
      * intros h Hin. apply Hcov, list_elem_of_further, Hin.
    + intros h _. unfold sharing_hash. rewrite filter_cons, He.
      destruct (decide (h = h0)) as [->|Hne].
      * rewrite decide_True by reflexivity. cbn [length]. lia.
      * rewrite decide_False by congruence. lia.
Qed.

Lemma hashes_app l1 l2 : hashes (l1 ++ l2) = hashes l1 ++ hashes l2.
Proof. unfold hashes. apply omap_app. Qed.

Lemma column_hashes d c h :
  h ∈ hashes (column_events d c) -> h ∈ hashes (all_txs d).
Proof.
  unfold all_txs. rewrite !hashes_app, !elem_of_app. destruct c; simpl; tauto.
Qed.

Lemma hashes_column d h :
  h ∈ hashes (all_txs d) -> exists c, h ∈ hashes (column_events d c).
Proof.
  unfold all_txs. rewrite !hashes_app, !elem_of_app.
  intros [H|[H|[H|[H|H]]]];
    [exists normal | exists has_internal | exists erc20 | exists erc721
     | exists erc1155]; exact H.
Qed.

Lemma sharing_hash_elem h l :
  h ∈ hashes l -> (1 <= length (sharing_hash h l))%nat.
Proof.
  unfold hashes, sharing_hash. intros (e & He & Hh)%list_elem_of_omap.
  assert (e ∈ filter (fun e : raw_event => e !! "hash" = Some h) l) as Hin
    by (apply list_elem_of_filter; split; assumption).
  destruct (filter _ l); [inversion Hin | simpl; lia].
Qed.

Lemma row_total_columns {datetime date} (r : summary_row datetime date) :
  row_total r
  = get_column normal r + get_column has_internal r + get_column erc20 r
    + get_column erc721 r + get_column erc1155 r.
Proof. reflexivity. Qed.

(** X15.  A summary frame that [get_summary] returns counts every event
    once: in each count column the numbers of the rows add up to the
    number of events of the column's category, and the five columns of
    all the rows add up to the number of events of [all_txs]. *)
Theorem summary_counts_every_event {datetime date : Type}
    (fromtimestamp : Z -> outcome datetime) (datetime_date : datetime -> date)
    (d : EtherscanData) (rows : list (summary_row datetime date)) :
  get_summary datetime date fromtimestamp datetime_date d = Ok rows ->
  (forall c, sum_rows (get_column c) rows
             = Z.of_nat (length (column_events d c)))
  /\ sum_rows row_total rows = Z.of_nat (length (all_txs d)).
Proof.
  intros H.
  assert (Hc : forall c, sum_rows (get_column c) rows
                         = Z.of_nat (length (column_events d c))).
  { intros c. destruct (get_summary_inv _ _ _ _ H) as (Hh & keys & Hf & Hnd & Hel).
    rewrite (sum_rows_ext _
               (fun r => Z.of_nat (length (sharing_hash (sr_hash r)
                                             (column_events d c)))))
      by (intros r Hr; exact (get_summary_counts _ _ _ _ r c H Hr)).
    rewrite <- (sum_rows_fmap sr_hash
                  (fun h => Z.of_nat (length (sharing_hash h (column_events d c))))).
    rewrite (filled_frame_hashes _ _ _ _ Hf).
    apply count_by_hash; [exact (hashed_columns d c Hh) | exact Hnd|].
    intros h Hin. apply Hel. exact (column_hashes _ _ _ Hin). }
  split; [exact Hc|].
  rewrite (sum_rows_ext row_total _ rows (fun r _ => row_total_columns r)).
  rewrite !sum_rows_add, !Hc. unfold all_txs. rewrite !length_app. simpl. lia.
Qed.

Lemma summary_counts_every_event_witness :
  exists rows,
    get_summary Z Z SampleLedger.fromtimestamp SampleLedger.datetime_date
      SampleLedger.data = Ok rows
    /\ sum_rows row_total rows = 7
    /\ length (all_txs SampleLedger.data) = 7%nat.
Proof.
  destruct (get_summary Z Z SampleLedger.fromtimestamp
              SampleLedger.datetime_date SampleLedger.data)
    as [rows|e] eqn:E; [|vm_compute in E; discriminate E].
  exists rows. split; [reflexivity|].
  destruct (summary_counts_every_event _ _ _ _ E) as [_ ->].
  split; reflexivity.
Defined.

(** X16.  A summary frame has no empty row and no negative count: every
    count of every row is at least 0, and the five counts of a row add up
    to at least 1. *)
Theorem summary_rows_count_something {datetime date : Type}
    (fromtimestamp : Z -> outcome datetime) (datetime_date : datetime -> date)
    (d : EtherscanData) (rows : list (summary_row datetime date)) r :
  get_summary datetime date fromtimestamp datetime_date d = Ok rows ->
  r ∈ rows ->
  (forall c, 0 <= get_column c r) /\ 1 <= row_total r.
Proof.
  intros H Hr.
  assert (Hc : forall c, 0 <= get_column c r).
  { intros c. rewrite (get_summary_counts _ _ _ _ r c H Hr). lia. }
  split; [exact Hc|].
  destruct (get_summary_inv _ _ _ _ H) as (Hh & keys & Hf & Hnd & Hel).
  assert (sr_hash r ∈ keys.*1) as Hin.
  { rewrite <- (filled_frame_hashes _ _ _ _ Hf). apply list_elem_of_fmap_2, Hr. }
  apply Hel, hashes_column in Hin. destruct Hin as [c Hin].
  pose proof (sharing_hash_elem _ _ Hin) as Hlen.
  pose proof (get_summary_counts _ _ _ _ r c H Hr) as Hcount.
  rewrite row_total_columns.
  pose proof (Hc normal). pose proof (Hc has_internal). pose proof (Hc erc20).
  pose proof (Hc erc721). pose proof (Hc erc1155).
  destruct c; lia.
Qed.

Lemma summary_rows_count_something_witness :
  exists rows r,
    get_summary Z Z SampleLedger.fromtimestamp SampleLedger.datetime_date
      SampleLedger.data = Ok rows
    /\ head rows = Some r
    /\ 1 <= row_total r.
Proof.
  destruct (get_summary Z Z SampleLedger.fromtimestamp
              SampleLedger.datetime_date SampleLedger.data)
    as [[|r rows]|e] eqn:E; try (vm_compute in E; discriminate E).
  exists (r :: rows), r. split; [reflexivity|]. split; [reflexivity|].
  exact (proj2 (summary_rows_count_something _ _ _ _ r E
                  (list_elem_of_here _ _))).
Defined.

(** X17.  The ledger and the classifier agree on the normal events: for
    every row of a summary frame built from the raw events that the
    classifier reads, the normal count is below 1 exactly when no normal
    event has the row's hash, and the classification of the row never
    raises [IndexError]. *)
Theorem ledger_rows_are_consistent {datetime date : Type}
    (fromtimestamp : Z -> outcome datetime) (datetime_date : datetime -> date)
    (self : TransactionExplorer) (rows : list (summary_row datetime date)) r :
  get_summary datetime date fromtimestamp datetime_date (address_data self)
  = Ok rows ->
  r ∈ rows ->
  (row_normal (row_of r) < 1
   <-> sharing_hash (sr_hash r) (txs (address_data self)) = [])
  /\ process_transaction self (row_of r) ≠ Raise IndexError.
Proof.
  intros H Hr.
  pose proof (get_summary_counts _ _ _ _ r normal H Hr) as Hn.
  cbn [get_column column_events] in Hn.
  assert (Hiff : row_normal (row_of r) < 1
                 <-> sharing_hash (sr_hash r) (txs (address_data self)) = []).
  { cbn [row_of row_normal]. rewrite Hn.
    destruct (sharing_hash (sr_hash r) (txs (address_data self)));
      cbn [length]; split; intros; try reflexivity; try discriminate; lia. }
  split; [exact Hiff|].
  intros Hidx. apply index_error_is_inconsistent_ledger in Hidx.
  destruct Hidx as (Hge & _ & Hnil). cbn [row_of row_hash] in Hnil.
  apply Hiff in Hnil. lia.
Qed.

Lemma ledger_rows_are_consistent_witness :
  let self := {| address_data := SampleLedger.data;
                 ds_proxy_data := Sample.no_events;
                 address_book := Sample.book;
                 known_contracts := Sample.contracts |} in
  exists rows r,
    get_summary Z Z SampleLedger.fromtimestamp SampleLedger.datetime_date
      (address_data self) = Ok rows
    /\ head rows = Some r
    /\ process_transaction self (row_of r) ≠ Raise IndexError.
Proof.
  intros self.
  destruct (get_summary Z Z SampleLedger.fromtimestamp
              SampleLedger.datetime_date (address_data self))
    as [[|r rows]|e] eqn:E; try (vm_compute in E; discriminate E).
  exists (r :: rows), r. split; [reflexivity|]. split; [reflexivity|].
  exact (proj2 (ledger_rows_are_consistent _ _ self _ r E
                  (list_elem_of_here _ _))).
Defined.

Lemma seen_body_unhashed st (e : raw_event) :
  e !! "hash" = None -> seen_body st e = Raise (KeyError "hash").
Proof. intros Hh. unfold seen_body. rewrite (getitem_None _ _ Hh). reflexivity. Qed.

Lemma seen_body_errors st (e : raw_event) err :
  seen_body st e = Raise err ->
  err = KeyError "hash" \/ err = KeyError "timeStamp" \/ err = ValueError.
Proof.
  unfold seen_body. intros Hb.
  destruct (e !! "hash") as [h|] eqn:E1;
    [rewrite (getitem_Some _ _ _ E1) in Hb
    | rewrite (getitem_None _ _ E1) in Hb; revert Hb; intros [= <-]; auto].
  cbn [mbind outcome_mbind outcome_bind] in Hb.
  destruct (bool_decide (h ∈ st.1)); [discriminate Hb|].
  destruct (e !! "timeStamp") as [ts|] eqn:E2;
    [rewrite (getitem_Some _ _ _ E2) in Hb
    | rewrite (getitem_None _ _ E2) in Hb; revert Hb; intros [= <-]; auto].
  cbn [mbind outcome_mbind outcome_bind] in Hb.
  unfold Py.int in Hb.
  destruct (Py.int_of_chars _); cbn [mbind outcome_mbind outcome_bind] in Hb;
    [discriminate Hb | revert Hb; intros [= <-]; auto].
Qed.

(** X18.  [get_summary] returns no frame when one event, of any
    category, has no ["hash"] field: the first loop raises before the
    frame is made, with [KeyError] for ["hash"] or, when an earlier event
    stops it, with [KeyError] for ["timeStamp"] or the [ValueError] of
    [int]. *)
Theorem summary_needs_every_hash {datetime date : Type}
    (fromtimestamp : Z -> outcome datetime) (datetime_date : datetime -> date)
    (d : EtherscanData) (e : raw_event) :
  e ∈ all_txs d ->
  e !! "hash" = None ->
  exists err,
    get_summary datetime date fromtimestamp datetime_date d = Raise err
    /\ (err = KeyError "hash" \/ err = KeyError "timeStamp" \/ err = ValueError).
Proof.
  intros He Hh. unfold get_summary.
  assert (Hloop : forall st,
            exists err,
              for_each seen_body (all_txs d) st = Raise err
              /\ (err = KeyError "hash" \/ err = KeyError "timeStamp"
                  \/ err = ValueError)).
  { induction He as [e l|e e' l _ IH]; intros st; cbn [for_each].
    - rewrite (seen_body_unhashed _ _ Hh). eauto.
    - destruct (seen_body st e') as [st'|err] eqn:Hb;
        cbn [mbind outcome_mbind outcome_bind]; [apply IH; exact Hh|].
      exists err. split; [reflexivity | exact (seen_body_errors _ _ _ Hb)]. }
  destruct (Hloop (∅, [])) as (err & -> & Herr).
  exists err. split; [reflexivity | exact Herr].
Qed.

Lemma summary_needs_every_hash_witness :
  let d := {| txs := txs SampleLedger.data;
              internal_txs := internal_txs SampleLedger.data;
              token_txs := token_txs SampleLedger.data;
              nft_txs := [SampleCalls.hashless_token];
              erc1155_txs := [] |} in
  exists err,
    get_summary Z Z SampleLedger.fromtimestamp SampleLedger.datetime_date d
    = Raise err.
Proof.
  intros d.
  destruct (summary_needs_every_hash SampleLedger.fromtimestamp
              SampleLedger.datetime_date d SampleCalls.hashless_token)
    as (err & Herr & _).
  - unfold all_txs. rewrite !elem_of_app. right; right; right; left.
    apply list_elem_of_here.
  - vm_compute. reflexivity.
  - exists err. exact Herr.
Defined.

(** *** When [get_summary] returns a frame *)

Lemma first_of_hash_cons (e0 : raw_event) evs e h h0 :
  e0 !! "hash" = Some h0 ->
  first_of_hash (e0 :: evs) e h ->
  (e = e0 /\ h = h0) \/ (h ≠ h0 /\ first_of_hash evs e h).
Proof.
  intros H0 (l1 & l2 & Hl & He & Hn). destruct l1 as [|x l1].
  - revert Hl; intros [= <- _]. left. split; [reflexivity | congruence].
  - revert Hl; intros [= <- ->]. rewrite (hashes_cons _ _ _ H0) in Hn.
    apply not_elem_of_cons in Hn as [Hne Hn]. right. split; [exact Hne|].
    exists l1, l2. auto.
Qed.

Lemma first_of_hash_here (e0 : raw_event) evs h0 :
  e0 !! "hash" = Some h0 -> first_of_hash (e0 :: evs) e0 h0.
Proof.
  intros H0. exists [], evs. split; [reflexivity|]. split; [exact H0|].
  apply not_elem_of_nil.
Qed.

Lemma first_of_hash_further (e0 : raw_event) evs e h h0 :
  e0 !! "hash" = Some h0 -> h ≠ h0 ->
  first_of_hash evs e h -> first_of_hash (e0 :: evs) e h.
Proof.
  intros H0 Hne (l1 & l2 & -> & He & Hn). exists (e0 :: l1), l2.
  split; [reflexivity|]. split; [exact He|].
  rewrite (hashes_cons _ _ _ H0). apply not_elem_of_cons. auto.
Qed.

(** The first loop reads the timestamp of every event that is the first
    of its hash, and keeps it. *)
Lemma seen_loop_reads evs : forall seen acc seen' acc',
  for_each seen_body evs (seen, acc) = Ok (seen', acc') ->
  forall e h, first_of_hash evs e h -> h ∉ seen ->
  exists ts n, e !! "timeStamp" = Some ts /\ Py.int ts = Ok n /\ (h, n) ∈ acc'.
Proof.
  induction evs as [|e0 evs IH]; intros seen acc seen' acc' H e h Hfirst Hseen.
  - destruct Hfirst as (l1 & l2 & Hl & _). destruct l1; discriminate Hl.
  - cbn [for_each] in H.
    destruct (seen_body (seen, acc) e0) as [[s1 a1]|] eqn:Hb;
      cbn [mbind outcome_mbind outcome_bind] in H; [|discriminate H].
    destruct (seen_loop_inv _ _ _ _ _ H) as (_ & new & Hacc & _).
    destruct (seen_body_inv _ _ _ _ _ Hb)
      as (h0 & Hh0 & [(Hin & -> & ->)|(Hin & -> & ts & n & Hts & Hn & ->)]);
      destruct (first_of_hash_cons _ _ _ _ _ Hh0 Hfirst) as [[-> ->]|[Hne Hf]].
    + contradiction.
    + exact (IH _ _ _ _ H _ _ Hf Hseen).
    + exists ts, n. split; [exact Hts|]. split; [exact Hn|].
      rewrite Hacc. rewrite !elem_of_app. left. right. apply list_elem_of_here.
    + apply (IH _ _ _ _ H _ _ Hf). set_solver.
Qed.

(** Every key that the first loop adds is the hash and the timestamp of
    an event that is the first of its hash. *)
Lemma seen_loop_keys evs : forall seen acc seen' acc',
  for_each seen_body evs (seen, acc) = Ok (seen', acc') ->
  exists new,
    acc' = acc ++ new
    /\ forall p, p ∈ new ->
         p.1 ∉ seen
         /\ exists e ts, first_of_hash evs e p.1
                         /\ e !! "timeStamp" = Some ts /\ Py.int ts = Ok p.2.
Proof.
  induction evs as [|e0 evs IH]; intros seen acc seen' acc' H.
  - revert H; intros [= <- <-]. exists []. rewrite app_nil_r.
    split; [reflexivity|]. intros p Hp. inversion Hp.
  - cbn [for_each] in H.
    destruct (seen_body (seen, acc) e0) as [[s1 a1]|] eqn:Hb;
      cbn [mbind outcome_mbind outcome_bind] in H; [|discriminate H].
    destruct (seen_body_inv _ _ _ _ _ Hb)
      as (h0 & Hh0 & [(Hin & -> & ->)|(Hin & -> & ts & n & Hts & Hn & ->)]);
      destruct (IH _ _ _ _ H) as (new & -> & Hnew).
    + exists new. split; [reflexivity|]. intros p Hp.
      destruct (Hnew p Hp) as (Hns & e & ts & Hf & Hts & Hn).
      split; [exact Hns|]. exists e, ts. split; [|auto].
      apply (first_of_hash_further _ _ _ _ _ Hh0); [|exact Hf].
      intros E. apply Hns. rewrite E. exact Hin.
    + exists ((h0, n) :: new). rewrite <- app_assoc. split; [reflexivity|].
      intros p [->|Hp]%elem_of_cons.
      * split; [exact Hin|]. exists e0, ts.
        split; [apply first_of_hash_here; exact Hh0 | auto].
      * destruct (Hnew p Hp) as (Hns & e & ts' & Hf & Hts' & Hn').
        split; [set_solver|]. exists e, ts'. split; [|auto].
        apply (first_of_hash_further _ _ _ _ _ Hh0); [|exact Hf].
        set_solver.
Qed.

(** The first loop goes through when every event has its hash and the
    first event of every hash has a timestamp that [int] reads. *)
Lemma seen_loop_total evs : forall seen acc,
  hashed evs ->
  (forall e h, first_of_hash evs e h -> h ∉ seen ->
     exists ts n, e !! "timeStamp" = Some ts /\ Py.int ts = Ok n) ->
  exists st, for_each seen_body evs (seen, acc) = Ok st.
Proof.
  induction evs as [|e0 evs IH]; intros seen acc Hh Hts.
  - eexists. reflexivity.
  - apply Forall_cons in Hh as [[h0 Hh0] Hh]. cbn [for_each].
    assert (exists st, seen_body (seen, acc) e0 = Ok st
                       /\ (st.1 = seen \/ st.1 = {[ h0 ]} ∪ seen)
                       /\ (h0 ∈ st.1)) as ([s1 a1] & -> & Hs1 & Hin1).
    { unfold seen_body. rewrite (getitem_Some _ _ _ Hh0).
      cbn [mbind outcome_mbind outcome_bind fst snd].
      destruct (bool_decide_reflect (h0 ∈ seen)) as [Hin|Hin].
      - eexists. split; [reflexivity|]. split; [left; reflexivity | exact Hin].
      - destruct (Hts e0 h0 (first_of_hash_here _ _ _ Hh0) Hin)
          as (ts & n & Ets & En).
        rewrite (getitem_Some _ _ _ Ets).
        cbn [mbind outcome_mbind outcome_bind]. rewrite En.
        cbn [mbind outcome_mbind outcome_bind].
        eexists. split; [reflexivity|]. cbn [fst].
        split; [right; reflexivity | set_solver]. }
    cbn [mbind outcome_mbind outcome_bind]. cbn [fst] in Hs1, Hin1.
    apply IH; [exact Hh|].
    intros e h Hf Hns. apply (Hts e h).
    + apply (first_of_hash_further _ _ _ _ _ Hh0); [|exact Hf].
      intros ->. contradiction.
    + destruct Hs1 as [->| ->]; set_solver.
Qed.

Lemma make_frame_clock {datetime date : Type}
    (fromtimestamp : Z -> outcome datetime) (datetime_date : datetime -> date)
    keys (rows : list (summary_row datetime date)) :
  make_frame datetime date fromtimestamp datetime_date keys = Ok rows ->
  forall p, p ∈ keys -> is_Ok (fromtimestamp p.2) = true.
Proof.
  revert rows. induction keys as [|[h ts] keys IH]; intros rows; simpl.
  - intros _ p Hp. inversion Hp.
  - intros H. do 2 unbind H. intros p [->|Hp]%elem_of_cons.
    + cbn [snd]. match goal with E : fromtimestamp ts = Ok _ |- _ => rewrite E end.
      reflexivity.
    + eapply IH; [reflexivity | exact Hp].
Qed.

(** X19.  [get_summary] returns a frame exactly when every event of the
    five lists has a ["hash"] field and, for every event that is the
    first of its hash in the order of [all_txs], the ["timeStamp"] field
    is there, [int] reads it and [datetime.fromtimestamp] accepts the
    number.  The timestamp of an event whose hash was met before is never
    read: it may be missing or unreadable. *)
Theorem summary_succeeds_iff {datetime date : Type}
    (fromtimestamp : Z -> outcome datetime) (datetime_date : datetime -> date)
    (d : EtherscanData) :
  (exists rows, get_summary datetime date fromtimestamp datetime_date d = Ok rows)
  <-> hashed (all_txs d)
      /\ forall e h, first_of_hash (all_txs d) e h ->
           exists ts n, e !! "timeStamp" = Some ts /\ Py.int ts = Ok n
                        /\ is_Ok (fromtimestamp n) = true.
Proof.
  split.
  - intros [rows H]. unfold get_summary in H.
    destruct (for_each seen_body (all_txs d) (∅, [])) as [[seen acc]|] eqn:E1;
      cbn [mbind outcome_mbind outcome_bind] in H; [|discriminate H].
    destruct (seen_loop_inv _ _ _ _ _ E1) as (Hh & _).
    split; [exact Hh|]. intros e h Hf.
    destruct (seen_loop_reads _ _ _ _ _ E1 e h Hf (not_elem_of_empty _))
      as (ts & n & Hts & Hn & Hin).
    exists ts, n. split; [exact Hts|]. split; [exact Hn|].
    cbn [snd] in H.
    destruct (make_frame datetime date fromtimestamp datetime_date
                (sorted_by_key snd acc)) as [rows0|] eqn:E2;
      [|discriminate H].
    apply (make_frame_clock _ _ _ _ E2 (h, n)).
    apply sorted_by_key_elem. exact Hin.
  - intros [Hh Hts]. unfold get_summary.
    destruct (seen_loop_total (all_txs d) ∅ [] Hh) as [[seen acc] E1].
    { intros e h Hf _. destruct (Hts e h Hf) as (ts & n & ? & ? & _). eauto. }
    rewrite E1. cbn [mbind outcome_mbind outcome_bind snd].
    destruct (seen_loop_keys _ _ _ _ _ E1) as (new & Hacc & Hnew).
    cbn [app] in Hacc. subst acc.
    destruct (make_frame_filled fromtimestamp datetime_date d
                (sorted_by_key snd new)) as (rows0 & -> & H0).
    { intros p Hp. apply sorted_by_key_elem in Hp.
      destruct (Hnew p Hp) as (_ & e & ts & Hf & Ets & En).
      destruct (Hts e _ Hf) as (ts' & n' & Ets' & En' & Hclock).
      assert (ts' = ts) as -> by congruence.
      assert (n' = p.2) as -> by congruence. exact Hclock. }
    cbn [mbind outcome_mbind outcome_bind].
    destruct (count_loop_filled d normal [] _ _ (hashed_columns d _ Hh)
                ltac:(repeat (apply not_elem_of_cons; split; [discriminate|]);
                      apply not_elem_of_nil) H0) as (rows1 & -> & H1).
    cbn [mbind outcome_mbind outcome_bind].
    destruct (count_loop_filled d has_internal [normal] _ _
                (hashed_columns d _ Hh)
                ltac:(repeat (apply not_elem_of_cons; split; [discriminate|]);
                      apply not_elem_of_nil) H1) as (rows2 & -> & H2).
    cbn [mbind outcome_mbind outcome_bind].
    destruct (count_loop_filled d erc20 [has_internal; normal] _ _
                (hashed_columns d _ Hh)
                ltac:(repeat (apply not_elem_of_cons; split; [discriminate|]);
                      apply not_elem_of_nil) H2) as (rows3 & -> & H3).
    cbn [mbind outcome_mbind outcome_bind].
    destruct (count_loop_filled d erc721 [erc20; has_internal; normal] _ _
                (hashed_columns d _ Hh)
                ltac:(repeat (apply not_elem_of_cons; split; [discriminate|]);
                      apply not_elem_of_nil) H3) as (rows4 & -> & H4).
    cbn [mbind outcome_mbind outcome_bind].
    destruct (count_loop_filled d erc1155 [erc721; erc20; has_internal; normal]
                _ _ (hashed_columns d _ Hh)
                ltac:(repeat (apply not_elem_of_cons; split; [discriminate|]);
                      apply not_elem_of_nil) H4) as (rows5 & -> & H5).
    exists rows5. reflexivity.
Qed.
